(** * Data quality checker and API validator

    A shallow embedding of [src/quality_check.py] (class
    [DataQualityChecker]) and [src/api_validator.py] (class
    [APIValidator]), and the properties of the validation engine that the
    specification states about them.

    Modelling conventions.
    - A pandas [DataFrame] is a row count (the length of its index) and an
      ordered list of named columns; a column carries its dtype tag and its
      cells.  Column names may repeat, as pandas allows.
    - A Python float (the missing-value threshold, a per-column missing
      fraction, a float cell) is kept as the exact rational value [Qc] of
      the float64; NaN is [None].  Floats are compared by value; a quotient
      and a product are rounded to the nearest float64, ties to even, as
      the hardware rounds them ([round64]).
    - A formatted message (an f-string) is kept as its template together
      with the values substituted into it.
    - A Python exception is a value [PyExn]; code that may raise returns an
      [Outcome].
    - The list [self.issues] lives in a store and is referred to by its
      location, so that a report and the checker that produced it share
      it, as they do in Python.
    - Logging is not modelled. *)

From Stdlib Require Import QArith Qcanon.
From Stdlib Require Import PrimInt63 Uint63 PrimFloat SpecFloat FloatOps.
From stdpp Require Import base option numbers list strings gmap fin_maps.

Local Open Scope string_scope.

(** ** Python values *)

(** Objects found in a record field or in a cell of a frame. *)
Inductive Scalar :=
  | SNone
  | SNaN
  | SBool (b : bool)
  | SInt (z : Z)
  | SFloat (q : Qc)
  | SStr (s : string)
  | SDatetime (t : Z)
  | SList (items : list Z).

Global Instance Scalar_eq_dec : EqDecision Scalar.
Proof. solve_decision. Defined.

(** The classes a schema of [validate_dict] may name, and the classes of
    the objects above. *)
Inductive PyClass :=
  | cls_str | cls_int | cls_float | cls_bool | cls_datetime
  | cls_NoneType | cls_list | cls_dict.

Global Instance PyClass_eq_dec : EqDecision PyClass.
Proof. solve_decision. Defined.

(** [type(value)] *)
Definition type_of (v : Scalar) : PyClass :=
  match v with
  | SNone => cls_NoneType
  | SNaN | SFloat _ => cls_float
  | SBool _ => cls_bool
  | SInt _ => cls_int
  | SStr _ => cls_str
  | SDatetime _ => cls_datetime
  | SList _ => cls_list
  end.

(** [cls.__name__] *)
Definition class_name (c : PyClass) : string :=
  match c with
  | cls_str => "str" | cls_int => "int" | cls_float => "float"
  | cls_bool => "bool" | cls_datetime => "datetime"
  | cls_NoneType => "NoneType" | cls_list => "list" | cls_dict => "dict"
  end.

(** [issubclass(c, d)]: [bool] is a subclass of [int]. *)
Definition issubclass (c d : PyClass) : bool :=
  bool_decide (c = d) || (bool_decide (c = cls_bool) && bool_decide (d = cls_int)).

(** What a schema of [validate_dict] expects of a field: a class, or a
    tuple of classes. *)
Inductive ExpectedClass :=
  | Cls (c : PyClass)
  | ClsTuple (cs : list PyClass).

(** [isinstance(value, expected_type)] *)
Definition isinstance (v : Scalar) (expected_type : ExpectedClass) : bool :=
  match expected_type with
  | Cls c => issubclass (type_of v) c
  | ClsTuple cs => existsb (issubclass (type_of v)) cs
  end.

(** The objects whose truth test returns: [None], a number, a string, a
    datetime, a list of integers, and a dictionary that maps strings to
    such objects. *)
Inductive PyObj :=
  | OScalar (s : Scalar)
  | ODict (d : gmap string Scalar).

(** [bool(o)] *)
Definition truthy (o : PyObj) : bool :=
  match o with
  | OScalar SNone => false
  | OScalar SNaN => true
  | OScalar (SBool b) => b
  | OScalar (SInt z) => negb (Z.eqb z 0)
  | OScalar (SFloat q) => negb (bool_decide (q = Q2Qc 0))
  | OScalar (SStr s) => negb (bool_decide (s = ""))
  | OScalar (SDatetime _) => true
  | OScalar (SList items) => negb (bool_decide (items = []))
  | ODict d => negb (bool_decide (d = ∅))
  end.

(** [type(o).__name__] *)
Definition obj_type_name (o : PyObj) : string :=
  match o with
  | OScalar s => class_name (type_of s)
  | ODict _ => "dict"
  end.

(** ** Exceptions *)

Inductive PyExn :=
  | AttributeError (msg : string)
  | TypeError (msg : string)
  | ValueError (msg : string)
  | KeyError (msg : string).

(** [str(e)] *)
Definition exn_str (e : PyExn) : string :=
  match e with
  | AttributeError msg | TypeError msg | ValueError msg | KeyError msg => msg
  end.

Inductive Outcome (A : Type) :=
  | Returned (a : A)
  | Raised (e : PyExn).
Arguments Returned {A} a.
Arguments Raised {A} e.

Definition outcome_bind {A B} (o : Outcome A) (k : A → Outcome B) : Outcome B :=
  match o with
  | Returned a => k a
  | Raised e => Raised e
  end.

(** ** Frames *)

Record Series := {
  dtype : string;            (* [str(series.dtype)] *)
  cells : list Scalar
}.

Record DataFrame := {
  index_len : nat;                       (* [len(df)] *)
  columns : list (string * Series)
}.

(** A frame as pandas builds it: every column has one cell per row. *)
Definition frame_wf (df : DataFrame) : Prop :=
  Forall (λ c, length (cells c.2) = index_len df) (columns df).

(** [df.empty]: some axis has length zero. *)
Definition df_empty (df : DataFrame) : bool :=
  Nat.eqb (index_len df) 0 || Nat.eqb (length (columns df)) 0.

(** [value is None or value is NaN], per cell ([isnull]). *)
Definition isnull (v : Scalar) : bool :=
  match v with
  | SNone | SNaN => true
  | _ => false
  end.

(** [series.isnull().sum()] *)
Definition null_count (s : Series) : nat :=
  length (filter (λ v, isnull v = true) (cells s)).

(** *** Float64 arithmetic *)

(** The integer nearest to [num / den]; of two that are equally near, the
    even one. *)
Definition round_half_even (num den : Z) : Z :=
  let q := (num / den)%Z in
  match (2 * (num mod den) ?= den)%Z with
  | Lt => q
  | Gt => (q + 1)%Z
  | Eq => if Z.even q then q else (q + 1)%Z
  end.

(** The binade of [a / b]: the exponent [E] with [2^E ≤ a / b < 2^(E+1)]. *)
Definition binade (a b : positive) : Z :=
  let d := (Z.log2 (Z.pos a) - Z.log2 (Z.pos b))%Z in
  if (Z.pos a * 2 ^ Z.max 0 (- d) <? Z.pos b * 2 ^ Z.max 0 d)%Z
  then (d - 1)%Z else d.

(** The float64 nearest to [a / b]: a multiple [m * 2^e] of the unit in
    the last place, which is [2^(E - 52)] in the binade [E] (a significand
    of 53 bits) and never less than [2^-1074]. *)
Definition round64_pos (a b : positive) : Q :=
  let e := Z.max (binade a b - 52) (-1074) in
  let m := round_half_even (Z.pos a * 2 ^ Z.max 0 (- e))
                           (Z.pos b * 2 ^ Z.max 0 e) in
  (m * 2 ^ Z.max 0 e) # Z.to_pos (2 ^ Z.max 0 (- e)).

(** The value of the float64 nearest to [x], ties to even, were the
    exponent of a float64 not bounded from above. *)
Definition round64 (x : Q) : Q :=
  match Qnum x with
  | Z0 => 0
  | Z.pos a => round64_pos a (Qden x)
  | Z.neg a => - round64_pos a (Qden x)
  end.

(** A Python float: the value of a float64, or NaN ([None]). *)
Abbreviation PyFloat := (option Qc).

(** A float that is not NaN: the value of a finite float64, or an
    infinity. *)
Inductive Float64 :=
  | Finite (q : Qc)
  | Infinity (negative : bool).

Global Instance Float64_eq_dec : EqDecision Float64.
Proof. solve_decision. Defined.

(** [x * y] on finite floats: the float64 nearest to the product, and an
    infinity when that is [2^1024] or beyond, the greatest float64 being
    less. *)
Definition float_mul (x y : Qc) : Float64 :=
  let product := round64 (x * y) in
  if Qle_bool (inject_Z (2 ^ 1024)) product then Infinity false
  else if Qle_bool product (- inject_Z (2 ^ 1024)) then Infinity true
  else Finite (Q2Qc product).

(** [count / rows] as numpy divides two counts: the float64 nearest to the
    quotient, and NaN for [0 / 0].  The counts themselves are converted to
    float64 without rounding, being less than [2^53]; a frame without rows
    has no cells, so no other quotient by zero arises. *)
Definition missing_fraction (count rows : nat) : PyFloat :=
  match rows with
  | O => None
  | S _ => Some (Q2Qc (round64 (Z.of_nat count # Pos.of_nat rows)))
  end.

(** [fraction > threshold], on the values of the two floats; every
    comparison with NaN is false. *)
Definition float_gt (fraction : PyFloat) (threshold : Qc) : bool :=
  match fraction with
  | None => false
  | Some q => bool_decide (threshold < q)%Qc
  end.

(** The value of a float64 of the kernel ([None] for NaN), and the
    conversion of a count to a float64; they serve to compare the
    arithmetic above with the arithmetic of the hardware. *)
Definition float64_value (x : float) : option Float64 :=
  match Prim2SF x with
  | S754_zero _ => Some (Finite (Q2Qc 0))
  | S754_finite negative m e =>
      let v := ((Z.pos m * 2 ^ Z.max 0 e) # Z.to_pos (2 ^ Z.max 0 (- e)))%Q in
      Some (Finite (Q2Qc (if negative then - v else v)))
  | S754_infinity negative => Some (Infinity negative)
  | S754_nan => None
  end.

Definition float64_of_nat (n : nat) : float :=
  PrimFloat.of_uint63 (Uint63.of_Z (Z.of_nat n)).

(** [series.to_dict()]: a later entry replaces an earlier one of the same
    label. *)
Definition to_dict {A} (s : list (string * A)) : gmap string A :=
  foldl (λ m kv, <[kv.1 := kv.2]> m) ∅ s.

(** The key under which pandas hashes a cell when it looks for duplicated
    rows: nulls are one key, numbers are compared by value, and a list is
    not hashable. *)
Inductive Key :=
  | KNull
  | KNum (q : Qc)
  | KStr (s : string)
  | KTime (t : Z).

Global Instance Key_eq_dec : EqDecision Key.
Proof. solve_decision. Defined.

Definition hash_key (v : Scalar) : Outcome Key :=
  match v with
  | SNone | SNaN => Returned KNull
  | SBool b => Returned (KNum (Q2Qc (inject_Z (if b then 1 else 0))))
  | SInt z => Returned (KNum (Q2Qc (inject_Z z)))
  | SFloat q => Returned (KNum q)
  | SStr s => Returned (KStr s)
  | SDatetime t => Returned (KTime t)
  | SList _ => Raised (TypeError "unhashable type: 'list'")
  end.

Fixpoint outcome_mapM {A B} (f : A → Outcome B) (l : list A) : Outcome (list B) :=
  match l with
  | [] => Returned []
  | a :: l' =>
      outcome_bind (f a) (λ b,
      outcome_bind (outcome_mapM f l') (λ bs, Returned (b :: bs)))
  end.

(** How many elements of [rows] repeat an element of [seen] or an earlier
    element of [rows]. *)
Fixpoint count_repeated {A} `{EqDecision A} (seen rows : list A) : nat :=
  match rows with
  | [] => 0
  | r :: rows' =>
      if bool_decide (r ∈ seen) then S (count_repeated seen rows')
      else count_repeated (r :: seen) rows'
  end.

(** [df.duplicated().sum()]: the rows equal, in every column, to an
    earlier row.  pandas answers an empty frame without looking at it. *)
Definition duplicated_sum (df : DataFrame) : Outcome nat :=
  if df_empty df then Returned 0
  else
    outcome_bind (outcome_mapM (λ c, outcome_mapM hash_key (cells c.2)) (columns df))
      (λ keys,
         let row i := map (λ col : list Key, col !! i) keys in
         Returned (count_repeated [] (map row (seq 0 (index_len df))))).

(** [df[col]] selects every column labelled [col]: a [Series] when there
    is one, a [DataFrame] when the label repeats. *)
Definition getitem (df : DataFrame) (col : string) : list Series :=
  snd <$> filter (λ c, c.1 = col) (columns df).

(** [str(df[col].dtype)]; a [DataFrame] has no attribute [dtype]. *)
Definition column_dtype (df : DataFrame) (col : string) : Outcome string :=
  match getitem df col with
  | [s] => Returned (dtype s)
  | _ => Raised (AttributeError "'DataFrame' object has no attribute 'dtype'")
  end.

(** ** Check results *)

(** The messages of the checks, each with the values its f-string
    substitutes. *)
Inductive Message :=
  | NoDataProvided
      (* "No data provided" *)
  | MissingValuesMessage (percent : Float64) (index : list string)
      (* "Columns with more than {threshold*100}% missing values: {index}" *)
  | DuplicateRowsMessage (duplicate_count : nat)
      (* "Number of duplicate rows found: {duplicate_count}" *)
  | TypeMismatchesMessage (count : nat)
      (* "Data type mismatches found: {len(mismatches)}" *)
  | DatasetIsEmpty
      (* "Dataset is empty" *)
  | DatasetIsNotEmpty.
      (* "Dataset is not empty" *)

(** What [check_data_types] expects of a column: a dtype name, or a tuple
    of dtype names. *)
Inductive ExpectedDtype :=
  | Dtype (t : string)
  | DtypeTuple (ts : list string).

(** The entries of [mismatches]. *)
Inductive TypeIssue :=
  | ColumnNotFound (col : string)
      (* "Column {col} not found" *)
  | ExpectedOneOf (expected_type : list string) (actual_type : string)
      (* "Expected one of {expected_type}, found {actual_type}" *)
  | ExpectedFound (expected_type actual_type : string).
      (* "Expected {expected_type}, found {actual_type}" *)

(** The key a check adds to its result besides [passed] and [message]. *)
Inductive Extra :=
  | NoExtra
  | RowCount (row_count : nat)
  | ColumnsWithIssues (columns_with_issues : gmap string PyFloat)
  | DuplicateRows (duplicate_rows : nat)
  | TypeMismatches (type_mismatches : gmap string TypeIssue).

Record CheckResult := {
  passed : bool;
  message : Message;
  extra : Extra
}.

(** ** The store and the checker *)

(** The store holds the issue lists; a location names one of them. *)
Abbreviation Store := (gmap positive (list Message)).

Record DataQualityChecker := {
  data : option DataFrame;
  issues : positive          (* the list [self.issues] *)
}.

(** A method of the checker: it reads and updates the store, and returns
    or raises. *)
Definition Run (A : Type) : Type := Store → Outcome A * Store.

Definition ret {A} (a : A) : Run A := λ σ, (Returned a, σ).

Definition bind {A B} (m : Run A) (k : A → Run B) : Run B :=
  λ σ, match m σ with
       | (Returned a, σ') => k a σ'
       | (Raised e, σ') => (Raised e, σ')
       end.

Definition lift {A} (o : Outcome A) : Run A := λ σ, (o, σ).

Notation "'do' x <- m ; k" := (bind m (λ x, k))
  (at level 10, x name, m at level 100, k at level 200).

(** [log.append(msg)] *)
Definition append (log : positive) (msg : Message) : Run unit :=
  λ σ, (Returned tt, <[log := (σ !!! log ++ [msg])%list]> σ).

(** [DataQualityChecker(data)]: the constructor allocates an empty issue
    list. *)
Definition new_checker (data : option DataFrame) (σ : Store)
  : DataQualityChecker * Store :=
  let log := fresh (dom σ) in
  ({| data := data; issues := log |}, <[log := []]> σ).

(** The last lines of every check:
    [if not output["passed"]: self.issues.append(output["message"])],
    then [return output]. *)
Definition report_check (self : DataQualityChecker) (output : CheckResult)
  : Run CheckResult :=
  if negb (passed output)
  then do _ <- append (issues self) (message output); ret output
  else ret output.

Definition no_data (extra : Extra) : CheckResult :=
  {| passed := false; message := NoDataProvided; extra := extra |}.

Definition check_missing_values (self : DataQualityChecker) (threshold : Qc)
  : Run CheckResult :=
  match data self with
  | None => ret (no_data NoExtra)
  | Some df =>
      let missing_values :=
        map (λ c, (c.1, missing_fraction (null_count c.2) (index_len df)))
            (columns df) in
      let problematic_columns :=
        filter (λ c, float_gt c.2 threshold = true) missing_values in
      report_check self
        {| passed := Nat.eqb (length problematic_columns) 0;
           extra := ColumnsWithIssues (to_dict problematic_columns);
           message := MissingValuesMessage (float_mul threshold (Q2Qc 100))
                        (fst <$> problematic_columns) |}
  end.

Definition check_duplicates (self : DataQualityChecker) : Run CheckResult :=
  match data self with
  | None => ret (no_data NoExtra)
  | Some df =>
      do duplicate_count <- lift (duplicated_sum df);
      report_check self
        {| passed := Nat.eqb duplicate_count 0;
           extra := DuplicateRows duplicate_count;
           message := DuplicateRowsMessage duplicate_count |}
  end.

(** The loop of [check_data_types] over [expected_types.items()]. *)
Fixpoint type_mismatches_of (df : DataFrame)
    (items : list (string * ExpectedDtype))
    (mismatches : gmap string TypeIssue) : Outcome (gmap string TypeIssue) :=
  match items with
  | [] => Returned mismatches
  | (col, expected_type) :: items' =>
      if bool_decide (col ∈ (columns df).*1) then
        outcome_bind (column_dtype df col) (λ actual_type,
          match expected_type with
          | DtypeTuple ts =>
              if bool_decide (actual_type ∈ ts)
              then type_mismatches_of df items' mismatches
              else type_mismatches_of df items'
                     (<[col := ExpectedOneOf ts actual_type]> mismatches)
          | Dtype t =>
              if bool_decide (actual_type = t)
              then type_mismatches_of df items' mismatches
              else type_mismatches_of df items'
                     (<[col := ExpectedFound t actual_type]> mismatches)
          end)
      else
        type_mismatches_of df items' (<[col := ColumnNotFound col]> mismatches)
  end.

Definition check_data_types (self : DataQualityChecker)
    (expected_types : list (string * ExpectedDtype)) : Run CheckResult :=
  match data self with
  | None => ret (no_data NoExtra)
  | Some df =>
      do mismatches <- lift (type_mismatches_of df expected_types ∅);
      report_check self
        {| passed := Nat.eqb (size mismatches) 0;
           extra := TypeMismatches mismatches;
           message := TypeMismatchesMessage (size mismatches) |}
  end.

Definition check_empty_dataset (self : DataQualityChecker) : Run CheckResult :=
  match data self with
  | None => ret (no_data (RowCount 0))
  | Some df =>
      let is_empty := Nat.eqb (index_len df) 0 in
      report_check self
        {| passed := negb is_empty;
           extra := RowCount (index_len df);
           message := if is_empty then DatasetIsEmpty else DatasetIsNotEmpty |}
  end.

(** [all(check["passed"] for check in output.values())] *)
Definition all_passed (output : gmap string CheckResult) : bool :=
  forallb passed (snd <$> map_to_list output).

(** The dictionary that [run_all_checks] returns; [issues_found] is the
    list [self.issues] itself, not a copy of it. *)
Record Report := {
  validation_passed : bool;
  issues_found : positive;
  detailed_results : gmap string CheckResult
}.

(** [if expected_types:] holds of a dictionary that is neither [None] nor
    empty. *)
Definition supplied {A} (expected_types : option (list A)) : bool :=
  match expected_types with
  | None | Some [] => false
  | Some (_ :: _) => true
  end.

Definition run_all_checks (self : DataQualityChecker)
    (expected_types : option (list (string * ExpectedDtype)))
    (missing_value_threshold : Qc) : Run Report :=
  do empty_dataset <- check_empty_dataset self;
  do missing_values <- check_missing_values self missing_value_threshold;
  do duplicates <- check_duplicates self;
  let output : gmap string CheckResult :=
    <["duplicates" := duplicates]>
      (<["missing_values" := missing_values]>
         (<["empty_dataset" := empty_dataset]> ∅)) in
  do output <-
    (if supplied expected_types
     then do data_types <- check_data_types self (default [] expected_types);
          ret (<["data_types" := data_types]> output)
     else ret output);
  ret {| validation_passed := all_passed output;
         issues_found := issues self;
         detailed_results := output |}.

(** The default arguments of [run_all_checks]. *)
Definition default_threshold : Qc := Q2Qc (1 # 2).

(** ** Validation of a dictionary *)

(** [field in data_dict], for the objects [data_dict] may be: key
    membership in a dictionary, substring test in a string, element test
    in a list (a list of integers holds no string); other objects are not
    containers. *)
Definition contains (data_dict : PyObj) (field : string) : Outcome bool :=
  match data_dict with
  | ODict d => Returned (bool_decide (is_Some (d !! field)))
  | OScalar (SStr s) =>
      Returned (match String.index 0 field s with Some _ => true | None => false end)
  | OScalar (SList _) => Returned false
  | OScalar v =>
      Raised (TypeError ("argument of type '" ++ class_name (type_of v)
                         ++ "' is not iterable"))
  end.

(** [data_dict[field]] *)
Definition subscript (data_dict : PyObj) (field : string) : Outcome Scalar :=
  match data_dict with
  | ODict d =>
      match d !! field with
      | Some value => Returned value
      | None => Raised (KeyError field)
      end
  | OScalar (SStr _) => Raised (TypeError "string indices must be integers")
  | OScalar (SList _) =>
      Raised (TypeError "list indices must be integers or slices, not str")
  | OScalar v =>
      Raised (TypeError ("'" ++ class_name (type_of v)
                         ++ "' object is not subscriptable"))
  end.

(** The entries of [errors]. *)
Inductive FieldError :=
  | MissingRequiredField (field : string)
      (* "Missing required field: {field}" *)
  | ExpectedTypeOneOf (expected_type : list PyClass) (got : string)
      (* "Expected type {expected_type}, got {type(value).__name__}" *)
  | ExpectedTypeGot (expected_type got : string).
      (* "Expected type {expected_type.__name__}, got {type(value).__name__}" *)

(** The loop of [validate_dict] over [schema.items()]. *)
Fixpoint field_errors_of (data_dict : PyObj)
    (items : list (string * ExpectedClass))
    (errors : gmap string FieldError) : Outcome (gmap string FieldError) :=
  match items with
  | [] => Returned errors
  | (field, expected_type) :: items' =>
      outcome_bind (contains data_dict field) (λ present,
        if negb present then
          field_errors_of data_dict items'
            (<[field := MissingRequiredField field]> errors)
        else
          outcome_bind (subscript data_dict field) (λ value,
            let got := class_name (type_of value) in
            match expected_type with
            | ClsTuple cs =>
                if negb (isinstance value expected_type)
                then field_errors_of data_dict items'
                       (<[field := ExpectedTypeOneOf cs got]> errors)
                else field_errors_of data_dict items' errors
            | Cls c =>
                if negb (isinstance value expected_type)
                then field_errors_of data_dict items'
                       (<[field := ExpectedTypeGot (class_name c) got]> errors)
                else field_errors_of data_dict items' errors
            end))
  end.

Record Details := {
  errors : option (gmap string FieldError);   (* [errors if errors else None] *)
  fields_validated : nat;
  fields_passed : Z
}.

(** [validate_dict] reads neither [self.data] nor [self.issues]. *)
Definition validate_dict (data_dict : PyObj)
    (schema : list (string * ExpectedClass)) : Outcome (bool * Details) :=
  outcome_bind (field_errors_of data_dict schema ∅) (λ errors,
    let is_valid := Nat.eqb (size errors) 0 in
    Returned
      (is_valid,
       {| errors := if bool_decide (errors = ∅) then None else Some errors;
          fields_validated := length schema;
          fields_passed := Z.of_nat (length schema) - Z.of_nat (size errors) |})).

(** ** The validator *)

(** An argument of an entry point: an object as above, a frame, or a
    numpy array of two elements or more.  The truth test of a frame and of
    such an array raises, and an array has no attribute [empty]. *)
Inductive PyVal :=
  | VObj (o : PyObj)
  | VFrame (df : DataFrame)
  | VArray (first second : Scalar) (others : list Scalar).

Definition PyNone : PyVal := VObj (OScalar SNone).

(** [value is None] *)
Definition is_None (value : PyVal) : bool :=
  match value with
  | VObj (OScalar SNone) => true
  | _ => false
  end.

(** The second component of what [validate_weather_data] returns. *)
Inductive WeatherDetails :=
  | WeatherError (error : string)             (* [{'error': ...}] *)
  | WeatherChecked (details : Details).

(** What the frame entry points return. *)
Inductive TabularResult :=
  | ErrorResult (validation_passed : bool) (details : string)
      (records_validated : nat)
  | CheckedResult (validation_passed : bool) (issues_found : list Message)
      (detailed_results : gmap string CheckResult) (records_validated : nat).

(** The values of [self.results]. *)
Inductive StoredResult :=
  | StoredDetails (details : Details)
  | StoredResultDict (result : TabularResult).

Record APIValidator := {
  results : gmap string StoredResult
}.

(** [APIValidator()] *)
Definition new_validator : APIValidator := {| results := ∅ |}.

Definition weather_schema : list (string * ExpectedClass) :=
  [("city", Cls cls_str);
   ("temperature", ClsTuple [cls_int; cls_float]);
   ("humidity", Cls cls_int);
   ("pressure", Cls cls_int);
   ("timestamp", ClsTuple [cls_str; cls_datetime]);
   ("source", Cls cls_str)].

(** The body of [validate_weather_data]; [validate] stands for the call
    [DataQualityChecker().validate_dict]. *)
Definition validate_weather_data_with
    (validate : PyObj → list (string * ExpectedClass) → Outcome (bool * Details))
    (self : APIValidator) (weather_data : PyVal)
  : Outcome (bool * WeatherDetails) * APIValidator :=
  match weather_data with
  | VFrame _ =>
      (* [not weather_data] *)
      (Raised (ValueError "The truth value of a DataFrame is ambiguous. Use a.empty, a.bool(), a.item(), a.any() or a.all()."),
       self)
  | VArray _ _ _ =>
      (* [not weather_data] *)
      (Raised (ValueError "The truth value of an array with more than one element is ambiguous. Use a.any() or a.all()"),
       self)
  | VObj o =>
      if negb (truthy o) then
        (Returned (false, WeatherError "Empty or None weather data"), self)
      else
        (* [try:] *)
        match validate o weather_schema with
        | Returned (is_valid, details) =>
            (Returned (is_valid, WeatherChecked details),
             {| results := <["weather_data" := StoredDetails details]> (results self) |})
        | Raised e =>
            (* [except Exception as e:] *)
            (Returned (false, WeatherError (exn_str e)), self)
        end
  end.

Definition validate_weather_data (self : APIValidator) (weather_data : PyVal)
  : Outcome (bool * WeatherDetails) * APIValidator :=
  validate_weather_data_with validate_dict self weather_data.

(** [result.get('validation_passed', False)] *)
Definition tabular_passed (result : TabularResult) : bool :=
  match result with
  | ErrorResult validation_passed _ _ => validation_passed
  | CheckedResult validation_passed _ _ _ => validation_passed
  end.

Definition tabular_records (result : TabularResult) : nat :=
  match result with
  | ErrorResult _ _ records_validated => records_validated
  | CheckedResult _ _ _ records_validated => records_validated
  end.

(** [checker = DataQualityChecker(df)] followed by
    [checker.run_all_checks(expected_types)].  The checker is local to the
    call that makes it: its issue list is allocated in a store of its
    own. *)
Definition run_quality_checker (df : DataFrame)
    (expected_types : list (string * ExpectedDtype)) : Outcome Report * Store :=
  let '(checker, σ) := new_checker (Some df) ∅ in
  run_all_checks checker (Some expected_types) default_threshold σ.

(** The body shared by [validate_cryptocurrencies_data] and
    [validate_posts_data], which differ in the key under which the result
    is stored and in the expected types; [quality_checker] stands for the
    two lines that make the checker and run it.  The result carries the
    contents that the issue list has when the call returns. *)
Definition validate_frame_with
    (quality_checker :
       DataFrame → list (string * ExpectedDtype) → Outcome Report * Store)
    (key : string) (expected_types : list (string * ExpectedDtype))
    (self : APIValidator) (frame : PyVal)
  : Outcome TabularResult * APIValidator :=
  let error_result :=
    ErrorResult false "Empty or None DataFrame provided" 0 in
  match frame with
  | VObj (OScalar SNone) => (Returned error_result, self)
  | VObj o =>
      (* [frame.empty] *)
      (Raised (AttributeError ("'" ++ obj_type_name o
                               ++ "' object has no attribute 'empty'")), self)
  | VArray _ _ _ =>
      (* [frame.empty] *)
      (Raised (AttributeError "'numpy.ndarray' object has no attribute 'empty'"),
       self)
  | VFrame df =>
      if df_empty df then (Returned error_result, self)
      else
        (* [try:] *)
        match quality_checker df expected_types with
        | (Returned report, σ) =>
            let result :=
              CheckedResult (validation_passed report)
                (σ !!! issues_found report)
                (detailed_results report) (index_len df) in
            (Returned result,
             {| results := <[key := StoredResultDict result]> (results self) |})
        | (Raised e, _) =>
            (* [except Exception as e:] *)
            (Returned (ErrorResult false (exn_str e) 0), self)
        end
  end.

Definition validate_frame := validate_frame_with run_quality_checker.

Definition crypto_expected_types : list (string * ExpectedDtype) :=
  [("symbol", Dtype "object");
   ("name", Dtype "object");
   ("current_price", DtypeTuple ["float64"; "int64"]);
   ("market_cap", DtypeTuple ["int64"; "float64"]);
   ("market_cap_rank", DtypeTuple ["int64"; "float64"]);
   ("trading_volume_24h", DtypeTuple ["int64"; "float64"]);
   ("price_change_24h", DtypeTuple ["float64"; "int64"])].

Definition posts_expected_types : list (string * ExpectedDtype) :=
  [("post_id", Dtype "int64");
   ("user_id", Dtype "int64");
   ("title", Dtype "object");
   ("body", Dtype "object");
   ("word_count", Dtype "int64")].

Definition validate_cryptocurrencies_data (self : APIValidator) (crypto_df : PyVal)
  : Outcome TabularResult * APIValidator :=
  validate_frame "cryptocurrencies_data" crypto_expected_types self crypto_df.

Definition validate_posts_data (self : APIValidator) (posts_df : PyVal)
  : Outcome TabularResult * APIValidator :=
  validate_frame "posts_data" posts_expected_types self posts_df.

(** The values of [all_results['validations']]. *)
Inductive Validation :=
  | WeatherValidation (passed : bool) (details : WeatherDetails)
  | TabularValidation (result : TabularResult).

Record AllResults := {
  timestamp : string;
  validations : gmap string Validation;
  overall_passed : bool
}.

(** One step of [validate_all]: a source that is not [None] is validated,
    entered under [name], and its verdict is and-ed into
    [overall_passed]. *)
Definition validate_source {R} (name : string)
    (validate : APIValidator → PyVal → Outcome R * APIValidator)
    (entry : R → Validation) (verdict : R → bool)
    (source : PyVal) (acc : AllResults) (self : APIValidator)
  : Outcome AllResults * APIValidator :=
  if is_None source then (Returned acc, self)
  else
    match validate self source with
    | (Returned r, self') =>
        (Returned {| timestamp := timestamp acc;
                     validations := <[name := entry r]> (validations acc);
                     overall_passed := overall_passed acc && verdict r |},
         self')
    | (Raised e, self') => (Raised e, self')
    end.

(** [now] is [datetime.now().isoformat()]. *)
Definition validate_all (self : APIValidator) (now : string)
    (weather_data crypto_df posts_df : PyVal)
  : Outcome AllResults * APIValidator :=
  let all_results :=
    {| timestamp := now; validations := ∅; overall_passed := true |} in
  match validate_source "weather" validate_weather_data
          (λ r, WeatherValidation r.1 r.2) fst weather_data all_results self with
  | (Raised e, self) => (Raised e, self)
  | (Returned all_results, self) =>
  match validate_source "cryptocurrencies" validate_cryptocurrencies_data
          TabularValidation tabular_passed crypto_df all_results self with
  | (Raised e, self) => (Raised e, self)
  | (Returned all_results, self) =>
      validate_source "posts" validate_posts_data
        TabularValidation tabular_passed posts_df all_results self
  end end.

(** [result.get('validation_passed', False)] on a value of
    [self.results]; the dictionary that [validate_dict] builds has no
    such key. *)
Definition stored_passed (result : StoredResult) : bool :=
  match result with
  | StoredDetails _ => false
  | StoredResultDict r => tabular_passed r
  end.

Record Summary := {
  total_validations : nat;
  passed_count : nat;        (* [summary['passed']] *)
  failed_count : nat;        (* [summary['failed']] *)
  summary_details : gmap string StoredResult
}.

(** Every value of [self.results] is a dictionary, so the test
    [isinstance(result, dict)] of the loop holds. *)
Definition get_validation_summary (self : APIValidator) : Summary :=
  let counts :=
    map_fold (λ (_ : string) result (acc : nat * nat),
                if stored_passed result then (S acc.1, acc.2)
                else (acc.1, S acc.2))
             (0, 0) (results self) in
  {| total_validations := size (results self);
     passed_count := counts.1;
     failed_count := counts.2;
     summary_details := results self |}.

Definition clear_results (self : APIValidator) : APIValidator :=
  {| results := ∅ |}.

(** ** Notions used to state the properties *)

(** Appending [msgs], one after the other, to the list at [log]. *)
Definition appends (log : positive) (msgs : list Message) (σ : Store) : Store :=
  foldl (λ σ msg, <[log := (σ !!! log ++ [msg])%list]> σ) σ msgs.

(** [m] returns or raises [o] whatever the store is, and its only effect
    on the store is to append [msgs] to the list at [log]. *)
Definition logs {A} (m : Run A) (log : positive) (o : Outcome A)
    (msgs : list Message) : Prop :=
  ∀ σ, m σ = (o, appends log msgs σ).

(** The four checks of the checker. *)
Inductive Check :=
  | CheckEmptyDataset
  | CheckMissingValues (threshold : Qc)
  | CheckDuplicates
  | CheckDataTypes (expected_types : list (string * ExpectedDtype)).

Definition run_check (check : Check) (self : DataQualityChecker) : Run CheckResult :=
  match check with
  | CheckEmptyDataset => check_empty_dataset self
  | CheckMissingValues threshold => check_missing_values self threshold
  | CheckDuplicates => check_duplicates self
  | CheckDataTypes expected_types => check_data_types self expected_types
  end.

(** What a check that ends in [o] adds to the issue list of [self]: the
    message of a failed check of a checker that is bound to a frame. *)
Definition logged (self : DataQualityChecker) (o : Outcome CheckResult)
  : list Message :=
  match data self, o with
  | Some _, Returned r => if passed r then [] else [message r]
  | _, _ => []
  end.

(** The names under which [run_all_checks] enters the checks, in the order
    in which it runs them. *)
Definition check_names : list string :=
  ["empty_dataset"; "missing_values"; "duplicates"; "data_types"].

(** The messages of the failed checks of a report, in the order in which
    the checks ran. *)
Definition failed_messages (output : gmap string CheckResult) : list Message :=
  omap (λ name,
          match output !! name with
          | Some r => if passed r then None else Some (message r)
          | None => None
          end) check_names.

(** What one call of [run_all_checks] that returns [report] adds to the
    issue list of [self]. *)
Definition issues_added (self : DataQualityChecker) (report : Report)
  : list Message :=
  match data self with
  | Some _ => failed_messages (detailed_results report)
  | None => []
  end.

(** A report as its reader sees it in the store [σ]: [issues_found] is the
    contents that the shared issue list has in [σ]. *)
Record ReportValue := {
  value_passed : bool;
  value_issues : list Message;
  value_results : gmap string CheckResult
}.

Definition read_report (σ : Store) (report : Report) : ReportValue :=
  {| value_passed := validation_passed report;
     value_issues := σ !!! issues_found report;
     value_results := detailed_results report |}.

(** [detailed_results] as [run_all_checks] assembles it from the results
    of the three checks that always run and of the type check, when that
    one runs. *)
Definition assemble (empty_dataset missing_values duplicates : CheckResult)
    (data_types : option CheckResult) : gmap string CheckResult :=
  let output : gmap string CheckResult :=
    <["duplicates" := duplicates]>
      (<["missing_values" := missing_values]>
         (<["empty_dataset" := empty_dataset]> ∅)) in
  match data_types with
  | Some r => <["data_types" := r]> output
  | None => output
  end.

(** The outcome of a check with [passed] negated. *)
Definition flip (r : CheckResult) : CheckResult :=
  {| passed := negb (passed r); message := message r; extra := extra r |}.

(** A frame without rows. *)
Definition no_rows : DataFrame :=
  {| index_len := 0;
     columns := [("price", {| dtype := "float64"; cells := [] |})] |}.

(** A checker that is bound to no frame, and a store that holds its empty
    issue list. *)
Definition unbound_checker : DataQualityChecker := (new_checker None ∅).1.
Definition fresh_store : Store := (new_checker None ∅).2.

(** A checker bound to [df], and the store that holds its issue list. *)
Definition bound_checker (df : DataFrame) : DataQualityChecker :=
  (new_checker (Some df) ∅).1.

(** Two equal rows whose price is missing. *)
Definition two_bad_rows : DataFrame :=
  {| index_len := 2;
     columns :=
       [("symbol", {| dtype := "object"; cells := [SStr "BTC"; SStr "BTC"] |});
        ("price", {| dtype := "float64"; cells := [SNaN; SNaN] |})] |}.

(** The frame [df] with the dtype of every column replaced by what [f]
    makes of the column; the cells stay. *)
Definition retag (f : string → Series → string) (df : DataFrame) : DataFrame :=
  {| index_len := index_len df;
     columns :=
       map (λ c, (c.1, {| dtype := f c.1 c.2; cells := cells c.2 |}))
           (columns df) |}.

(** The checker [self] bound to the retagged frame, with the same issue
    list. *)
Definition retag_checker (f : string → Series → string)
    (self : DataQualityChecker) : DataQualityChecker :=
  {| data := retag f <$> data self; issues := issues self |}.

(** The missing fraction of the column [s] of [df] is a number greater
    than [threshold]. *)
Definition exceeds (df : DataFrame) (s : Series) (threshold : Qc) : Prop :=
  ∃ q, missing_fraction (null_count s) (index_len df) = Some q
       ∧ (threshold < q)%Qc.

(** The columns that a result of [check_missing_values] reports: the index
    in its message, and the keys of [columns_with_issues]. *)
Definition reported_index (r : CheckResult) : list string :=
  match message r with
  | MissingValuesMessage _ index => index
  | _ => []
  end.

Definition reported_columns (r : CheckResult) : gmap string PyFloat :=
  match extra r with
  | ColumnsWithIssues columns_with_issues => columns_with_issues
  | _ => ∅
  end.

(** Four rows; [volume] misses two values and [price] three. *)
Definition four_rows : DataFrame :=
  {| index_len := 4;
     columns :=
       [("volume", {| dtype := "float64";
                      cells := [SNaN; SFloat (Q2Qc 7); SNaN; SFloat (Q2Qc 9)] |});
        ("price", {| dtype := "float64";
                     cells := [SNaN; SNaN; SFloat (Q2Qc 3); SNaN] |})] |}.

(** The float 0.3, and the float next below it. *)
Definition three_tenths : Qc := Q2Qc (5404319552844595 # 18014398509481984).
Definition below_three_tenths : Qc :=
  Q2Qc (5404319552844594 # 18014398509481984).

(** Ten rows; [price] misses three values. *)
Definition ten_rows : DataFrame :=
  {| index_len := 10;
     columns :=
       [("price", {| dtype := "float64";
                     cells := [SNaN; SFloat (Q2Qc 1); SNone; SFloat (Q2Qc 2);
                               SFloat (Q2Qc 3); SNaN; SFloat (Q2Qc 4);
                               SFloat (Q2Qc 5); SFloat (Q2Qc 6);
                               SFloat (Q2Qc 7)] |})] |}.

(** The classes that an entry of a schema expects. *)
Definition expected_classes (expected_type : ExpectedClass) : list PyClass :=
  match expected_type with
  | Cls c => [c]
  | ClsTuple cs => cs
  end.

(** [value] is an instance of what the schema expects: its class is one of
    the expected classes, or it is a [bool] and [int] is expected, [bool]
    being a subclass of [int]. *)
Definition instance_of (value : Scalar) (expected_type : ExpectedClass) : Prop :=
  ∃ c, c ∈ expected_classes expected_type
       ∧ (type_of value = c ∨ (type_of value = cls_bool ∧ c = cls_int)).

(** The error that [validate_dict] enters for a value that is not an
    instance of what the schema expects. *)
Definition type_mismatch (expected_type : ExpectedClass) (value : Scalar)
  : FieldError :=
  match expected_type with
  | ClsTuple cs => ExpectedTypeOneOf cs (class_name (type_of value))
  | Cls c => ExpectedTypeGot (class_name c) (class_name (type_of value))
  end.

(** The specification of one field: a field that the record lacks is
    missing; a field whose value is not an instance of the expected type or
    types has a type mismatch; any other field has no error. *)
Definition field_error_spec (record : gmap string Scalar) (field : string)
    (expected_type : ExpectedClass) : option FieldError :=
  match record !! field with
  | None => Some (MissingRequiredField field)
  | Some value =>
      if isinstance value expected_type then None
      else Some (type_mismatch expected_type value)
  end.

(** The schema and the record of the example. *)
Definition city_humidity_schema : list (string * ExpectedClass) :=
  [("city", Cls cls_str); ("humidity", Cls cls_int)].

Definition london : gmap string Scalar :=
  <["humidity" := SInt 60]> (<["city" := SStr "London"]> ∅).

(** An entry point was given no batch: [None], or a frame without rows. *)
Definition no_batch (frame : PyVal) : Prop :=
  frame = PyNone ∨ ∃ df, frame = VFrame df ∧ index_len df = 0.

(** An entry point was given no record: [None], or an empty dictionary. *)
Definition no_record (record : PyVal) : Prop :=
  record = PyNone ∨ record = VObj (ODict ∅).

(** [not value] raises: [value] is a frame or an array. *)
Definition truth_test_faults (value : PyVal) : bool :=
  match value with
  | VObj _ => false
  | VFrame _ | VArray _ _ _ => true
  end.

(** [value is None or value.empty] raises: [value] is neither [None] nor
    a frame. *)
Definition empty_test_faults (value : PyVal) : bool :=
  match value with
  | VObj (OScalar SNone) | VFrame _ => false
  | VObj _ | VArray _ _ _ => true
  end.

(** The argument of a frame entry point that holds a frame, or [None]. *)
Definition frame_arg (frame : option DataFrame) : PyVal :=
  match frame with
  | Some df => VFrame df
  | None => PyNone
  end.

(** The record of the test [test_validate_weather_data_valid]. *)
Definition valid_weather : gmap string Scalar :=
  <["source" := SStr "weather_api"]>
    (<["timestamp" := SDatetime 0]>
       (<["pressure" := SInt 1013]>
          (<["humidity" := SInt 60]>
             (<["temperature" := SFloat (Q2Qc (51 # 2))]>
                (<["city" := SStr "London"]> ∅))))).

(** The frame of the test [test_validate_posts_valid_data]. *)
Definition valid_posts : DataFrame :=
  {| index_len := 2;
     columns :=
       [("post_id", {| dtype := "int64"; cells := [SInt 1; SInt 2] |});
        ("user_id", {| dtype := "int64"; cells := [SInt 10; SInt 20] |});
        ("title", {| dtype := "object";
                     cells := [SStr "Title 1"; SStr "Title 2"] |});
        ("body", {| dtype := "object";
                    cells := [SStr "Body text 1"; SStr "Body text 2"] |});
        ("word_count", {| dtype := "int64"; cells := [SInt 10; SInt 15] |});
        ("timestamp", {| dtype := "datetime64[ns]";
                         cells := [SDatetime 0; SDatetime 1] |})] |}.

(** A frame one of whose cells holds a list. *)
Definition list_in_cell : DataFrame :=
  {| index_len := 1;
     columns := [("symbol", {| dtype := "object"; cells := [SList [1]%Z] |})] |}.

(** ** Notions used to state further properties of the checks *)

(** A cell that pandas can hash: anything but a list. *)
Definition hashable (v : Scalar) : bool :=
  match v with
  | SList _ => false
  | _ => true
  end.

(** Every cell of the frame can be hashed. *)
Definition frame_hashable (df : DataFrame) : Prop :=
  Forall (λ c : string * Series, Forall (λ v, hashable v = true) (cells c.2))
         (columns df).

(** Some cell of the frame holds a list. *)
Definition has_list_cell (df : DataFrame) : Prop :=
  Exists (λ c : string * Series, Exists (λ v, hashable v = false) (cells c.2))
         (columns df).

(** The key of a cell that can be hashed. *)
Definition key_of (v : Scalar) : Key :=
  match hash_key v with
  | Returned k => k
  | Raised _ => KNull
  end.

(** The rows of a frame, each as the keys of its cells, in the order of
    the index. *)
Definition frame_rows (df : DataFrame) : list (list (option Key)) :=
  map (λ i, map (λ c : string * Series, key_of <$> cells c.2 !! i) (columns df))
      (seq 0 (index_len df)).

(** Three equal rows. *)
Definition three_equal_rows : DataFrame :=
  {| index_len := 3;
     columns :=
       [("symbol", {| dtype := "object";
                      cells := [SStr "BTC"; SStr "BTC"; SStr "BTC"] |});
        ("rank", {| dtype := "int64"; cells := [SInt 1; SInt 1; SInt 1] |})] |}.

(** A frame that is not empty, one of whose cells holds a list. *)
Definition list_in_second_row : DataFrame :=
  {| index_len := 2;
     columns :=
       [("symbol", {| dtype := "object"; cells := [SStr "BTC"; SStr "ETH"] |});
        ("tags", {| dtype := "object"; cells := [SStr "coin"; SList [1; 2]%Z] |})] |}.

(** The dtype [actual_type] is what [expected_type] accepts. *)
Definition accepts (expected_type : ExpectedDtype) (actual_type : string) : bool :=
  match expected_type with
  | Dtype t => bool_decide (actual_type = t)
  | DtypeTuple ts => bool_decide (actual_type ∈ ts)
  end.

(** The entry of [mismatches] for a dtype that is not accepted. *)
Definition dtype_mismatch (expected_type : ExpectedDtype) (actual_type : string)
  : TypeIssue :=
  match expected_type with
  | Dtype t => ExpectedFound t actual_type
  | DtypeTuple ts => ExpectedOneOf ts actual_type
  end.

(** The specification of one expected column: a column that the frame
    lacks is not found; a column whose dtype is not accepted is a mismatch;
    any other column has no entry. *)
Definition type_issue_spec (df : DataFrame) (col : string)
    (expected_type : ExpectedDtype) : option TypeIssue :=
  match getitem df col with
  | [] => Some (ColumnNotFound col)
  | s :: _ =>
      if accepts expected_type (dtype s) then None
      else Some (dtype_mismatch expected_type (dtype s))
  end.

(** The mismatches that a result of [check_data_types] reports. *)
Definition reported_mismatches (r : CheckResult) : gmap string TypeIssue :=
  match extra r with
  | TypeMismatches type_mismatches => type_mismatches
  | _ => ∅
  end.

(** The frame of the test [test_validate_cryptocurrencies_wrong_types],
    without its timestamps: the prices are strings. *)
Definition wrong_price_type : DataFrame :=
  {| index_len := 2;
     columns :=
       [("symbol", {| dtype := "object"; cells := [SStr "BTC"; SStr "ETH"] |});
        ("name", {| dtype := "object";
                    cells := [SStr "Bitcoin"; SStr "Ethereum"] |});
        ("current_price", {| dtype := "object";
                             cells := [SStr "invalid"; SStr "data"] |});
        ("market_cap", {| dtype := "int64";
                          cells := [SInt 1000000000000; SInt 500000000000] |});
        ("market_cap_rank", {| dtype := "int64"; cells := [SInt 1; SInt 2] |});
        ("trading_volume_24h", {| dtype := "int64";
                                  cells := [SInt 50000000000; SInt 30000000000] |});
        ("price_change_24h", {| dtype := "float64";
                                cells := [SFloat (Q2Qc (5 # 2));
                                          SFloat (Q2Qc (-6 # 5))] |})] |}.

(** A frame in which the label [symbol] occurs twice. *)
Definition symbol_twice : DataFrame :=
  {| index_len := 1;
     columns :=
       [("symbol", {| dtype := "object"; cells := [SStr "BTC"] |});
        ("symbol", {| dtype := "object"; cells := [SStr "XBT"] |})] |}.

(** The series [problematic_columns] of [check_missing_values]: the
    columns whose missing fraction is greater than [threshold], each with
    that fraction. *)
Definition problematic_columns (df : DataFrame) (threshold : Qc)
  : list (string * PyFloat) :=
  filter (λ c : string * PyFloat, float_gt c.2 threshold = true)
    (map (λ c : string * Series,
            (c.1, missing_fraction (null_count c.2) (index_len df)))
         (columns df)).

(** What [check_missing_values] returns on a frame. *)
Definition missing_values_result (df : DataFrame) (threshold : Qc) : CheckResult :=
  {| passed := Nat.eqb (length (problematic_columns df threshold)) 0;
     extra := ColumnsWithIssues (to_dict (problematic_columns df threshold));
     message := MissingValuesMessage (float_mul threshold (Q2Qc 100))
                  (fst <$> problematic_columns df threshold) |}.

(** What every check but [check_empty_dataset] returns on a checker that
    is bound to no frame, and the report that [run_all_checks] returns on
    it. *)
Definition unbound_report (self : DataQualityChecker)
    (expected_types : option (list (string * ExpectedDtype))) : Report :=
  {| validation_passed := false;
     issues_found := issues self;
     detailed_results :=
       assemble (no_data (RowCount 0)) (no_data NoExtra) (no_data NoExtra)
         (if supplied expected_types then Some (no_data NoExtra) else None) |}.

(** The record that [fetch_weather] builds: besides the fields of the
    schema it has [wind_speed] and [description]. *)
Definition fetched_weather : gmap string Scalar :=
  <["description" := SStr "light rain"]>
    (<["wind_speed" := SFloat (Q2Qc (41 # 10))]> valid_weather).

(** What an outcome returned, if it returned. *)
Definition returned {A} (o : Outcome A) : option A :=
  match o with
  | Returned a => Some a
  | Raised _ => None
  end.

(** The verdict of an entry of [all_results['validations']]. *)
Definition validation_verdict (v : Validation) : bool :=
  match v with
  | WeatherValidation passed _ => passed
  | TabularValidation result => tabular_passed result
  end.

(** The keys under which the validator stores results. *)
Definition result_keys : gset string :=
  {["weather_data"; "cryptocurrencies_data"; "posts_data"]}.

(** A call of a method of the validator. *)
Inductive Call :=
  | CallWeather (weather_data : PyVal)
  | CallCryptocurrencies (crypto_df : PyVal)
  | CallPosts (posts_df : PyVal)
  | CallAll (now : string) (weather_data crypto_df posts_df : PyVal)
  | CallClear.

(** The validator after a call, whether the call returned or raised. *)
Definition after_call (self : APIValidator) (call : Call) : APIValidator :=
  match call with
  | CallWeather weather_data => (validate_weather_data self weather_data).2
  | CallCryptocurrencies crypto_df =>
      (validate_cryptocurrencies_data self crypto_df).2
  | CallPosts posts_df => (validate_posts_data self posts_df).2
  | CallAll now weather_data crypto_df posts_df =>
      (validate_all self now weather_data crypto_df posts_df).2
  | CallClear => clear_results self
  end.

(** The validator after a sequence of calls on a new validator. *)
Definition after_calls (calls : list Call) : APIValidator :=
  foldl after_call new_validator calls.

(** A frame with which the checker runs to the end: it is not empty, its
    cells can be hashed, and it holds every expected label at most
    once. *)
Definition checkable (df : DataFrame)
    (expected_types : list (string * ExpectedDtype)) : Prop :=
  df_empty df = false
  ∧ frame_hashable df
  ∧ ∀ col, col ∈ expected_types.*1 → (length (getitem df col) ≤ 1)%nat.

(** * Properties *)

(** ** The issue log *)

Lemma appends_app log msgs1 msgs2 σ :
  appends log (msgs1 ++ msgs2) σ = appends log msgs2 (appends log msgs1 σ).
Proof. unfold appends. apply foldl_app. Qed.

Lemma appends_lookup_total log msgs σ :
  appends log msgs σ !!! log = (σ !!! log ++ msgs)%list.
Proof.
  revert σ. induction msgs as [|msg msgs IH]; intros σ; simpl.
  - by rewrite app_nil_r.
  - change (appends log msgs (<[log := (σ !!! log ++ [msg])%list]> σ) !!! log
            = (σ !!! log ++ msg :: msgs)%list).
    rewrite IH, lookup_total_insert_eq, <- app_assoc. done.
Qed.

Lemma appends_lookup_ne log log' msgs σ :
  log ≠ log' → appends log msgs σ !! log' = σ !! log'.
Proof.
  intros Hne. revert σ. induction msgs as [|msg msgs IH]; intros σ; simpl.
  - done.
  - change (appends log msgs (<[log := (σ !!! log ++ [msg])%list]> σ) !! log'
            = σ !! log').
    by rewrite IH, lookup_insert_ne.
Qed.

Lemma logs_ret {A} (a : A) log : logs (ret a) log (Returned a) [].
Proof. intros σ. done. Qed.

Lemma logs_lift {A} (o : Outcome A) log : logs (lift o) log o [].
Proof. intros σ. done. Qed.

Lemma logs_append log msg : logs (append log msg) log (Returned tt) [msg].
Proof. intros σ. done. Qed.

Lemma logs_bind {A B} (m : Run A) (k : A → Run B) log a msgs1 o msgs2 :
  logs m log (Returned a) msgs1 →
  logs (k a) log o msgs2 →
  logs (bind m k) log o (msgs1 ++ msgs2).
Proof.
  intros Hm Hk σ. unfold bind. rewrite Hm, Hk. by rewrite appends_app.
Qed.

Lemma logs_bind_raised {A B} (m : Run A) (k : A → Run B) log e msgs :
  logs m log (Raised e) msgs →
  logs (bind m k) log (Raised e) msgs.
Proof. intros Hm σ. unfold bind. by rewrite Hm. Qed.

Lemma logs_det {A} (m : Run A) log o1 o2 msgs1 msgs2 :
  logs m log o1 msgs1 → logs m log o2 msgs2 → o1 = o2 ∧ msgs1 = msgs2.
Proof.
  intros H1 H2. pose proof (H1 ∅) as E1. rewrite (H2 ∅) in E1.
  injection E1 as Ho Hσ. split; [done|].
  apply (f_equal (λ σ : Store, σ !!! log)) in Hσ.
  rewrite !appends_lookup_total in Hσ.
  rewrite lookup_total_empty in Hσ. simpl in Hσ. done.
Qed.

Lemma report_check_logs self r :
  logs (report_check self r) (issues self) (Returned r)
       (if passed r then [] else [message r]).
Proof.
  unfold report_check. destruct (passed r); simpl.
  - apply logs_ret.
  - apply (logs_bind _ _ _ tt [message r] _ []).
    + apply logs_append.
    + apply logs_ret.
Qed.

Lemma report_check_logged self df r :
  data self = Some df →
  logs (report_check self r) (issues self) (Returned r) (logged self (Returned r)).
Proof. intros Hd. unfold logged. rewrite Hd. apply report_check_logs. Qed.

Lemma lifted_check_logs {A} self df (o : Outcome A) (k : A → CheckResult) :
  data self = Some df →
  ∃ o', logs (bind (lift o) (λ a, report_check self (k a))) (issues self) o'
             (logged self o').
Proof.
  intros Hd. destruct o as [a|e].
  - exists (Returned (k a)).
    apply (logs_bind _ _ _ a [] _ _); [apply logs_lift|].
    by eapply report_check_logged.
  - exists (Raised e). unfold logged. rewrite Hd.
    apply logs_bind_raised, logs_lift.
Qed.

(** Every check ends the same way in every store, and all it does to the
    store is to append what [logged] says. *)
Lemma run_check_logs check self :
  ∃ o, logs (run_check check self) (issues self) o (logged self o).
Proof.
  destruct check as [|threshold| |expected_types]; simpl.
  - unfold check_empty_dataset. destruct (data self) as [df|] eqn:Hd.
    + eexists. by eapply report_check_logged.
    + exists (Returned (no_data (RowCount 0))). unfold logged. rewrite Hd.
      apply logs_ret.
  - unfold check_missing_values. destruct (data self) as [df|] eqn:Hd.
    + eexists. by eapply report_check_logged.
    + exists (Returned (no_data NoExtra)). unfold logged. rewrite Hd.
      apply logs_ret.
  - unfold check_duplicates. destruct (data self) as [df|] eqn:Hd.
    + by eapply lifted_check_logs.
    + exists (Returned (no_data NoExtra)). unfold logged. rewrite Hd.
      apply logs_ret.
  - unfold check_data_types. destruct (data self) as [df|] eqn:Hd.
    + by eapply lifted_check_logs.
    + exists (Returned (no_data NoExtra)). unfold logged. rewrite Hd.
      apply logs_ret.
Qed.

(** A check of a checker that is bound to no frame fails with
    "No data provided". *)
Lemma run_check_unbound check self σ r σ' :
  data self = None →
  run_check check self σ = (Returned r, σ') →
  passed r = false ∧ message r = NoDataProvided.
Proof.
  intros Hd. destruct check; simpl;
    unfold check_empty_dataset, check_missing_values, check_duplicates,
      check_data_types; rewrite Hd; unfold ret; intros [= <- <-]; done.
Qed.
Lemma run_all_checks_inv self expected_types t σ report σ' :
  run_all_checks self expected_types t σ = (Returned report, σ') →
  ∃ r1 r2 r3 r4,
    logs (check_empty_dataset self) (issues self) (Returned r1)
         (logged self (Returned r1)) ∧
    logs (check_missing_values self t) (issues self) (Returned r2)
         (logged self (Returned r2)) ∧
    logs (check_duplicates self) (issues self) (Returned r3)
         (logged self (Returned r3)) ∧
    match r4 with
    | Some r =>
        supplied expected_types = true ∧
        logs (check_data_types self (default [] expected_types)) (issues self)
             (Returned r) (logged self (Returned r))
    | None => supplied expected_types = false
    end ∧
    report = {| validation_passed := all_passed (assemble r1 r2 r3 r4);
                issues_found := issues self;
                detailed_results := assemble r1 r2 r3 r4 |} ∧
    logs (run_all_checks self expected_types t) (issues self) (Returned report)
         (logged self (Returned r1) ++ logged self (Returned r2)
          ++ logged self (Returned r3)
          ++ from_option (λ r, logged self (Returned r)) [] r4).
Proof.
  intros Hrun.
  destruct (run_check_logs CheckEmptyDataset self) as [o1 H1].
  destruct (run_check_logs (CheckMissingValues t) self) as [o2 H2].
  destruct (run_check_logs CheckDuplicates self) as [o3 H3].
  destruct (run_check_logs (CheckDataTypes (default [] expected_types)) self)
    as [o4 H4].
  simpl in H1, H2, H3, H4.
  unfold run_all_checks in Hrun. unfold bind at 1 in Hrun. rewrite H1 in Hrun.
  destruct o1 as [r1|e]; [|discriminate].
  unfold bind at 1 in Hrun. rewrite H2 in Hrun.
  destruct o2 as [r2|e]; [|discriminate].
  unfold bind at 1 in Hrun. rewrite H3 in Hrun.
  destruct o3 as [r3|e]; [|discriminate].
  unfold run_all_checks.
  destruct (supplied expected_types) eqn:Hs.
  - unfold bind at 1 2 in Hrun. rewrite H4 in Hrun.
    destruct o4 as [r4|e]; [|discriminate].
    unfold ret in Hrun. injection Hrun as <- <-.
    exists r1, r2, r3, (Some r4). repeat split; try done.
    eapply logs_bind; [exact H1|].
    eapply logs_bind; [exact H2|].
    eapply logs_bind; [exact H3|].
    replace (from_option (λ r, logged self (Returned r)) [] (Some r4))
      with ((logged self (Returned r4) ++ []) ++ [])%list
      by (by rewrite !app_nil_r).
    eapply logs_bind; [|apply logs_ret].
    eapply logs_bind; [exact H4|apply logs_ret].
  - unfold bind at 1 in Hrun. unfold ret in Hrun. injection Hrun as <- <-.
    exists r1, r2, r3, None. repeat split; try done.
    eapply logs_bind; [exact H1|].
    eapply logs_bind; [exact H2|].
    simpl from_option.
    eapply logs_bind; [exact H3|].
    apply (logs_bind _ _ _ (assemble r1 r2 r3 None) [] _ []); apply logs_ret.
Qed.

(** C8, as stated, fails: a check of a checker that is bound to no frame
    returns [passed = False] and leaves the issue list as it was. *)
Lemma unbound_check_fails_unlogged :
  ∃ r σ',
    check_empty_dataset unbound_checker fresh_store = (Returned r, σ')
    ∧ passed r = false
    ∧ fresh_store !!! issues unbound_checker = []
    ∧ σ' !!! issues unbound_checker = []
    ∧ σ' !!! issues unbound_checker
      ≠ (fresh_store !!! issues unbound_checker ++ [message r])%list.
Proof.
  eexists _, _. split; [vm_compute; reflexivity|].
  repeat split; try (vm_compute; reflexivity).
  vm_compute. discriminate.
Qed.

(** C8 (amended).  A check of a checker that is bound to a frame, when it
    returns [passed = False], appends its message to the issue list of the
    checker, and when it returns [passed = True] it leaves the store as it
    was; a check of a checker that is bound to no frame returns
    [passed = False] with "No data provided" and leaves the store as it
    was.  No check removes an entry: the list before the check is a prefix
    of the list after it, and no other list of the store changes. *)
Theorem check_logs_its_failure check self σ r σ' :
  run_check check self σ = (Returned r, σ') →
  (passed r = true → σ' = σ)
  ∧ (passed r = false → is_Some (data self) →
       σ' = <[issues self := (σ !!! issues self ++ [message r])%list]> σ
       ∧ σ' !!! issues self = (σ !!! issues self ++ [message r])%list)
  ∧ (data self = None →
       passed r = false ∧ message r = NoDataProvided ∧ σ' = σ)
  ∧ σ !!! issues self `prefix_of` σ' !!! issues self
  ∧ (∀ log, log ≠ issues self → σ' !! log = σ !! log).
Proof.
  intros Hrun. destruct (run_check_logs check self) as [o Hlogs].
  pose proof (Hlogs σ) as E. rewrite Hrun in E. injection E as <- ->.
  split; [|split; [|split; [|split]]].
  - intros Hp. unfold logged. rewrite Hp. by destruct (data self).
  - intros Hp [df Hd]. unfold logged. rewrite Hd, Hp. simpl.
    split; [done|]. by rewrite lookup_total_insert_eq.
  - intros Hd. destruct (run_check_unbound _ _ _ _ _ Hd Hrun) as [Hp Hm].
    split; [done|]. split; [done|]. unfold logged. by rewrite Hd.
  - rewrite appends_lookup_total. by apply prefix_app_r.
  - intros log Hne. by rewrite appends_lookup_ne.
Qed.

Lemma check_logs_its_failure_witness :
  ∃ r σ',
    run_check CheckEmptyDataset (bound_checker no_rows) fresh_store
    = (Returned r, σ')
    ∧ passed r = false
    ∧ σ' !!! issues (bound_checker no_rows)
      = (fresh_store !!! issues (bound_checker no_rows) ++ [message r])%list.
Proof.
  eexists _, _. split; [vm_compute; reflexivity|]. split; [reflexivity|].
  refine (proj2 (proj1 (proj2 (check_logs_its_failure CheckEmptyDataset
                                 (bound_checker no_rows) fresh_store _ _ _))
                   _ _)).
  - vm_compute. reflexivity.
  - reflexivity.
  - by eexists.
Defined.

(** ** The verdict *)

Lemma all_passed_spec (output : gmap string CheckResult) :
  all_passed output = true
  ↔ ∀ name r, output !! name = Some r → passed r = true.
Proof.
  unfold all_passed. rewrite forallb_forall. split.
  - intros H name r Hr. apply H. apply list_elem_of_In.
    apply list_elem_of_fmap. exists (name, r). split; [done|].
    by apply elem_of_map_to_list.
  - intros H r Hin. apply list_elem_of_In, list_elem_of_fmap in Hin.
    destruct Hin as ([name r'] & -> & Hin). apply elem_of_map_to_list in Hin.
    by eapply H.
Qed.

Lemma all_passed_insert (output : gmap string CheckResult) name r :
  all_passed (<[name := r]> output) = passed r && all_passed (delete name output).
Proof.
  apply eq_iff_eq_true. rewrite andb_true_iff, !all_passed_spec. split.
  - intros H. split.
    + apply (H name). apply lookup_insert_eq.
    + intros name' r' Hr'. apply lookup_delete_Some in Hr' as [Hne Hr'].
      apply (H name'). by rewrite lookup_insert_ne.
  - intros [Hr H] name' r' Hr'.
    destruct (decide (name = name')) as [<-|Hne].
    + rewrite lookup_insert_eq in Hr'. by injection Hr' as <-.
    + rewrite lookup_insert_ne in Hr' by done. apply (H name').
      by apply lookup_delete_Some.
Qed.

Lemma all_passed_lookup (output : gmap string CheckResult) name r :
  output !! name = Some r →
  all_passed output = passed r && all_passed (delete name output).
Proof.
  intros Hr. rewrite <- all_passed_insert. by rewrite insert_id.
Qed.

Lemma all_passed_assemble r1 r2 r3 r4 :
  all_passed (assemble r1 r2 r3 r4)
  = passed r1 && passed r2 && passed r3 && from_option passed true r4.
Proof.
  apply eq_iff_eq_true. rewrite !andb_true_iff, all_passed_spec.
  unfold assemble. split.
  - intros H. repeat split.
    + apply (H "empty_dataset"). destruct r4; by simplify_map_eq.
    + apply (H "missing_values"). destruct r4; by simplify_map_eq.
    + apply (H "duplicates"). destruct r4; by simplify_map_eq.
    + destruct r4 as [r|]; [|done]. apply (H "data_types"). by simplify_map_eq.
  - intros [[[H1 H2] H3] H4] name r Hr.
    destruct r4 as [r4|]; simpl in H4;
      repeat (apply lookup_insert_Some in Hr as [[<- <-]|[? Hr]]; [done|]);
      by rewrite lookup_empty in Hr.
Qed.

Lemma dom_assemble r1 r2 r3 r4 :
  dom (assemble r1 r2 r3 r4)
  = ({["empty_dataset"; "missing_values"; "duplicates"]} : gset string)
    ∪ (match r4 with Some _ => {["data_types"]} | None => ∅ end).
Proof.
  unfold assemble. destruct r4; rewrite !dom_insert_L, dom_empty_L; set_solver.
Qed.

Lemma failed_messages_assemble r1 r2 r3 r4 :
  failed_messages (assemble r1 r2 r3 r4)
  = ((if passed r1 then [] else [message r1])
     ++ (if passed r2 then [] else [message r2])
     ++ (if passed r3 then [] else [message r3])
     ++ from_option (λ r, if passed r then [] else [message r]) [] r4)%list.
Proof.
  unfold failed_messages, check_names, assemble.
  destruct r4 as [r4|]; simpl; simplify_map_eq;
    destruct (passed r1), (passed r2), (passed r3); try destruct (passed r4);
    reflexivity.
Qed.

(** C2, as stated, fails: when two checks fail, negating the outcome of
    one of them leaves the verdict as it was.  Here the missing-value check
    and the duplicate check both fail. *)
Lemma flipping_one_failure_of_two :
  ∃ report σ' r,
    run_all_checks (bound_checker two_bad_rows) None default_threshold fresh_store
    = (Returned report, σ')
    ∧ detailed_results report !! "duplicates" = Some r
    ∧ passed r = false
    ∧ validation_passed report = false
    ∧ all_passed (<["duplicates" := flip r]> (detailed_results report))
      = validation_passed report.
Proof.
  eexists _, _, _. split; [vm_compute; reflexivity|].
  split; [vm_compute; reflexivity|].
  repeat split; vm_compute; reflexivity.
Qed.

(** C2 (amended).  The report that [run_all_checks] returns holds the
    results of exactly the checks that ran (the type check only when
    expected types were supplied), and [validation_passed] is true if and
    only if every one of them passed.  Negating the outcome of one check
    while the others stay as they are negates the verdict exactly when all
    the other checks passed. *)
Theorem verdict_is_conjunction self expected_types t σ report σ' :
  run_all_checks self expected_types t σ = (Returned report, σ') →
  (validation_passed report = true
   ↔ ∀ name r, detailed_results report !! name = Some r → passed r = true)
  ∧ (∃ r1 r2 r3 r4,
       detailed_results report = assemble r1 r2 r3 r4
       ∧ (∀ σ0, (check_empty_dataset self σ0).1 = Returned r1)
       ∧ (∀ σ0, (check_missing_values self t σ0).1 = Returned r2)
       ∧ (∀ σ0, (check_duplicates self σ0).1 = Returned r3)
       ∧ match r4 with
         | Some r =>
             supplied expected_types = true
             ∧ ∀ σ0, (check_data_types self (default [] expected_types) σ0).1
                     = Returned r
         | None => supplied expected_types = false
         end
       ∧ validation_passed report
         = passed r1 && passed r2 && passed r3 && from_option passed true r4)
  ∧ dom (detailed_results report)
    = ({["empty_dataset"; "missing_values"; "duplicates"]} : gset string)
      ∪ (if supplied expected_types then {["data_types"]} else ∅)
  ∧ (∀ name r,
       detailed_results report !! name = Some r →
       (all_passed (<[name := flip r]> (detailed_results report))
        = negb (validation_passed report)
        ↔ ∀ name' r', name' ≠ name →
            detailed_results report !! name' = Some r' → passed r' = true)).
Proof.
  intros Hrun.
  destruct (run_all_checks_inv _ _ _ _ _ _ Hrun)
    as (r1 & r2 & r3 & r4 & H1 & H2 & H3 & H4 & -> & _).
  simpl. split; [apply all_passed_spec|]. split; [|split].
  - exists r1, r2, r3, r4. split; [done|].
    split; [intros σ0; by rewrite H1|]. split; [intros σ0; by rewrite H2|].
    split; [intros σ0; by rewrite H3|]. split.
    + destruct r4 as [r|]; [|done]. destruct H4 as [Hs H4].
      split; [done|]. intros σ0. by rewrite H4.
    + apply all_passed_assemble.
  - rewrite dom_assemble. destruct r4 as [r|].
    + destruct H4 as [-> _]. done.
    + rewrite H4. done.
  - intros name r Hr. rewrite all_passed_insert.
    rewrite (all_passed_lookup _ _ _ Hr). simpl.
    assert (all_passed (delete name (assemble r1 r2 r3 r4)) = true
            ↔ ∀ name' r', name' ≠ name →
                assemble r1 r2 r3 r4 !! name' = Some r' → passed r' = true)
      as <-.
    { rewrite all_passed_spec. split.
      - intros H name' r' Hne Hr'. apply (H name'). by apply lookup_delete_Some.
      - intros H name' r' Hr'. apply lookup_delete_Some in Hr' as [Hne Hr'].
        by apply (H name'). }
    destruct (passed r), (all_passed (delete name (assemble r1 r2 r3 r4)));
      simpl; split; congruence.
Qed.

Lemma verdict_is_conjunction_witness :
  ∃ report σ',
    run_all_checks (bound_checker two_bad_rows) None default_threshold fresh_store
    = (Returned report, σ')
    ∧ (validation_passed report = true
       ↔ ∀ name r, detailed_results report !! name = Some r → passed r = true).
Proof.
  eexists _, _. split; [vm_compute; reflexivity|].
  refine (proj1 (verdict_is_conjunction (bound_checker two_bad_rows) None
                   default_threshold fresh_store _ _ _)).
  vm_compute. reflexivity.
Defined.

(** ** Repeated runs *)

(** A run of [run_all_checks] that returns [report] returns it in every
    store, and appends to the issue list of the checker the messages of
    the checks that failed. *)
Lemma run_all_checks_logs self expected_types t σ report σ' :
  run_all_checks self expected_types t σ = (Returned report, σ') →
  issues_found report = issues self
  ∧ logs (run_all_checks self expected_types t) (issues self)
         (Returned report) (issues_added self report).
Proof.
  intros Hrun.
  destruct (run_all_checks_inv _ _ _ _ _ _ Hrun)
    as (r1 & r2 & r3 & r4 & _ & _ & _ & _ & -> & Hlogs).
  split; [done|].
  replace (issues_added self _)
    with (logged self (Returned r1) ++ logged self (Returned r2)
          ++ logged self (Returned r3)
          ++ from_option (λ r, logged self (Returned r)) [] r4)%list; [done|].
  unfold issues_added, logged. simpl. destruct (data self).
  - by rewrite failed_messages_assemble.
  - by destruct r4.
Qed.

(** C3, as stated, fails: on a frame without rows the first call returns
    a report whose [issues_found] holds one message, and the second call
    on the same checker returns a report whose [issues_found] holds
    two. *)
Lemma repeated_runs_differ :
  ∃ r1 σ1 r2 σ2,
    run_all_checks (bound_checker no_rows) None default_threshold fresh_store
    = (Returned r1, σ1)
    ∧ run_all_checks (bound_checker no_rows) None default_threshold σ1
      = (Returned r2, σ2)
    ∧ value_issues (read_report σ1 r1) = [DatasetIsEmpty]
    ∧ value_issues (read_report σ2 r2) = [DatasetIsEmpty; DatasetIsEmpty]
    ∧ read_report σ1 r1 ≠ read_report σ2 r2.
Proof.
  eexists _, _, _, _. split; [vm_compute; reflexivity|].
  split; [vm_compute; reflexivity|].
  split; [vm_compute; reflexivity|].
  split; [vm_compute; reflexivity|].
  intros H. apply (f_equal value_issues) in H. vm_compute in H. discriminate.
Qed.

(** C3 (amended).  A second call of [run_all_checks] on the same checker
    with the same expected types and threshold returns the same verdict
    and the same detailed results, and the [issues_found] of both reports
    is the one issue list of the checker.  Each call appends to that list
    the messages of its failed checks, so the list that the second report
    shows is the list that the first report showed followed by those
    messages once more; what the two reports show is equal only when the
    call logged nothing.  From stores in which the issue list has equal
    contents, the call returns reports that show the same. *)
Theorem repeated_run_all_checks self expected_types t σ report σ1 :
  run_all_checks self expected_types t σ = (Returned report, σ1) →
  issues_found report = issues self
  ∧ σ1 !!! issues self = (σ !!! issues self ++ issues_added self report)%list
  ∧ (∃ σ2,
       run_all_checks self expected_types t σ1 = (Returned report, σ2)
       ∧ σ2 !!! issues self
         = (σ1 !!! issues self ++ issues_added self report)%list
       ∧ (read_report σ1 report = read_report σ2 report
          ↔ issues_added self report = []))
  ∧ (∀ σ0,
       σ0 !!! issues self = σ !!! issues self →
       ∃ σ0', run_all_checks self expected_types t σ0 = (Returned report, σ0')
              ∧ read_report σ0' report = read_report σ1 report).
Proof.
  intros Hrun. destruct (run_all_checks_logs _ _ _ _ _ _ Hrun) as [Hloc Hlogs].
  pose proof (Hlogs σ) as E. rewrite Hrun in E. injection E as ->.
  split; [done|]. split; [apply appends_lookup_total|]. split.
  - eexists. split; [apply Hlogs|]. split; [apply appends_lookup_total|].
    unfold read_report. rewrite Hloc, !appends_lookup_total. split.
    + intros H. injection H as H.
      rewrite <- (app_nil_r (_ ++ issues_added self report)) in H at 1.
      by apply app_inv_head in H.
    + intros ->. by rewrite !app_nil_r.
  - intros σ0 H0. eexists. split; [apply Hlogs|].
    unfold read_report. by rewrite Hloc, !appends_lookup_total, H0.
Qed.

Lemma repeated_run_all_checks_witness :
  ∃ report σ1 σ2,
    run_all_checks (bound_checker no_rows) None default_threshold fresh_store
    = (Returned report, σ1)
    ∧ run_all_checks (bound_checker no_rows) None default_threshold σ1
      = (Returned report, σ2)
    ∧ σ2 !!! issues (bound_checker no_rows)
      = (σ1 !!! issues (bound_checker no_rows)
         ++ issues_added (bound_checker no_rows) report)%list.
Proof.
  eexists _, _.
  destruct (repeated_run_all_checks (bound_checker no_rows) None
              default_threshold fresh_store _ _ eq_refl)
    as (_ & _ & (σ2 & Hrun & Hlog & _) & _).
  exists σ2. split; [reflexivity|]. split; [exact Hrun|exact Hlog].
Defined.

(** ** Absent and empty expected types *)

Lemma duplicated_sum_retag f df : duplicated_sum (retag f df) = duplicated_sum df.
Proof.
  unfold duplicated_sum, df_empty, retag. simpl. rewrite length_map.
  destruct (_ || _); [done|]. f_equal.
  induction (columns df) as [|c cs IH]; simpl; [done|]. by rewrite IH.
Qed.

(** The three checks that always run do not read the dtype of a column. *)
Lemma check_empty_dataset_retag f self :
  check_empty_dataset (retag_checker f self) = check_empty_dataset self.
Proof. unfold check_empty_dataset. simpl. by destruct (data self). Qed.

Lemma check_missing_values_retag f self t :
  check_missing_values (retag_checker f self) t = check_missing_values self t.
Proof.
  unfold check_missing_values. simpl. destruct (data self) as [df|]; [|done].
  simpl. unfold report_check. simpl.
  replace (map _ (map _ (columns df)))
    with (map (λ c : string * Series,
                 (c.1, missing_fraction (null_count c.2) (index_len df)))
              (columns df)); [done|].
  rewrite map_map. done.
Qed.

Lemma check_duplicates_retag f self :
  check_duplicates (retag_checker f self) = check_duplicates self.
Proof.
  unfold check_duplicates. simpl. destruct (data self) as [df|]; [|done].
  simpl. by rewrite duplicated_sum_retag.
Qed.

(** C9.  Without expected types [run_all_checks] runs the empty-dataset
    check, the missing-value check and the duplicate check and nothing
    else: the report has no [data_types] entry, its verdict is the
    conjunction of those three checks, and neither changes when the dtypes
    of the columns are replaced by any others. *)
Theorem run_all_checks_without_types self t σ report σ' :
  run_all_checks self None t σ = (Returned report, σ') →
  detailed_results report !! "data_types" = None
  ∧ dom (detailed_results report)
    = ({["empty_dataset"; "missing_values"; "duplicates"]} : gset string)
  ∧ (∃ r1 r2 r3,
       (∀ σ0, (check_empty_dataset self σ0).1 = Returned r1)
       ∧ (∀ σ0, (check_missing_values self t σ0).1 = Returned r2)
       ∧ (∀ σ0, (check_duplicates self σ0).1 = Returned r3)
       ∧ detailed_results report = assemble r1 r2 r3 None
       ∧ validation_passed report = passed r1 && passed r2 && passed r3)
  ∧ (∀ f, run_all_checks (retag_checker f self) None t σ = (Returned report, σ')).
Proof.
  intros Hrun.
  destruct (run_all_checks_inv _ _ _ _ _ _ Hrun)
    as (r1 & r2 & r3 & r4 & H1 & H2 & H3 & H4 & Hrep & _).
  destruct r4 as [r4|]; [by destruct H4|]. subst report.
  cbn [detailed_results validation_passed].
  split; [by unfold assemble; simplify_map_eq|].
  split; [rewrite dom_assemble; set_solver|]. split.
  - exists r1, r2, r3. split; [intros σ0; by rewrite H1|].
    split; [intros σ0; by rewrite H2|]. split; [intros σ0; by rewrite H3|].
    split; [done|].
    rewrite all_passed_assemble. simpl. by rewrite andb_true_r.
  - intros f. rewrite <- Hrun. unfold run_all_checks.
    rewrite check_empty_dataset_retag, check_missing_values_retag,
      check_duplicates_retag. done.
Qed.

Lemma run_all_checks_without_types_witness :
  ∃ report σ',
    run_all_checks (bound_checker two_bad_rows) None default_threshold fresh_store
    = (Returned report, σ')
    ∧ detailed_results report !! "data_types" = None
    ∧ run_all_checks
        (retag_checker (λ _ _, "datetime64[ns]") (bound_checker two_bad_rows))
        None default_threshold fresh_store
      = (Returned report, σ').
Proof.
  eexists _, _.
  destruct (run_all_checks_without_types (bound_checker two_bad_rows)
              default_threshold fresh_store _ _ eq_refl)
    as (Hnone & _ & _ & Hretag).
  split; [reflexivity|]. split; [exact Hnone|apply Hretag].
Defined.

(** C10.  An empty dictionary of expected types is treated as an absent
    one: [run_all_checks] does the same in every store, and in particular
    the report has no [data_types] entry. *)
Theorem run_all_checks_empty_types self t σ :
  run_all_checks self (Some []) t σ = run_all_checks self None t σ
  ∧ ∀ report σ',
      run_all_checks self (Some []) t σ = (Returned report, σ') →
      detailed_results report !! "data_types" = None.
Proof.
  split; [reflexivity|]. intros report σ' Hrun.
  change (run_all_checks self None t σ = (Returned report, σ')) in Hrun.
  by destruct (run_all_checks_inv _ _ _ _ _ _ Hrun)
    as (r1 & r2 & r3 & [r4|] & _ & _ & _ & H4 & -> & _);
    [destruct H4|unfold assemble; simpl; simplify_map_eq].
Qed.

Lemma run_all_checks_empty_types_witness :
  ∃ report σ',
    run_all_checks (bound_checker two_bad_rows) (Some []) default_threshold
      fresh_store
    = (Returned report, σ')
    ∧ detailed_results report !! "data_types" = None.
Proof.
  eexists _, _. split; [vm_compute; reflexivity|].
  refine (proj2 (run_all_checks_empty_types (bound_checker two_bad_rows)
                   default_threshold fresh_store) _ _ _).
  vm_compute. reflexivity.
Defined.

(** ** Float64 arithmetic *)

Lemma round_half_even_nonneg num den :
  (0 ≤ num)%Z → (0 < den)%Z → (0 ≤ round_half_even num den)%Z.
Proof.
  intros Hnum Hden. unfold round_half_even.
  pose proof (Z.div_pos num den Hnum Hden).
  destruct (2 * (num `mod` den) ?= den)%Z; [destruct (Z.even _)| |]; lia.
Qed.

Lemma round_half_even_le num den g :
  (0 < den)%Z → (num ≤ g * den)%Z → (round_half_even num den ≤ g)%Z.
Proof.
  intros Hden Hle. unfold round_half_even.
  pose proof (Z.div_mod num den ltac:(lia)) as Hdm.
  pose proof (Z.mod_pos_bound num den Hden) as Hmod.
  assert (num / den ≤ g)%Z as Hq by (apply Z.div_le_upper_bound; lia).
  destruct (Z.compare_spec (2 * (num `mod` den)) den) as [Heq|Hlt|Hgt];
    [destruct (Z.even _)| |]; try lia; nia.
Qed.

Lemma round_half_even_pos num den :
  (0 < den)%Z → (den < 2 * num)%Z → (1 ≤ round_half_even num den)%Z.
Proof.
  intros Hden Hlt. unfold round_half_even.
  pose proof (Z.div_mod num den ltac:(lia)) as Hdm.
  pose proof (Z.mod_pos_bound num den Hden) as Hmod.
  assert (0 ≤ num / den)%Z as Hq by (apply Z.div_pos; lia).
  destruct (Z.compare_spec (2 * (num `mod` den)) den) as [Heq|Hlt'|Hgt];
    [destruct (Z.even _)| |]; try lia; nia.
Qed.

(** [round_half_even] is within half a unit of the quotient. *)
Lemma round_half_even_nearest num den :
  (0 < den)%Z → (2 * Z.abs (num - round_half_even num den * den) ≤ den)%Z.
Proof.
  intros Hden. unfold round_half_even.
  pose proof (Z.div_mod num den ltac:(lia)) as Hdm.
  pose proof (Z.mod_pos_bound num den Hden) as Hmod.
  destruct (Z.compare_spec (2 * (num `mod` den)) den) as [Heq|Hlt|Hgt];
    [destruct (Z.even _)| |]; nia.
Qed.

(** [binade a b] is the exponent [E] with [2^E ≤ a / b < 2^(E+1)]. *)
Lemma binade_spec a b :
  let E := binade a b in
  (2 ^ Z.max 0 E * Z.pos b ≤ Z.pos a * 2 ^ Z.max 0 (- E))%Z
  ∧ (Z.pos a * 2 ^ Z.max 0 (- (E + 1)) < 2 ^ Z.max 0 (E + 1) * Z.pos b)%Z.
Proof.
  unfold binade.
  pose proof (Z.log2_spec (Z.pos a) ltac:(lia)) as [Ha1 Ha2].
  pose proof (Z.log2_spec (Z.pos b) ltac:(lia)) as [Hb1 Hb2].
  pose proof (Z.log2_nonneg (Z.pos a)) as Hla.
  pose proof (Z.log2_nonneg (Z.pos b)) as Hlb.
  set (la := Z.log2 (Z.pos a)) in *. set (lb := Z.log2 (Z.pos b)) in *.
  rewrite Z.pow_succ_r in Ha2, Hb2 by done.
  destruct (Z.le_gt_cases lb la) as [Hd|Hd].
  - (* d ≥ 0 *)
    replace la with (lb + (la - lb))%Z in Ha1, Ha2 by lia.
    rewrite Z.pow_add_r in Ha1, Ha2 by lia.
    set (d := (la - lb)%Z) in *.
    assert (0 < 2 ^ d)%Z by (apply Z.pow_pos_nonneg; lia).
    assert (0 < 2 ^ lb)%Z by (apply Z.pow_pos_nonneg; lia).
    rewrite (Z.max_l 0 (- d)), (Z.max_r 0 d) by lia.
    rewrite Z.pow_0_r, Z.mul_1_r.
    destruct (Z.ltb_spec (Z.pos a) (Z.pos b * 2 ^ d)) as [Hlt|Hge]; cbn zeta.
    + replace (d - 1 + 1)%Z with d by lia.
      rewrite (Z.max_l 0 (- d)), (Z.max_r 0 d) by lia.
      rewrite Z.pow_0_r, Z.mul_1_r. split; [|lia].
      destruct (Z.eq_dec d 0%Z) as [Hz|Hnz].
      * rewrite Hz in *. rewrite (Z.max_l 0 (0 - 1)) by lia.
        replace (- (0 - 1))%Z with 1%Z by lia. rewrite (Z.max_r 0 1) by lia.
        rewrite Z.pow_0_r in *. change (2 ^ 1)%Z with 2%Z. lia.
      * rewrite (Z.max_r 0 (d - 1)), (Z.max_l 0 (- (d - 1))) by lia.
        rewrite Z.pow_0_r, Z.mul_1_r.
        replace d with (Z.succ (d - 1)) in Ha1 by lia.
        rewrite Z.pow_succ_r in Ha1 by lia.
        assert (0 < 2 ^ (d - 1))%Z by (apply Z.pow_pos_nonneg; lia). nia.
    + rewrite (Z.max_l 0 (- (d + 1))), (Z.max_r 0 (d + 1)) by lia.
      rewrite (Z.max_l 0 (- d)), (Z.max_r 0 d) by lia.
      rewrite Z.pow_0_r, !Z.mul_1_r. split; [lia|].
      rewrite Z.pow_add_r by lia. change (2 ^ 1)%Z with 2%Z. nia.
  - (* d < 0 *)
    set (n := (lb - la)%Z).
    replace (la - lb)%Z with (- n)%Z by lia.
    replace lb with (la + n)%Z in Hb1, Hb2 by lia.
    rewrite Z.pow_add_r in Hb1, Hb2 by lia.
    assert (0 < n)%Z as Hn by lia. clearbody n.
    assert (0 < 2 ^ n)%Z by (apply Z.pow_pos_nonneg; lia).
    assert (0 < 2 ^ la)%Z by (apply Z.pow_pos_nonneg; lia).
    rewrite Z.opp_involutive.
    rewrite (Z.max_r 0 n), (Z.max_l 0 (- n)) by lia.
    rewrite Z.pow_0_r, Z.mul_1_r.
    destruct (Z.ltb_spec (Z.pos a * 2 ^ n) (Z.pos b)) as [Hlt|Hge]; cbn zeta.
    + replace (- n - 1 + 1)%Z with (- n)%Z by lia.
      rewrite Z.opp_involutive.
      rewrite (Z.max_l 0 (- n - 1)), (Z.max_r 0 (- (- n - 1))) by lia.
      rewrite (Z.max_r 0 n), (Z.max_l 0 (- n)) by lia.
      rewrite Z.pow_0_r, Z.mul_1_l. split; [|lia].
      replace (- (- n - 1))%Z with (Z.succ n) by lia.
      rewrite Z.pow_succ_r by lia. nia.
    + rewrite Z.opp_involutive.
      rewrite (Z.max_r 0 n), (Z.max_l 0 (- n)) by lia.
      rewrite Z.pow_0_r, Z.mul_1_l. split; [lia|].
      replace (- (- n + 1))%Z with (n - 1)%Z by lia.
      rewrite (Z.max_r 0 (n - 1)), (Z.max_l 0 (- n + 1)) by lia.
      rewrite Z.pow_0_r, Z.mul_1_l.
      assert (2 ^ n = 2 * 2 ^ (n - 1))%Z as Hpow
        by (rewrite <- Z.pow_succ_r by lia; f_equal; lia).
      assert (0 < 2 ^ (n - 1))%Z by (apply Z.pow_pos_nonneg; lia).
      rewrite Hpow in Hb1. nia.
Qed.

Lemma binade_le a b : (a ≤ b)%positive → (binade a b ≤ 0)%Z.
Proof.
  intros Hle. unfold binade.
  assert (Z.log2 (Z.pos a) ≤ Z.log2 (Z.pos b))%Z
    by (apply Z.log2_le_mono; lia).
  destruct (_ <? _)%Z; lia.
Qed.

(** The unit in the last place of a quotient that is at most 1 is at most
    [2^-52]. *)
Lemma round64_pos_unit a b :
  (a ≤ b)%positive →
  ∃ n, (52 ≤ n)%Z
       ∧ round64_pos a b
         = (round_half_even (Z.pos a * 2 ^ n) (Z.pos b) # Z.to_pos (2 ^ n))%Q.
Proof.
  intros Hle. pose proof (binade_le a b Hle) as Hb. unfold round64_pos.
  set (e := Z.max (binade a b - 52) (-1074)).
  assert (e ≤ -52)%Z as He by lia.
  exists (- e)%Z. split; [lia|].
  rewrite (Z.max_l 0 e), (Z.max_r 0 (- e)) by lia.
  by rewrite Z.pow_0_r, !Z.mul_1_r.
Qed.

Lemma round64_pos_nonneg a b : (0 <= round64_pos a b)%Q.
Proof.
  unfold round64_pos, Qle. cbn [Qnum Qden]. rewrite Z.mul_1_r, Z.mul_0_l.
  apply Z.mul_nonneg_nonneg; [|apply Z.pow_nonneg; lia].
  apply round_half_even_nonneg.
  - apply Z.mul_nonneg_nonneg; [lia|apply Z.pow_nonneg; lia].
  - apply Z.mul_pos_pos; [lia|apply Z.pow_pos_nonneg; lia].
Qed.

Lemma round64_pos_le_1 a b : (a ≤ b)%positive → (round64_pos a b <= 1)%Q.
Proof.
  intros Hle. destruct (round64_pos_unit a b Hle) as (n & Hn & ->).
  unfold Qle. cbn [Qnum Qden].
  assert (0 < 2 ^ n)%Z as Hpow by (apply Z.pow_pos_nonneg; lia).
  rewrite Z2Pos.id by done. rewrite !Z.mul_1_r, Z.mul_1_l.
  apply round_half_even_le; [lia|]. nia.
Qed.

Lemma round64_pos_pos a b :
  (a ≤ b)%positive → (Z.pos b < 2 ^ 53)%Z → (0 < round64_pos a b)%Q.
Proof.
  intros Hle Hb. destruct (round64_pos_unit a b Hle) as (n & Hn & ->).
  unfold Qlt. cbn [Qnum Qden]. rewrite Z.mul_1_r, Z.mul_0_l.
  apply (Z.lt_le_trans _ 1); [lia|].
  apply round_half_even_pos; [lia|].
  assert (2 ^ 52 ≤ 2 ^ n)%Z by (apply Z.pow_le_mono_r; lia).
  change (2 ^ 53)%Z with (2 * 2 ^ 52)%Z in Hb. nia.
Qed.

Lemma Q2Qc_le (x y : Q) : (x <= y)%Q → (Q2Qc x ≤ Q2Qc y)%Qc.
Proof. intros H. unfold Qcle. cbn [this Q2Qc]. by rewrite !Qred_correct. Qed.

Lemma Q2Qc_lt (x y : Q) : (x < y)%Q → (Q2Qc x < Q2Qc y)%Qc.
Proof. intros H. unfold Qclt. cbn [this Q2Qc]. by rewrite !Qred_correct. Qed.

(** A missing fraction is a number of the unit interval, and NaN on a
    frame without rows. *)
Lemma missing_fraction_nonneg count rows q :
  missing_fraction count rows = Some q → (Q2Qc 0 ≤ q)%Qc.
Proof.
  unfold missing_fraction. destruct rows as [|n]; [done|]. intros [= <-].
  apply Q2Qc_le. unfold round64. cbn [Qnum Qden].
  destruct (Z.of_nat count) as [|a|a] eqn:Hc;
    [done|apply round64_pos_nonneg|lia].
Qed.

Lemma missing_fraction_le_1 count rows q :
  (count ≤ rows)%nat → missing_fraction count rows = Some q → (q ≤ Q2Qc 1)%Qc.
Proof.
  unfold missing_fraction. destruct rows as [|n]; [done|]. intros Hle [= <-].
  apply Q2Qc_le. unfold round64. cbn [Qnum Qden].
  destruct (Z.of_nat count) as [|a|a] eqn:Hc; [done| |lia].
  apply round64_pos_le_1. lia.
Qed.

Lemma missing_fraction_pos count rows :
  (0 < count ≤ rows)%nat → (Z.of_nat rows < 2 ^ 53)%Z →
  ∃ q, missing_fraction count rows = Some q ∧ (Q2Qc 0 < q)%Qc.
Proof.
  unfold missing_fraction. destruct rows as [|n]; [lia|]. intros Hle Hrows.
  eexists. split; [done|].
  apply Q2Qc_lt. unfold round64. cbn [Qnum Qden].
  destruct (Z.of_nat count) as [|a|a] eqn:Hc; [lia| |lia].
  apply round64_pos_pos; lia.
Qed.

(** The arithmetic of the model against the float64 arithmetic of the
    kernel: the quotient of any two counts up to 64, and the product by
    100 of some thresholds (0.5, 0.3, 0.07 and 0.1, the least and the
    greatest float64, and the floats next to the hundredth of the
    greatest, where the product turns into an infinity), are the floats
    that the hardware computes; and [three_tenths] is the float nearest to
    0.3, [below_three_tenths] the float before it. *)
Lemma round64_is_float64 :
  three_tenths = Q2Qc (round64 (3 # 10))
  ∧ float64_value 0x1.3333333333333p-2 = Some (Finite three_tenths)
  ∧ float64_value (next_down 0x1.3333333333333p-2)
    = Some (Finite below_three_tenths)
  ∧ Forall (λ rows,
    Forall (λ count,
      float64_value (float64_of_nat count / float64_of_nat rows)%float
      = Finite <$> missing_fraction count rows) (seq 0 65)) (seq 1 64)
  ∧ float64_value (0 / 0)%float = Finite <$> missing_fraction 0 0
  ∧ Forall (λ threshold : float,
      float64_value (threshold * 100)%float
      = float64_value threshold
        ≫= λ v, match v with
                | Finite t => Some (float_mul t (Q2Qc 100))
                | Infinity _ => None
                end)
      [0x1p-1; 0x1.3333333333333p-2; 0x1.1eb851eb851ecp-4;
       0x1.999999999999ap-4; 0x1p+0; 0x0p+0; 0x1p-1074; 0x1p-1022;
       0x0.012688b70e62bp-1022; 0x1.fffffffffffffp+1000;
       (-0x1.3333333333333p-2); 0x1.47ae147ae1479p+1017;
       0x1.47ae147ae147ap+1017; 0x1.47ae147ae147bp+1017;
       (-0x1.47ae147ae147bp+1017); 0x1.fffffffffffffp+1023]%float.
Proof.
  repeat split; apply (bool_decide_unpack _); vm_compute; exact I.
Qed.

(** ** The missing-value threshold *)

Lemma float_gt_exceeds df s t :
  float_gt (missing_fraction (null_count s) (index_len df)) t = true
  ↔ exceeds df s t.
Proof.
  unfold exceeds, float_gt.
  destruct (missing_fraction _ _) as [q|].
  - rewrite bool_decide_eq_true. split.
    + intros H. by exists q.
    + intros (q' & [= <-] & H). done.
  - split; [done|]. by intros (q & ? & _).
Qed.

Lemma to_dict_is_Some {A} (l : list (string * A)) name :
  is_Some (to_dict l !! name) ↔ name ∈ l.*1.
Proof.
  unfold to_dict.
  assert (∀ m : gmap string A,
            is_Some (foldl (λ m kv, <[kv.1 := kv.2]> m) m l !! name)
            ↔ is_Some (m !! name) ∨ name ∈ l.*1) as H.
  { induction l as [|[k v] l IH]; intros m; simpl.
    - rewrite elem_of_nil. tauto.
    - rewrite IH, elem_of_cons, lookup_insert_is_Some'. simpl.
      split; [intros [[->|]|]|intros [|[->|]]]; tauto. }
  rewrite H, lookup_empty, is_Some_alt. tauto.
Qed.

Lemma problematic_columns_spec df t name :
  name ∈ (filter (λ c : string * PyFloat, float_gt c.2 t = true)
            (map (λ c : string * Series,
                    (c.1, missing_fraction (null_count c.2) (index_len df)))
                 (columns df))).*1
  ↔ ∃ s, (name, s) ∈ columns df ∧ exceeds df s t.
Proof.
  rewrite list_elem_of_fmap. split.
  - intros ([name' f] & -> & Hin). apply list_elem_of_filter in Hin as [Hgt Hin].
    apply list_elem_of_fmap in Hin as ([name'' s] & [= -> ->] & Hin).
    exists s. split; [done|]. by apply float_gt_exceeds.
  - intros (s & Hin & Hex).
    exists (name, missing_fraction (null_count s) (index_len df)).
    split; [done|]. apply list_elem_of_filter. split.
    + by apply float_gt_exceeds.
    + apply list_elem_of_fmap. by exists (name, s).
Qed.

(** C7.  [check_missing_values] on a checker bound to a frame reports a
    column exactly when its missing fraction, the float64 quotient of the
    number of its missing cells by the number of rows, is greater than the
    threshold, and passes exactly when no column is reported.  A column
    whose missing fraction equals the threshold is not reported: 2 missing
    of 4 rows at threshold 0.5, and 3 of 10 at the float 0.3, to which
    that quotient is rounded; 3 of 4 at 0.5 is reported.  At threshold 0
    every column that holds a missing cell ([None] or NaN) is reported,
    in a frame as pandas builds it, of fewer than [2^53] rows.  On the
    frame [four_rows] at threshold 0.5 the check fails and reports the
    column that misses three cells, not the one that misses two. *)
Theorem check_missing_values_threshold self df t σ :
  data self = Some df →
  ∃ r σ',
    check_missing_values self t σ = (Returned r, σ')
    ∧ (∀ name, name ∈ reported_index r
               ↔ ∃ s, (name, s) ∈ columns df ∧ exceeds df s t)
    ∧ (∀ name, is_Some (reported_columns r !! name)
               ↔ ∃ s, (name, s) ∈ columns df ∧ exceeds df s t)
    ∧ (passed r = true
       ↔ ∀ name s, (name, s) ∈ columns df → ¬ exceeds df s t)
    ∧ (∀ s, missing_fraction (null_count s) (index_len df) = Some t →
            ¬ exceeds df s t)
    ∧ (∀ s, index_len df = 4 → t = Q2Qc (1 # 2) →
            (null_count s = 2 → ¬ exceeds df s t)
            ∧ (null_count s = 3 → exceeds df s t))
    ∧ (∀ s, index_len df = 10 → t = three_tenths → null_count s = 3 →
            ¬ exceeds df s t)
    ∧ (∀ name s v, t = Q2Qc 0 → frame_wf df →
                   (Z.of_nat (index_len df) < 2 ^ 53)%Z →
                   (name, s) ∈ columns df →
                   v ∈ cells s → v = SNone ∨ v = SNaN → exceeds df s t)
    ∧ (df = four_rows → t = Q2Qc (1 # 2) →
       reported_index r = ["price"] ∧ passed r = false).
Proof.
  intros Hd. unfold check_missing_values. rewrite Hd.
  eexists _, _. split; [apply (report_check_logs self _ σ)|].
  cbn [passed message extra reported_index reported_columns].
  split; [apply problematic_columns_spec|].
  split; [intros name; rewrite to_dict_is_Some; apply problematic_columns_spec|].
  split; [|split; [|split; [|split; [|split]]]].
  - rewrite Nat.eqb_eq, length_zero_iff_nil. split.
    + intros Hnil name s Hin Hex.
      assert (name ∈ ([] : list (string * PyFloat)).*1) as Habs
        by (rewrite <- Hnil; apply problematic_columns_spec; eauto).
      by apply elem_of_nil in Habs.
    + intros Hall.
      destruct (filter _ _) as [|[name f] l] eqn:Hf; [done|].
      assert (name ∈ ((name, f) :: l).*1) as Hin by (simpl; left).
      rewrite <- Hf in Hin. apply problematic_columns_spec in Hin
        as (s & Hin & Hex). by destruct (Hall name s).
  - intros s Hfrac (q & Hq & Hlt). rewrite Hfrac in Hq. injection Hq as <-.
    revert Hlt. unfold Qclt. apply Qlt_irrefl.
  - intros s Hlen ->. unfold exceeds. rewrite Hlen. split.
    + intros -> (q & [= <-] & Hlt). revert Hlt. by vm_compute.
    + intros ->. eexists. split; [done|]. by vm_compute.
  - intros s Hlen -> Hcount. unfold exceeds. rewrite Hlen, Hcount.
    intros (q & [= <-] & Hlt). revert Hlt. by vm_compute.
  - intros name s v -> Hwf Hrows Hin Hv Hnull.
    assert (null_count s ≤ index_len df)%nat as Hle.
    { unfold frame_wf in Hwf. rewrite Forall_forall in Hwf.
      rewrite <- (Hwf _ Hin). apply length_filter. }
    assert (0 < null_count s)%nat as Hpos.
    { unfold null_count.
      assert (v ∈ filter (λ v, isnull v = true) (cells s)) as Hf.
      { apply list_elem_of_filter. split; [|done]. by destruct Hnull as [-> | ->]. }
      destruct (filter _ _); [by apply elem_of_nil in Hf|simpl; lia]. }
    unfold exceeds.
    destruct (missing_fraction_pos (null_count s) (index_len df)) as (q & Hq & Hlt);
      [lia|done|]. by exists q.
  - intros -> ->. split; vm_compute; reflexivity.
Qed.

Lemma check_missing_values_threshold_witness :
  ∃ r σ',
    check_missing_values (bound_checker four_rows) default_threshold fresh_store
    = (Returned r, σ')
    ∧ reported_index r = ["price"] ∧ passed r = false
    ∧ (∃ s, ("price", s) ∈ columns four_rows ∧ null_count s = 3
            ∧ exceeds four_rows s default_threshold)
    ∧ (∃ s, ("volume", s) ∈ columns four_rows ∧ null_count s = 2
            ∧ ¬ exceeds four_rows s default_threshold).
Proof.
  destruct (check_missing_values_threshold (bound_checker four_rows) four_rows
              default_threshold fresh_store eq_refl)
    as (r & σ' & Hrun & _ & _ & _ & _ & Hfour & _ & _ & Hframe).
  exists r, σ'. split; [exact Hrun|].
  split; [exact (proj1 (Hframe eq_refl eq_refl))|].
  split; [exact (proj2 (Hframe eq_refl eq_refl))|]. split.
  - eexists. split; [right; left|]. split; [reflexivity|].
    apply (proj2 (Hfour _ eq_refl eq_refl)). reflexivity.
  - eexists. split; [left|]. split; [reflexivity|].
    apply (proj1 (Hfour _ eq_refl eq_refl)). reflexivity.
Defined.

(** Of four rows, a column that misses two values is not reported at
    threshold 0.5 and a column that misses three is; at threshold 0 both
    are.  Of ten rows, a column that misses three values is not reported
    at threshold 0.3, and is reported at the float next below. *)
Example two_and_three_of_four :
  ∃ r σ' r0 σ0 r3 σ3 r3' σ3',
    check_missing_values (bound_checker four_rows) default_threshold fresh_store
    = (Returned r, σ')
    ∧ reported_index r = ["price"] ∧ passed r = false
    ∧ check_missing_values (bound_checker four_rows) (Q2Qc 0) fresh_store
      = (Returned r0, σ0)
    ∧ reported_index r0 = ["volume"; "price"] ∧ passed r0 = false
    ∧ check_missing_values (bound_checker ten_rows) three_tenths fresh_store
      = (Returned r3, σ3)
    ∧ reported_index r3 = [] ∧ passed r3 = true
    ∧ check_missing_values (bound_checker ten_rows) below_three_tenths
        fresh_store
      = (Returned r3', σ3')
    ∧ reported_index r3' = ["price"] ∧ passed r3' = false.
Proof.
  eexists _, _, _, _, _, _, _, _. split; [vm_compute; reflexivity|].
  split; [reflexivity|]. split; [reflexivity|].
  split; [vm_compute; reflexivity|].
  split; [reflexivity|]. split; [reflexivity|].
  split; [vm_compute; reflexivity|].
  split; [reflexivity|]. split; [reflexivity|].
  split; [vm_compute; reflexivity|]. split; reflexivity.
Qed.

(** ** Validation of a dictionary *)

Lemma isinstance_spec value expected_type :
  isinstance value expected_type = true ↔ instance_of value expected_type.
Proof.
  assert (∀ c d, issubclass c d = true ↔ c = d ∨ (c = cls_bool ∧ d = cls_int))
    as Hsub.
  { intros c d. unfold issubclass.
    rewrite orb_true_iff, andb_true_iff, !bool_decide_eq_true. done. }
  unfold instance_of. destruct expected_type as [c|cs]; simpl.
  - rewrite Hsub. split.
    + intros Hc. exists c. split; [by left|done].
    + intros (c' & ->%list_elem_of_singleton & Hc). done.
  - rewrite existsb_exists. split.
    + intros (c & Hin & Hc). apply list_elem_of_In in Hin. apply Hsub in Hc.
      by exists c.
    + intros (c & Hin & Hc).
      exists c. split; [by apply list_elem_of_In|by apply Hsub].
Qed.

(** The loop over the schema, on a dictionary: it never raises, and where
    the schema names a field once, the entry of the field is its error, or
    else what it was before. *)
Lemma field_errors_of_dict (d : gmap string Scalar) items :
  NoDup items.*1 →
  ∀ errors0 : gmap string FieldError,
  ∃ E : gmap string FieldError,
    field_errors_of (ODict d) items errors0 = Returned E
    ∧ ∀ field,
        E !! field
        = match (list_to_map items : gmap string ExpectedClass) !! field with
          | Some expected_type =>
              match field_error_spec d field expected_type with
              | Some err => Some err
              | None => errors0 !! field
              end
          | None => errors0 !! field
          end.
Proof.
  induction items as [|[field0 expected0] items IH]; intros Hnd errors0.
  - exists errors0. split; [done|]. intros field.
    by rewrite list_to_map_nil, lookup_empty.
  - simpl in Hnd. apply NoDup_cons in Hnd as [Hnotin Hnd].
    assert (∀ errors1 : gmap string FieldError,
              errors1 !! field0
              = match field_error_spec d field0 expected0 with
                | Some err => Some err
                | None => errors0 !! field0
                end →
              (∀ field, field ≠ field0 → errors1 !! field = errors0 !! field) →
              ∃ E : gmap string FieldError,
                field_errors_of (ODict d) items errors1 = Returned E
                ∧ ∀ field,
                    E !! field
                    = match (list_to_map ((field0, expected0) :: items)
                               : gmap string ExpectedClass) !! field with
                      | Some expected_type =>
                          match field_error_spec d field expected_type with
                          | Some err => Some err
                          | None => errors0 !! field
                          end
                      | None => errors0 !! field
                      end) as Hstep.
    { intros errors1 H0 Hne. destruct (IH Hnd errors1) as (E & HE & Hlook).
      exists E. split; [done|]. intros field. rewrite Hlook, list_to_map_cons.
      destruct (decide (field = field0)) as [->|Hf].
      - rewrite lookup_insert_eq.
        rewrite (not_elem_of_list_to_map_1 _ _ Hnotin). apply H0.
      - rewrite lookup_insert_ne by done. rewrite (Hne _ Hf). done. }
    cbn [field_errors_of contains outcome_bind subscript].
    unfold field_error_spec in Hstep.
    destruct (d !! field0) as [value|] eqn:Hv.
    + rewrite bool_decide_eq_true_2 by eauto. cbn [negb outcome_bind].
      destruct expected0 as [c|cs];
        destruct (isinstance value _) eqn:Hinst; cbn [negb];
        apply Hstep; intros; by simplify_map_eq.
    + rewrite bool_decide_eq_false_2 by (by intros [? ?]). cbn [negb].
      apply Hstep; intros; by simplify_map_eq.
Qed.

(** C6, as stated, fails: [True] has the runtime type [bool], which is
    not among the expected types of [humidity: int], and [validate_dict]
    enters no error for it, because [isinstance] accepts an instance of a
    subclass. *)
Lemma bool_passes_for_int :
  type_of (SBool true) = cls_bool
  ∧ (cls_bool ∉ expected_classes (Cls cls_int))
  ∧ validate_dict (ODict (<["humidity" := SBool true]> london))
      city_humidity_schema
    = Returned (true, {| errors := None; fields_validated := 2;
                         fields_passed := 2 |}).
Proof.
  split; [reflexivity|]. split.
  - intros [=]%list_elem_of_singleton.
  - vm_compute. reflexivity.
Qed.

(** C6 (amended).  [validate_dict] on a dictionary and a schema: the
    errors hold, for every field of the schema, a missing-field error when
    the record lacks the field and a type-mismatch error when the value of
    the field is not an instance of the expected type or types (its class
    is none of them, and it is not a [bool] where [int] is expected), and
    nothing else; the record is valid if and only if there is no error.
    For the schema [{city: str, humidity: int}] the record
    [{city: "London", humidity: 60}] is valid, with no errors, two fields
    validated and two fields passed; without [humidity] it is not valid and
    the errors hold a missing-field error for [humidity]; with the string
    ["60"] for [humidity] it is not valid and the errors hold a
    type-mismatch error for [humidity] alone. *)
Theorem validate_dict_fields :
  (∀ (record : gmap string Scalar) schema,
     NoDup schema.*1 →
     ∃ (E : gmap string FieldError) is_valid details,
       validate_dict (ODict record) schema = Returned (is_valid, details)
       ∧ (∀ field expected_type,
            (field, expected_type) ∈ schema → record !! field = None →
            E !! field = Some (MissingRequiredField field))
       ∧ (∀ field expected_type value,
            (field, expected_type) ∈ schema → record !! field = Some value →
            (instance_of value expected_type → E !! field = None)
            ∧ (¬ instance_of value expected_type →
               E !! field = Some (type_mismatch expected_type value)))
       ∧ (∀ field, field ∉ schema.*1 → E !! field = None)
       ∧ errors details = (if bool_decide (E = ∅) then None else Some E)
       ∧ (is_valid = true ↔ E = ∅)
       ∧ fields_validated details = length schema
       ∧ fields_passed details
         = (Z.of_nat (length schema) - Z.of_nat (size E))%Z)
  ∧ validate_dict (ODict london) city_humidity_schema
    = Returned (true, {| errors := None; fields_validated := 2;
                         fields_passed := 2 |})
  ∧ (∃ (E : gmap string FieldError) details,
       validate_dict (ODict (delete "humidity" london)) city_humidity_schema
       = Returned (false, details)
       ∧ errors details = Some E
       ∧ E !! "humidity" = Some (MissingRequiredField "humidity")
       ∧ fields_validated details = 2)
  ∧ ∃ (E : gmap string FieldError) details,
      validate_dict (ODict (<["humidity" := SStr "60"]> london))
        city_humidity_schema
      = Returned (false, details)
      ∧ errors details = Some E
      ∧ E !! "humidity" = Some (ExpectedTypeGot "int" "str")
      ∧ E !! "city" = None
      ∧ fields_validated details = 2
      ∧ fields_passed details = 1%Z.
Proof.
  split; [|split; [|split]].
  - intros record schema Hnd.
    destruct (field_errors_of_dict record schema Hnd ∅) as (E & HE & Hlook).
    assert (∀ field,
              E !! field
              = (list_to_map schema : gmap string ExpectedClass) !! field
                ≫= field_error_spec record field) as Hspec.
    { intros field. rewrite Hlook, lookup_empty.
      destruct (list_to_map schema !! field) as [expected_type|]; simpl; [|done].
      by destruct (field_error_spec record field expected_type). }
    exists E. eexists _, _. unfold validate_dict. rewrite HE.
    split; [reflexivity|]. cbn [errors fields_validated fields_passed].
    split; [|split; [|split; [|split; [done|split; [split|done]]]]].
    + intros field expected_type Hin Hnone. rewrite Hspec.
      rewrite (elem_of_list_to_map_1 _ _ _ Hnd Hin). simpl.
      unfold field_error_spec. by rewrite Hnone.
    + intros field expected_type value Hin Hsome. rewrite Hspec.
      rewrite (elem_of_list_to_map_1 _ _ _ Hnd Hin). simpl.
      unfold field_error_spec. rewrite Hsome.
      destruct (isinstance value expected_type) eqn:Hi.
      * apply isinstance_spec in Hi. by split.
      * split; [|done]. intros Hinst%isinstance_spec. congruence.
    + intros field Hnotin. rewrite Hspec.
      by rewrite (not_elem_of_list_to_map_1 _ _ Hnotin).
    + intros Hvalid. apply Nat.eqb_eq in Hvalid. by apply map_size_empty_iff.
    + intros ->. by rewrite map_size_empty.
  - vm_compute. reflexivity.
  - eexists _, _. split; [vm_compute; reflexivity|].
    split; [reflexivity|]. split; [vm_compute; reflexivity|reflexivity].
  - eexists _, _. split; [vm_compute; reflexivity|].
    split; [reflexivity|]. split; [vm_compute; reflexivity|].
    split; [vm_compute; reflexivity|]. split; reflexivity.
Qed.

(** The string ["60"] for [humidity]: a type-mismatch error for that
    field, none for [city], and the record is not valid. *)
Lemma validate_dict_fields_witness :
  NoDup city_humidity_schema.*1
  ∧ ∃ (E : gmap string FieldError) is_valid details,
      validate_dict (ODict (<["humidity" := SStr "60"]> london))
        city_humidity_schema
      = Returned (is_valid, details)
      ∧ E !! "humidity" = Some (ExpectedTypeGot "int" "str")
      ∧ E !! "city" = None
      ∧ (is_valid = true ↔ E = ∅).
Proof.
  assert (NoDup city_humidity_schema.*1) as Hnd.
  { apply (bool_decide_unpack _). vm_compute. exact I. }
  split; [exact Hnd|].
  destruct (proj1 validate_dict_fields (<["humidity" := SStr "60"]> london)
              city_humidity_schema Hnd)
    as (E & is_valid & details & Hrun & _ & Htype & _ & _ & Hvalid & _).
  exists E, is_valid, details. split; [exact Hrun|]. split; [|split].
  - refine (proj2 (Htype "humidity" (Cls cls_int) (SStr "60") _ _) _).
    + right; left.
    + vm_compute. reflexivity.
    + intros (c & Hc%list_elem_of_singleton & [Ht|[Ht _]]);
        [by subst c|discriminate Ht].
  - refine (proj1 (Htype "city" (Cls cls_str) (SStr "London") _ _) _).
    + left.
    + vm_compute. reflexivity.
    + exists cls_str. split; [left|by left].
  - exact Hvalid.
Defined.

(** ** The entry points of the validator *)

(** C4.  An entry point that is given no batch ([None], or a frame without
    rows) returns the failed result
    [{validation_passed: False, records_validated: 0}], whatever the
    quality checker would do, and stores nothing; [validate_weather_data]
    that is given no record ([None], or an empty dictionary) returns
    [(False, {'error': ...})], whatever [validate_dict] would do, and
    stores nothing. *)
Theorem empty_input_short_circuits quality_checker validate key expected_types
    self frame record :
  no_batch frame →
  no_record record →
  validate_frame_with quality_checker key expected_types self frame
  = (Returned (ErrorResult false "Empty or None DataFrame provided" 0), self)
  ∧ validate_cryptocurrencies_data self frame
    = (Returned (ErrorResult false "Empty or None DataFrame provided" 0), self)
  ∧ validate_posts_data self frame
    = (Returned (ErrorResult false "Empty or None DataFrame provided" 0), self)
  ∧ validate_weather_data_with validate self record
    = (Returned (false, WeatherError "Empty or None weather data"), self)
  ∧ validate_weather_data self record
    = (Returned (false, WeatherError "Empty or None weather data"), self).
Proof.
  intros Hframe Hrecord.
  assert (∀ quality_checker key expected_types,
            validate_frame_with quality_checker key expected_types self frame
            = (Returned (ErrorResult false "Empty or None DataFrame provided" 0),
               self)) as Hf.
  { intros qc k et. destruct Hframe as [->|(df & -> & Hrows)]; [done|].
    unfold validate_frame_with, df_empty. by rewrite Hrows. }
  assert (∀ validate,
            validate_weather_data_with validate self record
            = (Returned (false, WeatherError "Empty or None weather data"), self))
    as Hw.
  { intros v. by destruct Hrecord as [->| ->]. }
  repeat split; try apply Hf; apply Hw.
Qed.

Lemma empty_input_short_circuits_witness :
  no_batch (VFrame no_rows)
  ∧ no_record (VObj (ODict ∅))
  ∧ validate_cryptocurrencies_data new_validator (VFrame no_rows)
    = (Returned (ErrorResult false "Empty or None DataFrame provided" 0),
       new_validator)
  ∧ validate_weather_data new_validator (VObj (ODict ∅))
    = (Returned (false, WeatherError "Empty or None weather data"),
       new_validator).
Proof.
  assert (no_batch (VFrame no_rows)) as Hf
    by (right; exists no_rows; split; reflexivity).
  assert (no_record (VObj (ODict ∅))) as Hr by (right; reflexivity).
  split; [exact Hf|]. split; [exact Hr|].
  destruct (empty_input_short_circuits run_quality_checker validate_dict
              "cryptocurrencies_data" crypto_expected_types new_validator
              _ _ Hf Hr) as (_ & Hc & _ & _ & Hw).
  split; [exact Hc|exact Hw].
Defined.

(** C1, as stated, fails: the test for an empty batch or record runs
    before the guarded region, so an argument on which that test itself
    faults is not caught.  A dictionary given as the batch raises
    [AttributeError], from [validate_cryptocurrencies_data] and from
    [validate_all]; a frame given as the weather record raises
    [ValueError], and so does a numpy array of two elements, from
    [validate_weather_data] and from [validate_all]. *)
Lemma entry_points_raise :
  validate_cryptocurrencies_data new_validator (VObj (ODict london))
  = (Raised (AttributeError "'dict' object has no attribute 'empty'"),
     new_validator)
  ∧ validate_all new_validator "2026-01-04T00:00:00"
      PyNone (VObj (ODict london)) PyNone
    = (Raised (AttributeError "'dict' object has no attribute 'empty'"),
       new_validator)
  ∧ validate_weather_data new_validator (VFrame valid_posts)
    = (Raised (ValueError "The truth value of a DataFrame is ambiguous. Use a.empty, a.bool(), a.item(), a.any() or a.all()."),
       new_validator)
  ∧ validate_weather_data new_validator (VArray (SInt 1) (SInt 2) [])
    = (Raised (ValueError "The truth value of an array with more than one element is ambiguous. Use a.any() or a.all()"),
       new_validator)
  ∧ validate_all new_validator "2026-01-04T00:00:00"
      (VArray (SInt 1) (SInt 2) []) PyNone PyNone
    = (Raised (ValueError "The truth value of an array with more than one element is ambiguous. Use a.any() or a.all()"),
       new_validator).
Proof. repeat split; vm_compute; reflexivity. Qed.

Lemma validate_weather_data_returns self (o : PyObj) :
  ∃ is_valid details self',
    validate_weather_data self (VObj o) = (Returned (is_valid, details), self').
Proof.
  unfold validate_weather_data, validate_weather_data_with.
  destruct (negb (truthy o)); [by eexists _, _, _|].
  destruct (validate_dict o weather_schema) as [[is_valid details]|e];
    by eexists _, _, _.
Qed.

Lemma validate_frame_returns key expected_types self (frame : option DataFrame) :
  ∃ result self',
    validate_frame key expected_types self (frame_arg frame)
    = (Returned result, self').
Proof.
  unfold validate_frame, validate_frame_with.
  destruct frame as [df|]; simpl; [|by eexists _, _].
  destruct (df_empty df); [by eexists _, _|].
  destruct (run_quality_checker df expected_types) as [[report|e] σ];
    by eexists _, _.
Qed.

Lemma empty_test_faults_raises self value :
  empty_test_faults value = true →
  is_None value = false
  ∧ ∃ e, ∀ quality_checker key expected_types,
           validate_frame_with quality_checker key expected_types self value
           = (Raised e, self).
Proof.
  destruct value as [[[]|]|df|x y others]; try done; intros _;
    (split; [done|]); by eexists.
Qed.

Lemma empty_test_returns value :
  empty_test_faults value = false → ∃ frame, value = frame_arg frame.
Proof.
  destruct value as [[[]|]|df|x y others]; try done; intros _.
  - by exists None.
  - by exists (Some df).
Qed.

Lemma validate_source_returns {R} name
    (validate : APIValidator → PyVal → Outcome R * APIValidator)
    entry verdict source acc self :
  (∀ self, is_None source = false →
           ∃ r self', validate self source = (Returned r, self')) →
  ∃ acc' self',
    validate_source name validate entry verdict source acc self
    = (Returned acc', self').
Proof.
  intros Hv. unfold validate_source.
  destruct (is_None source) eqn:Hnone; [by eexists _, _|].
  destruct (Hv self eq_refl) as (r & self' & ->). by eexists _, _.
Qed.

(** C1 (amended).  Given as the weather record an object whose truth
    test returns ([None], a number, a string, a datetime, a list of
    integers, or a dictionary that maps strings to such objects), and as
    each batch a frame of any shape or [None], every entry point returns a
    result and raises nothing.  A failure that [validate_dict], or the
    quality checker on a frame that is not empty, raises is turned into a
    failed result that carries the description of the failure, and nothing
    is stored.  On every other argument the test for an empty record or
    batch faults, and the entry point raises: [validate_weather_data] on a
    frame or an array, the two entry points for batches on an array or on
    an object that is not [None]. *)
Theorem entry_points_return self now (weather : PyObj)
    (crypto posts : option DataFrame) :
  (∃ is_valid details self',
     validate_weather_data self (VObj weather)
     = (Returned (is_valid, details), self'))
  ∧ (∃ result self',
       validate_cryptocurrencies_data self (frame_arg crypto)
       = (Returned result, self'))
  ∧ (∃ result self',
       validate_posts_data self (frame_arg posts) = (Returned result, self'))
  ∧ (∃ all_results self',
       validate_all self now (VObj weather) (frame_arg crypto) (frame_arg posts)
       = (Returned all_results, self'))
  ∧ (∀ e, truthy weather = true →
          validate_dict weather weather_schema = Raised e →
          validate_weather_data self (VObj weather)
          = (Returned (false, WeatherError (exn_str e)), self))
  ∧ (∀ df e σ, df_empty df = false →
       (run_quality_checker df crypto_expected_types = (Raised e, σ) →
        validate_cryptocurrencies_data self (VFrame df)
        = (Returned (ErrorResult false (exn_str e) 0), self))
       ∧ (run_quality_checker df posts_expected_types = (Raised e, σ) →
          validate_posts_data self (VFrame df)
          = (Returned (ErrorResult false (exn_str e) 0), self)))
  ∧ (∀ value, truth_test_faults value = true →
       ∃ e, validate_weather_data self value = (Raised e, self))
  ∧ (∀ value, empty_test_faults value = true →
       ∃ e, validate_cryptocurrencies_data self value = (Raised e, self)
            ∧ validate_posts_data self value = (Raised e, self))
  ∧ (∀ weather_data crypto_df posts_df,
       truth_test_faults weather_data || empty_test_faults crypto_df
       || empty_test_faults posts_df = true →
       ∃ e self',
         validate_all self now weather_data crypto_df posts_df
         = (Raised e, self')).
Proof.
  split; [apply validate_weather_data_returns|].
  split; [apply validate_frame_returns|].
  split; [apply validate_frame_returns|].
  split; [|split; [|split; [|split; [|split]]]].
  - unfold validate_all.
    destruct (validate_source_returns "weather" validate_weather_data
                (λ r, WeatherValidation r.1 r.2) fst (VObj weather)
                {| timestamp := now; validations := ∅; overall_passed := true |}
                self) as (acc1 & self1 & ->).
    { intros self0 _.
      destruct (validate_weather_data_returns self0 weather)
        as (is_valid & details & self' & ->). by eexists _, _. }
    destruct (validate_source_returns "cryptocurrencies"
                validate_cryptocurrencies_data TabularValidation tabular_passed
                (frame_arg crypto) acc1 self1) as (acc2 & self2 & ->).
    { intros self0 _. apply validate_frame_returns. }
    apply validate_source_returns. intros self0 _. apply validate_frame_returns.
  - intros e Htruthy Hraised.
    unfold validate_weather_data, validate_weather_data_with.
    by rewrite Htruthy, Hraised.
  - intros df e σ Hne.
    unfold validate_cryptocurrencies_data, validate_posts_data, validate_frame,
      validate_frame_with.
    rewrite Hne. split; intros ->; done.
  - intros [o|df|x y others] Hfaults; [done| |]; by eexists.
  - intros value Hfaults.
    destruct (empty_test_faults_raises self value Hfaults) as (_ & e & He).
    exists e. split; apply He.
  - intros weather_data crypto_df posts_df Hfaults. unfold validate_all.
    destruct (truth_test_faults weather_data) eqn:Hw.
    { destruct weather_data as [o|df|x y others]; [done| |]; by eexists _, _. }
    destruct weather_data as [o|df|x y others]; [|done..].
    destruct (validate_source_returns "weather" validate_weather_data
                (λ r, WeatherValidation r.1 r.2) fst (VObj o)
                {| timestamp := now; validations := ∅; overall_passed := true |}
                self) as (acc1 & self1 & ->).
    { intros self0 _.
      destruct (validate_weather_data_returns self0 o)
        as (is_valid & details & self' & ->). by eexists _, _. }
    destruct (empty_test_faults crypto_df) eqn:Hc.
    { destruct (empty_test_faults_raises self1 crypto_df Hc)
        as (Hnone & e & He).
      unfold validate_source, validate_cryptocurrencies_data, validate_frame.
      rewrite Hnone, He. by eexists _, _. }
    destruct (empty_test_returns crypto_df Hc) as (frame & ->).
    destruct (validate_source_returns "cryptocurrencies"
                validate_cryptocurrencies_data TabularValidation tabular_passed
                (frame_arg frame) acc1 self1) as (acc2 & self2 & ->).
    { intros self0 _. apply validate_frame_returns. }
    simpl in Hfaults.
    destruct (empty_test_faults_raises self2 posts_df Hfaults)
      as (Hnone & e & He).
    unfold validate_source, validate_posts_data, validate_frame.
    rewrite Hnone, He. by eexists _, _.
Qed.

(** The guarded region does catch: a list in a cell makes the duplicate
    check raise, and an integer given as the record makes [validate_dict]
    raise; both come back as failed results. *)
Lemma entry_points_return_witness :
  df_empty list_in_cell = false
  ∧ run_quality_checker list_in_cell crypto_expected_types
    = (Raised (TypeError "unhashable type: 'list'"),
       (run_quality_checker list_in_cell crypto_expected_types).2)
  ∧ validate_cryptocurrencies_data new_validator (VFrame list_in_cell)
    = (Returned (ErrorResult false "unhashable type: 'list'" 0), new_validator)
  ∧ truthy (OScalar (SInt 7)) = true
  ∧ validate_dict (OScalar (SInt 7)) weather_schema
    = Raised (TypeError "argument of type 'int' is not iterable")
  ∧ validate_weather_data new_validator (VObj (OScalar (SInt 7)))
    = (Returned (false, WeatherError "argument of type 'int' is not iterable"),
       new_validator).
Proof.
  destruct (entry_points_return new_validator "" (OScalar (SInt 7)) None None)
    as (_ & _ & _ & _ & Hweather & Hframe & _).
  assert (df_empty list_in_cell = false) as Hne by reflexivity.
  assert (run_quality_checker list_in_cell crypto_expected_types
          = (Raised (TypeError "unhashable type: 'list'"),
             (run_quality_checker list_in_cell crypto_expected_types).2))
    as Hraise by (vm_compute; reflexivity).
  assert (validate_dict (OScalar (SInt 7)) weather_schema
          = Raised (TypeError "argument of type 'int' is not iterable"))
    as Hdict by (vm_compute; reflexivity).
  split; [exact Hne|]. split; [exact Hraise|].
  split; [exact (proj1 (Hframe _ _ _ Hne) Hraise)|].
  split; [reflexivity|]. split; [exact Hdict|].
  exact (Hweather _ eq_refl Hdict).
Defined.

(** ** The summary *)

(** C5 fails on the code: a weather validation that passed is counted as
    failed, because what [validate_weather_data] stores has no key
    [validation_passed]. *)
Lemma summary_counts_valid_weather_as_failed :
  ∃ details self,
    validate_weather_data new_validator (VObj (ODict valid_weather))
    = (Returned (true, WeatherChecked details), self)
    ∧ total_validations (get_validation_summary self) = 1
    ∧ passed_count (get_validation_summary self) = 0
    ∧ failed_count (get_validation_summary self) = 1.
Proof.
  eexists _, _. split; [vm_compute; reflexivity|].
  repeat split; vm_compute; reflexivity.
Qed.

(** The frame entry points store the verdict, and the summary counts
    it. *)
Lemma summary_counts_valid_posts_as_passed :
  ∃ result self,
    validate_posts_data new_validator (VFrame valid_posts)
    = (Returned result, self)
    ∧ tabular_passed result = true
    ∧ tabular_records result = 2
    ∧ total_validations (get_validation_summary self) = 1
    ∧ passed_count (get_validation_summary self) = 1
    ∧ failed_count (get_validation_summary self) = 0.
Proof.
  eexists _, _. split; [vm_compute; reflexivity|].
  repeat split; vm_compute; reflexivity.
Qed.

(** Whatever the record, what [validate_weather_data] stores is counted
    as failed. *)
Lemma stored_weather_counts_as_failed self weather_data is_valid details self' :
  validate_weather_data self weather_data
  = (Returned (is_valid, WeatherChecked details), self') →
  ∃ stored, results self' !! "weather_data" = Some stored
            ∧ stored_passed stored = false.
Proof.
  unfold validate_weather_data, validate_weather_data_with.
  destruct weather_data as [o|df|x y others]; [|discriminate..].
  destruct (negb (truthy o)); [discriminate|].
  destruct (validate_dict o weather_schema) as [[v d]|e]; [|discriminate].
  intros [= <- <- <-]. eexists. split; [apply lookup_insert_eq|done].
Qed.

(** The counts of the summary: every stored result is counted once, as
    passed when [result.get('validation_passed', False)] holds of it and
    as failed otherwise. *)
Lemma summary_counts self :
  passed_count (get_validation_summary self)
  = size (filter (λ kv, stored_passed kv.2 = true) (results self))
  ∧ failed_count (get_validation_summary self)
    = size (filter (λ kv, stored_passed kv.2 = false) (results self))
  ∧ total_validations (get_validation_summary self) = size (results self)
  ∧ summary_details (get_validation_summary self) = results self.
Proof.
  unfold get_validation_summary. cbn [passed_count failed_count
    total_validations summary_details].
  assert (∀ m : gmap string StoredResult,
            let counts :=
              map_fold (λ (_ : string) result (acc : nat * nat),
                          if stored_passed result then (S acc.1, acc.2)
                          else (acc.1, S acc.2)) (0, 0) m in
            counts.1 = size (filter (λ kv, stored_passed kv.2 = true) m)
            ∧ counts.2 = size (filter (λ kv, stored_passed kv.2 = false) m))
    as H.
  { intros m. apply (map_fold_weak_ind (λ (acc : nat * nat) m,
      acc.1 = size (filter (λ kv, stored_passed kv.2 = true) m)
      ∧ acc.2 = size (filter (λ kv, stored_passed kv.2 = false) m))).
    - by rewrite !map_filter_empty, map_size_empty.
    - intros key result m' [p f] Hnone [Hp Hf]. simpl in Hp, Hf.
      destruct (stored_passed result) eqn:Hs; simpl.
      + rewrite map_filter_insert_True by done.
        rewrite map_filter_insert_False by (simpl; congruence).
        rewrite map_size_insert_None
          by (apply map_lookup_filter_None; by left).
        rewrite delete_id by done. by rewrite Hp, Hf.
      + rewrite map_filter_insert_False by (simpl; congruence).
        rewrite map_filter_insert_True by done.
        rewrite map_size_insert_None
          by (apply map_lookup_filter_None; by left).
        rewrite delete_id by done. by rewrite Hp, Hf. }
  destruct (H (results self)) as [Hp Hf]. done.
Qed.

(** * Further properties of the checker *)

(** ** Duplicated rows *)

Lemma count_repeated_distinct {A} `{EqDecision A} (seen rows : list A) :
  NoDup seen →
  (count_repeated seen rows + length (remove_dups (seen ++ rows)%list)
   = length seen + length rows)%nat.
Proof.
  revert seen. induction rows as [|r rows IH]; intros seen Hnd.
  - simpl. rewrite app_nil_r.
    rewrite (Permutation_length (NoDup_Permutation _ _ (NoDup_remove_dups seen)
               Hnd (λ x, elem_of_remove_dups seen x))). lia.
  - assert (∀ l k : list A, (∀ x, x ∈ l ↔ x ∈ k) →
              length (remove_dups l) = length (remove_dups k)) as Hsame.
    { intros l k Hlk. apply Permutation_length, NoDup_Permutation;
        try apply NoDup_remove_dups.
      intros x. by rewrite !elem_of_remove_dups. }
    cbn [count_repeated]. case_bool_decide as Hin.
    + rewrite (Hsame (seen ++ r :: rows)%list (seen ++ rows)%list).
      * specialize (IH seen Hnd). simpl. lia.
      * intros x. rewrite !elem_of_app, elem_of_cons.
        split; [intros [?|[->|?]]|intros [?|?]]; tauto.
    + rewrite (Hsame (seen ++ r :: rows)%list ((r :: seen) ++ rows)%list).
      * assert (NoDup (r :: seen)) as Hnd' by (by apply NoDup_cons).
        specialize (IH (r :: seen) Hnd'). simpl in *. lia.
      * intros x. simpl. rewrite !elem_of_cons, !elem_of_app, elem_of_cons.
        tauto.
Qed.

Lemma count_repeated_zero {A} `{EqDecision A} (seen rows : list A) :
  count_repeated seen rows = 0%nat
  ↔ NoDup rows ∧ ∀ r, r ∈ rows → r ∉ seen.
Proof.
  revert seen. induction rows as [|r rows IH]; intros seen.
  - simpl. split; [|done]. intros _. split; [constructor|].
    intros r Hr. by apply elem_of_nil in Hr.
  - cbn [count_repeated]. case_bool_decide as Hin.
    + split; [done|]. intros [_ Hseen]. destruct (Hseen r); [left|done].
    + rewrite IH, NoDup_cons. split.
      * intros [Hnd Hseen]. split.
        -- split; [|done]. intros Hr. apply (Hseen r Hr). left.
        -- intros x [->|Hx]%elem_of_cons; [done|].
           intros Hxs. apply (Hseen x Hx). by right.
      * intros [[Hr Hnd] Hseen]. split; [done|].
        intros x Hx [->|Hxs]%elem_of_cons; [done|].
        apply (Hseen x); [by right|done].
Qed.

Lemma hash_key_hashable v :
  hashable v = true → hash_key v = Returned (key_of v).
Proof. by destruct v. Qed.

Lemma hash_keys_returned df :
  frame_hashable df →
  outcome_mapM (λ c : string * Series, outcome_mapM hash_key (cells c.2))
    (columns df)
  = Returned (map (λ c : string * Series, map key_of (cells c.2)) (columns df)).
Proof.
  unfold frame_hashable.
  assert (∀ l, Forall (λ v, hashable v = true) l →
               outcome_mapM hash_key l = Returned (map key_of l)) as Hcol.
  { induction l as [|v l IH]; intros Hl; [done|].
    apply Forall_cons in Hl as [Hv Hl]. simpl.
    by rewrite (hash_key_hashable v Hv), (IH Hl). }
  induction (columns df) as [|c cs IH]; intros Hcs; [done|].
  apply Forall_cons in Hcs as [Hc Hcs]. simpl.
  by rewrite (Hcol _ Hc), (IH Hcs).
Qed.

Lemma duplicated_sum_rows df :
  df_empty df = false →
  frame_hashable df →
  duplicated_sum df = Returned (count_repeated [] (frame_rows df)).
Proof.
  intros Hne Hh. unfold duplicated_sum. rewrite Hne, (hash_keys_returned df Hh).
  simpl. do 2 f_equal. unfold frame_rows. apply map_ext. intros i.
  rewrite map_map. apply map_ext. intros c. apply list_lookup_fmap.
Qed.

Lemma check_duplicates_bound self df σ :
  data self = Some df →
  df_empty df = false →
  frame_hashable df →
  check_duplicates self σ
  = report_check self
      {| passed := Nat.eqb (count_repeated [] (frame_rows df)) 0;
         extra := DuplicateRows (count_repeated [] (frame_rows df));
         message := DuplicateRowsMessage (count_repeated [] (frame_rows df)) |} σ.
Proof.
  intros Hd Hne Hh. unfold check_duplicates, bind, lift.
  by rewrite Hd, (duplicated_sum_rows df Hne Hh).
Qed.

(** X1.  On a frame that is not empty and whose cells can be hashed,
    [check_duplicates] returns the number of rows that repeat an earlier
    row: that number and the number of distinct rows add up to the number
    of rows.  The check passes exactly when no two rows are equal, and on
    a frame whose rows are all equal every row but the first is counted. *)
Theorem check_duplicates_counts self df σ :
  data self = Some df →
  df_empty df = false →
  frame_hashable df →
  ∃ d σ',
    check_duplicates self σ
    = (Returned {| passed := Nat.eqb d 0;
                   message := DuplicateRowsMessage d;
                   extra := DuplicateRows d |}, σ')
    ∧ (d + length (remove_dups (frame_rows df)) = index_len df)%nat
    ∧ (d = 0%nat ↔ NoDup (frame_rows df))
    ∧ ((∀ r r', r ∈ frame_rows df → r' ∈ frame_rows df → r = r') →
       d = (index_len df - 1)%nat).
Proof.
  intros Hd Hne Hh. unfold check_duplicates. rewrite Hd.
  unfold bind, lift. rewrite (duplicated_sum_rows df Hne Hh).
  eexists _, _. split; [apply (report_check_logs self _ σ)|].
  assert (length (frame_rows df) = index_len df) as Hlen
    by (unfold frame_rows; by rewrite length_map, length_seq).
  pose proof (count_repeated_distinct [] (frame_rows df) (NoDup_nil_2))
    as Hcount. simpl in Hcount.
  split; [lia|]. split.
  - rewrite count_repeated_zero. split; [by intros [? _]|].
    intros Hnd. split; [done|]. intros r _ Hr. by apply elem_of_nil in Hr.
  - intros Hall.
    assert (length (remove_dups (frame_rows df)) = 1%nat) as Hone; [|lia].
    destruct (frame_rows df) as [|r0 rows] eqn:Hrows.
    { unfold df_empty in Hne. apply orb_false_iff in Hne as [Hn _].
      apply Nat.eqb_neq in Hn. simpl in Hlen. lia. }
    apply (Permutation_length (l' := [r0])).
    apply NoDup_Permutation; [apply NoDup_remove_dups|apply NoDup_singleton|].
    intros x. rewrite elem_of_remove_dups, list_elem_of_singleton. split.
    + intros Hx. apply Hall; [done|left].
    + intros ->. left.
Qed.

Lemma check_duplicates_counts_witness :
  ∃ σ',
    check_duplicates (bound_checker three_equal_rows) fresh_store
    = (Returned {| passed := false;
                   message := DuplicateRowsMessage 2;
                   extra := DuplicateRows 2 |}, σ').
Proof.
  destruct (check_duplicates_counts (bound_checker three_equal_rows)
              three_equal_rows fresh_store eq_refl eq_refl)
    as (d & σ' & Hrun & _ & _ & Hall).
  { repeat constructor. }
  assert (d = 2%nat) as ->.
  { apply Hall. intros r r' Hr Hr'. vm_compute in Hr, Hr'.
    repeat (apply elem_of_cons in Hr as [->|Hr]);
      repeat (apply elem_of_cons in Hr' as [->|Hr']);
      try reflexivity; by apply elem_of_nil in Hr || by apply elem_of_nil in Hr'. }
  exists σ'. exact Hrun.
Defined.

Lemma hash_keys_raised df :
  has_list_cell df →
  outcome_mapM (λ c : string * Series, outcome_mapM hash_key (cells c.2))
    (columns df)
  = Raised (TypeError "unhashable type: 'list'").
Proof.
  unfold has_list_cell.
  assert (∀ l, outcome_mapM hash_key l = Raised (TypeError "unhashable type: 'list'")
               ∨ ∃ ks, outcome_mapM hash_key l = Returned ks) as Hany.
  { induction l as [|v l [IH|[ks IH]]]; simpl; [right; by eexists| |].
    - destruct (hash_key v) eqn:Hv; simpl; [rewrite IH; by left|].
      destruct v; try discriminate. injection Hv as <-. by left.
    - destruct (hash_key v) eqn:Hv; simpl; [rewrite IH; right; by eexists|].
      destruct v; try discriminate. injection Hv as <-. by left. }
  assert (∀ l, Exists (λ v, hashable v = false) l →
               outcome_mapM hash_key l
               = Raised (TypeError "unhashable type: 'list'")) as Hcol.
  { induction l as [|v l IH]; intros Hl; [by apply Exists_nil in Hl|].
    apply Exists_cons in Hl as [Hv|Hl].
    - by destruct v.
    - simpl. rewrite (IH Hl). by destruct (hash_key v) as [k|e] eqn:Hv;
        [|destruct v; try discriminate; injection Hv as <-]. }
  induction (columns df) as [|c cs IH]; intros Hcs;
    [by apply Exists_nil in Hcs|].
  simpl. apply Exists_cons in Hcs as [Hc|Hcs].
  - by rewrite (Hcol _ Hc).
  - rewrite (IH Hcs). destruct (Hany (cells c.2)) as [->|[ks ->]]; done.
Qed.

(** The checks that do not raise: on a checker bound to a frame,
    [check_empty_dataset] and [check_missing_values] return in every
    store. *)
Lemma check_empty_dataset_returns self df σ :
  data self = Some df →
  ∃ r σ', check_empty_dataset self σ = (Returned r, σ').
Proof.
  intros Hd. unfold check_empty_dataset. rewrite Hd.
  eexists _, _. apply (report_check_logs self _ σ).
Qed.

Lemma check_missing_values_returns self df t σ :
  data self = Some df →
  ∃ r σ', check_missing_values self t σ = (Returned r, σ').
Proof.
  intros Hd. unfold check_missing_values. rewrite Hd.
  eexists _, _. apply (report_check_logs self _ σ).
Qed.

(** X2.  A list in a cell of a frame that is not empty makes
    [check_duplicates] raise [TypeError], without a change of the issue
    list; [run_all_checks] then raises it too, and the frame entry points
    of the validator turn it into a failed result with that description
    and no record validated. *)
Theorem list_cell_fails_validation self validator df σ :
  data self = Some df →
  df_empty df = false →
  has_list_cell df →
  check_duplicates self σ = (Raised (TypeError "unhashable type: 'list'"), σ)
  ∧ (∀ expected_types t,
       ∃ σ', run_all_checks self expected_types t σ
             = (Raised (TypeError "unhashable type: 'list'"), σ'))
  ∧ validate_cryptocurrencies_data validator (VFrame df)
    = (Returned (ErrorResult false "unhashable type: 'list'" 0), validator)
  ∧ validate_posts_data validator (VFrame df)
    = (Returned (ErrorResult false "unhashable type: 'list'" 0), validator).
Proof.
  intros Hd Hne Hlist.
  assert (∀ (self : DataQualityChecker) σ, data self = Some df →
            check_duplicates self σ
            = (Raised (TypeError "unhashable type: 'list'"), σ)) as Hdup.
  { intros self0 σ0 Hd0. unfold check_duplicates, bind, lift, duplicated_sum.
    by rewrite Hd0, Hne, (hash_keys_raised df Hlist). }
  assert (∀ (self : DataQualityChecker) expected_types t σ,
            data self = Some df →
            ∃ σ', run_all_checks self expected_types t σ
                  = (Raised (TypeError "unhashable type: 'list'"), σ')) as Hrun.
  { intros self0 et t σ0 Hd0. unfold run_all_checks.
    destruct (check_empty_dataset_returns self0 df σ0 Hd0) as (r1 & σ1 & H1).
    destruct (check_missing_values_returns self0 df t σ1 Hd0) as (r2 & σ2 & H2).
    unfold bind at 1. rewrite H1. unfold bind at 1. rewrite H2.
    unfold bind at 1. rewrite (Hdup self0 σ2 Hd0). by eexists. }
  split; [by apply Hdup|]. split; [intros et t; by apply Hrun|].
  unfold validate_cryptocurrencies_data, validate_posts_data, validate_frame,
    validate_frame_with, run_quality_checker. rewrite Hne. simpl.
  split.
  - destruct (Hrun {| data := Some df; issues := fresh (dom (∅ : Store)) |}
                (Some crypto_expected_types) default_threshold
                (<[fresh (dom (∅ : Store)) := []]> ∅) eq_refl) as [σ' ->]. done.
  - destruct (Hrun {| data := Some df; issues := fresh (dom (∅ : Store)) |}
                (Some posts_expected_types) default_threshold
                (<[fresh (dom (∅ : Store)) := []]> ∅) eq_refl) as [σ' ->]. done.
Qed.

Lemma list_cell_fails_validation_witness :
  has_list_cell list_in_second_row
  ∧ validate_posts_data new_validator (VFrame list_in_second_row)
    = (Returned (ErrorResult false "unhashable type: 'list'" 0), new_validator).
Proof.
  assert (has_list_cell list_in_second_row) as Hlist.
  { right. left. right. left. reflexivity. }
  split; [exact Hlist|].
  exact (proj2 (proj2 (proj2
    (list_cell_fails_validation (bound_checker list_in_second_row)
       new_validator list_in_second_row fresh_store eq_refl eq_refl Hlist)))).
Defined.

(** ** Data types *)

Lemma getitem_nil df col : getitem df col = [] ↔ col ∉ (columns df).*1.
Proof.
  unfold getitem. split.
  - intros Hnil%fmap_nil_inv Hin.
    apply list_elem_of_fmap in Hin as ([c s] & Hc & Hin). simpl in Hc. subst c.
    assert ((col, s) ∈ filter (λ c0 : string * Series, c0.1 = col) (columns df))
      as Habs by (by apply list_elem_of_filter).
    rewrite Hnil in Habs. by apply elem_of_nil in Habs.
  - intros Hnotin. destruct (filter _ _) as [|[c s] l] eqn:Hf; [done|].
    assert ((c, s) ∈ filter (λ c0 : string * Series, c0.1 = col) (columns df))
      as Hin by (rewrite Hf; left).
    apply list_elem_of_filter in Hin as [Hc Hin]. simpl in Hc. subst c.
    destruct Hnotin. apply list_elem_of_fmap. by exists (col, s).
Qed.

(** One turn of the loop of [check_data_types], for a column whose label
    the frame holds at most once. *)
Lemma type_mismatches_of_step df col expected_type items
    (mismatches : gmap string TypeIssue) :
  (length (getitem df col) ≤ 1)%nat →
  type_mismatches_of df ((col, expected_type) :: items) mismatches
  = type_mismatches_of df items
      (match type_issue_spec df col expected_type with
       | Some issue => <[col := issue]> mismatches
       | None => mismatches
       end).
Proof.
  intros Hlen. cbn [type_mismatches_of]. unfold type_issue_spec, column_dtype.
  destruct (getitem df col) as [|s [|s' l]] eqn:Hg.
  - rewrite bool_decide_eq_false_2 by (by apply getitem_nil). done.
  - rewrite bool_decide_eq_true_2.
    + simpl. unfold accepts, dtype_mismatch.
      destruct expected_type as [t|ts]; by case_bool_decide.
    + destruct (decide (col ∈ (columns df).*1)) as [|Hn]; [done|].
      apply getitem_nil in Hn. congruence.
  - simpl in Hlen. lia.
Qed.

Lemma type_mismatches_of_spec df items :
  NoDup items.*1 →
  (∀ col, col ∈ items.*1 → (length (getitem df col) ≤ 1)%nat) →
  ∀ mismatches0 : gmap string TypeIssue,
  ∃ M : gmap string TypeIssue,
    type_mismatches_of df items mismatches0 = Returned M
    ∧ ∀ col,
        M !! col
        = match (list_to_map items : gmap string ExpectedDtype) !! col with
          | Some expected_type =>
              match type_issue_spec df col expected_type with
              | Some issue => Some issue
              | None => mismatches0 !! col
              end
          | None => mismatches0 !! col
          end.
Proof.
  induction items as [|[col0 expected0] items IH]; intros Hnd Hlen mismatches0.
  - exists mismatches0. split; [done|]. intros col.
    by rewrite list_to_map_nil, lookup_empty.
  - simpl in Hnd. apply NoDup_cons in Hnd as [Hnotin Hnd].
    rewrite type_mismatches_of_step by (apply Hlen; left).
    destruct (IH Hnd (λ col Hcol, Hlen col (list_elem_of_further _ _ _ Hcol))
                (match type_issue_spec df col0 expected0 with
                 | Some issue => <[col0 := issue]> mismatches0
                 | None => mismatches0
                 end)) as (M & HM & Hlook).
    exists M. split; [done|]. intros col. rewrite Hlook, list_to_map_cons.
    destruct (decide (col = col0)) as [->|Hne].
    + rewrite lookup_insert_eq, (not_elem_of_list_to_map_1 _ _ Hnotin).
      destruct (type_issue_spec df col0 expected0); by simplify_map_eq.
    + rewrite lookup_insert_ne by done.
      destruct (type_issue_spec df col0 expected0); by simplify_map_eq.
Qed.

(** X3.  On a frame that holds every expected label at most once,
    [check_data_types] returns, and its mismatches are, for every expected
    column: "not found" when the frame lacks the column, a mismatch when
    the dtype of the column is not the expected one or one of the expected
    ones, and nothing otherwise.  Columns that are not expected play no
    part.  The check passes exactly when every expected column is in the
    frame with an accepted dtype. *)
Theorem check_data_types_mismatches self df expected_types σ :
  data self = Some df →
  NoDup expected_types.*1 →
  (∀ col, col ∈ expected_types.*1 → (length (getitem df col) ≤ 1)%nat) →
  ∃ r σ',
    check_data_types self expected_types σ = (Returned r, σ')
    ∧ message r = TypeMismatchesMessage (size (reported_mismatches r))
    ∧ extra r = TypeMismatches (reported_mismatches r)
    ∧ (∀ col,
         reported_mismatches r !! col
         = (list_to_map expected_types : gmap string ExpectedDtype) !! col
           ≫= type_issue_spec df col)
    ∧ (passed r = true
       ↔ ∀ col expected_type,
           (col, expected_type) ∈ expected_types →
           ∃ s, getitem df col = [s] ∧ accepts expected_type (dtype s) = true).
Proof.
  intros Hd Hnd Hlen. unfold check_data_types. rewrite Hd.
  destruct (type_mismatches_of_spec df expected_types Hnd Hlen ∅)
    as (M & HM & Hlook).
  unfold bind, lift. rewrite HM.
  eexists _, _. split; [apply (report_check_logs self _ σ)|].
  cbn [passed message extra reported_mismatches].
  assert (∀ col,
            M !! col
            = (list_to_map expected_types : gmap string ExpectedDtype) !! col
              ≫= type_issue_spec df col) as Hspec.
  { intros col. rewrite Hlook, lookup_empty.
    destruct (list_to_map expected_types !! col) as [e|]; simpl; [|done].
    by destruct (type_issue_spec df col e). }
  split; [done|]. split; [done|]. split; [exact Hspec|].
  rewrite Nat.eqb_eq, map_size_empty_iff. split.
  - intros -> col e Hin. pose proof (Hspec col) as Hcol.
    rewrite lookup_empty, (elem_of_list_to_map_1 _ _ _ Hnd Hin) in Hcol.
    simpl in Hcol. unfold type_issue_spec in Hcol.
    assert (length (getitem df col) ≤ 1)%nat as Hl.
    { apply Hlen. apply list_elem_of_fmap. by exists (col, e). }
    destruct (getitem df col) as [|s [|s' l]]; [done| |simpl in Hl; lia].
    exists s. split; [done|]. by destruct (accepts e (dtype s)).
  - intros Hall. apply map_eq. intros col. rewrite Hspec, lookup_empty.
    destruct (list_to_map expected_types !! col) as [e|] eqn:He; [|done].
    apply elem_of_list_to_map_2 in He. destruct (Hall col e He) as (s & Hs & Ha).
    simpl. unfold type_issue_spec. by rewrite Hs, Ha.
Qed.

Lemma check_data_types_mismatches_witness :
  ∃ r σ',
    check_data_types (bound_checker wrong_price_type) crypto_expected_types
      fresh_store
    = (Returned r, σ')
    ∧ reported_mismatches r !! "current_price"
      = Some (ExpectedOneOf ["float64"; "int64"] "object")
    ∧ reported_mismatches r !! "market_cap" = None.
Proof.
  destruct (check_data_types_mismatches (bound_checker wrong_price_type)
              wrong_price_type crypto_expected_types fresh_store eq_refl)
    as (r & σ' & Hrun & _ & _ & Hspec & _).
  { apply (bool_decide_unpack _). vm_compute. exact I. }
  { intros col Hcol. vm_compute in Hcol.
    repeat (apply elem_of_cons in Hcol as [->|Hcol]; [vm_compute; lia|]).
    by apply elem_of_nil in Hcol. }
  exists r, σ'. split; [exact Hrun|].
  split; rewrite Hspec; vm_compute; reflexivity.
Defined.

Lemma type_mismatches_of_raised df items :
  (∃ col, col ∈ items.*1 ∧ (2 ≤ length (getitem df col))%nat) →
  ∀ mismatches : gmap string TypeIssue,
    type_mismatches_of df items mismatches
    = Raised (AttributeError "'DataFrame' object has no attribute 'dtype'").
Proof.
  induction items as [|[col0 expected0] items IH]; intros (col & Hin & Hlen) M.
  - by apply elem_of_nil in Hin.
  - assert ((2 ≤ length (getitem df col0))%nat
            ∨ ∃ col, col ∈ items.*1 ∧ (2 ≤ length (getitem df col))%nat)
      as [Hhere|Hlater].
    { simpl in Hin. apply elem_of_cons in Hin as [->|Hin]; [by left|].
      right. by exists col. }
    + cbn [type_mismatches_of]. rewrite bool_decide_eq_true_2.
      * unfold column_dtype.
        destruct (getitem df col0) as [|s [|s' l]]; simpl in Hhere; [lia|lia|done].
      * destruct (decide (col0 ∈ (columns df).*1)) as [|Hn]; [done|].
        apply getitem_nil in Hn. rewrite Hn in Hhere. simpl in Hhere. lia.
    + cbn [type_mismatches_of]. case_bool_decide; [|by apply IH].
      unfold column_dtype.
      destruct (getitem df col0) as [|s [|s' l]]; simpl; try done.
      destruct expected0 as [t|ts]; case_bool_decide; by apply IH.
Qed.

(** X4.  When an expected label occurs more than once in the frame,
    [check_data_types] raises [AttributeError] and leaves the issue list
    as it was; on a frame that is not empty and whose cells can be hashed,
    the frame entry points of the validator turn that into a failed
    result with this description and no record validated. *)
Theorem repeated_label_fails_validation self validator df expected_types key σ :
  data self = Some df →
  (∃ col, col ∈ expected_types.*1 ∧ (2 ≤ length (getitem df col))%nat) →
  check_data_types self expected_types σ
  = (Raised (AttributeError "'DataFrame' object has no attribute 'dtype'"), σ)
  ∧ (df_empty df = false → frame_hashable df →
     validate_frame key expected_types validator (VFrame df)
     = (Returned
          (ErrorResult false "'DataFrame' object has no attribute 'dtype'" 0),
        validator)).
Proof.
  intros Hd Hdup.
  assert (∀ (self : DataQualityChecker) σ, data self = Some df →
            check_data_types self expected_types σ
            = (Raised (AttributeError
                         "'DataFrame' object has no attribute 'dtype'"), σ))
    as Htypes.
  { intros self0 σ0 Hd0. unfold check_data_types, bind, lift.
    by rewrite Hd0, (type_mismatches_of_raised df expected_types Hdup ∅). }
  split; [by apply Htypes|]. intros Hne Hh.
  unfold validate_frame, validate_frame_with, run_quality_checker.
  rewrite Hne. cbn [new_checker].
  set (checker := {| data := Some df; issues := fresh (dom (∅ : Store)) |}).
  set (σ0 := (<[fresh (dom (∅ : Store)) := []]> ∅ : Store)).
  destruct (check_empty_dataset_returns checker df σ0 eq_refl)
    as (r1 & σ1 & H1).
  destruct (check_missing_values_returns checker df default_threshold σ1 eq_refl)
    as (r2 & σ2 & H2).
  pose proof (check_duplicates_bound checker df σ2 eq_refl Hne Hh) as H3.
  rewrite (report_check_logs checker _ σ2) in H3.
  assert (supplied (Some expected_types) = true) as Hs.
  { destruct Hdup as (col & Hin & _). destruct expected_types; [|done].
    by apply elem_of_nil in Hin. }
  unfold run_all_checks. rewrite Hs.
  unfold bind at 1. rewrite H1. unfold bind at 1. rewrite H2.
  unfold bind at 1. rewrite H3. unfold bind at 1. unfold bind at 1.
  change (default [] (Some expected_types)) with expected_types.
  by rewrite (Htypes checker _ eq_refl).
Qed.

Lemma repeated_label_fails_validation_witness :
  validate_cryptocurrencies_data new_validator (VFrame symbol_twice)
  = (Returned
       (ErrorResult false "'DataFrame' object has no attribute 'dtype'" 0),
     new_validator).
Proof.
  refine (proj2 (repeated_label_fails_validation (bound_checker symbol_twice)
                   new_validator symbol_twice crypto_expected_types
                   "cryptocurrencies_data" fresh_store eq_refl _) eq_refl _).
  - exists "symbol". split; [left|vm_compute; lia].
  - repeat constructor.
Defined.

(** ** Missing values *)

Lemma check_missing_values_bound self df t :
  data self = Some df →
  check_missing_values self t = report_check self (missing_values_result df t).
Proof. intros Hd. unfold check_missing_values. by rewrite Hd. Qed.

Lemma problematic_columns_elem df t name :
  name ∈ (problematic_columns df t).*1
  ↔ ∃ s, (name, s) ∈ columns df ∧ exceeds df s t.
Proof. apply problematic_columns_spec. Qed.

Lemma missing_values_passed df t :
  passed (missing_values_result df t) = true
  ↔ ∀ name s, (name, s) ∈ columns df → ¬ exceeds df s t.
Proof.
  cbn [passed missing_values_result].
  rewrite Nat.eqb_eq, length_zero_iff_nil. split.
  - intros Hnil name s Hin Hex.
    assert (name ∈ (problematic_columns df t).*1) as Habs
      by (apply problematic_columns_elem; eauto).
    rewrite Hnil in Habs. by apply elem_of_nil in Habs.
  - intros Hall. destruct (problematic_columns df t) as [|[name f] l] eqn:Hp;
      [done|].
    assert (name ∈ (problematic_columns df t).*1) as Hin
      by (rewrite Hp; left).
    apply problematic_columns_elem in Hin as (s & Hin & Hex).
    by destruct (Hall name s).
Qed.

Lemma exceeds_mono df s (t t' : Qc) :
  (t ≤ t')%Qc → exceeds df s t' → exceeds df s t.
Proof.
  intros Hle (q & Hq & Hlt). exists q. split; [done|].
  by eapply Qcle_lt_trans.
Qed.

(** X5.  Raising the threshold never adds a reported column and never
    turns a pass into a failure: every column that [check_missing_values]
    reports at a threshold is reported at every smaller threshold, and a
    frame that passes at a threshold passes at every greater one. *)
Theorem check_missing_values_monotone self df (t t' : Qc) σ :
  data self = Some df →
  (t ≤ t')%Qc →
  ∃ r r' σ1 σ2,
    check_missing_values self t σ = (Returned r, σ1)
    ∧ check_missing_values self t' σ = (Returned r', σ2)
    ∧ (∀ name, name ∈ reported_index r' → name ∈ reported_index r)
    ∧ (passed r = true → passed r' = true).
Proof.
  intros Hd Hle. rewrite !(check_missing_values_bound self df) by done.
  eexists _, _, _, _.
  split; [apply (report_check_logs self _ σ)|].
  split; [apply (report_check_logs self _ σ)|].
  split.
  - intros name. cbn [reported_index message missing_values_result].
    rewrite !problematic_columns_elem. intros (s & Hin & Hex).
    exists s. split; [done|]. by eapply exceeds_mono.
  - rewrite !missing_values_passed. intros Hall name s Hin Hex.
    apply (Hall name s Hin). by eapply exceeds_mono.
Qed.

Lemma check_missing_values_monotone_witness :
  ∃ r r' σ1 σ2,
    check_missing_values (bound_checker four_rows) (Q2Qc (1 # 2)) fresh_store
    = (Returned r, σ1)
    ∧ check_missing_values (bound_checker four_rows) (Q2Qc (3 # 4)) fresh_store
      = (Returned r', σ2)
    ∧ (passed r = true → passed r' = true).
Proof.
  destruct (check_missing_values_monotone (bound_checker four_rows) four_rows
              (Q2Qc (1 # 2)) (Q2Qc (3 # 4)) fresh_store eq_refl)
    as (r & r' & σ1 & σ2 & H1 & H2 & _ & Hp).
  { unfold Qcle. vm_compute. discriminate. }
  exists r, r', σ1, σ2. split; [exact H1|]. split; [exact H2|exact Hp].
Defined.

Lemma null_count_le df name s :
  frame_wf df → (name, s) ∈ columns df → (null_count s ≤ index_len df)%nat.
Proof.
  intros Hwf Hin. unfold frame_wf in Hwf. rewrite Forall_forall in Hwf.
  rewrite <- (Hwf _ Hin). apply length_filter.
Qed.

(** X6.  The extremes of the threshold.  On a frame as pandas builds it, a
    threshold of 1 or more is never exceeded, so [check_missing_values]
    passes whatever the frame misses; and below 0 every column of a frame
    that has rows is reported, so the check fails as soon as the frame has
    a column. *)
Theorem check_missing_values_extremes self df (t : Qc) σ :
  data self = Some df →
  frame_wf df →
  ∃ r σ',
    check_missing_values self t σ = (Returned r, σ')
    ∧ ((Q2Qc 1 ≤ t)%Qc → passed r = true ∧ reported_index r = [])
    ∧ ((t < Q2Qc 0)%Qc → index_len df ≠ 0%nat →
       reported_index r = (columns df).*1
       ∧ (passed r = true ↔ columns df = [])).
Proof.
  intros Hd Hwf. rewrite (check_missing_values_bound self df) by done.
  eexists _, _. split; [apply (report_check_logs self _ σ)|].
  cbn [reported_index message missing_values_result]. split.
  - intros Hge.
    assert (∀ name s, (name, s) ∈ columns df → ¬ exceeds df s t) as Hnone.
    { intros name s Hin (q & Hq & Hlt).
      pose proof (null_count_le df name s Hwf Hin) as Hle.
      apply (Qclt_not_le _ _ Hlt). eapply Qcle_trans; [|exact Hge].
      by eapply missing_fraction_le_1. }
    split; [by apply missing_values_passed|].
    destruct (problematic_columns df t) as [|[name f] l] eqn:Hp; [done|].
    assert (name ∈ (problematic_columns df t).*1) as Hin by (rewrite Hp; left).
    apply problematic_columns_elem in Hin as (s & Hin & Hex).
    by destruct (Hnone name s).
  - intros Hneg Hrows.
    assert (problematic_columns df t
            = map (λ c : string * Series,
                     (c.1, missing_fraction (null_count c.2) (index_len df)))
                  (columns df)) as Hall.
    { unfold problematic_columns.
      induction (columns df) as [|c cs IH]; [done|]. simpl.
      rewrite filter_cons_True, IH; [done|]. simpl.
      destruct (missing_fraction (null_count c.2) (index_len df)) as [q|] eqn:Hq.
      - simpl. apply bool_decide_eq_true. eapply Qclt_le_trans; [exact Hneg|].
        by eapply missing_fraction_nonneg.
      - unfold missing_fraction in Hq. by destruct (index_len df). }
    split.
    + rewrite Hall. clear. induction (columns df) as [|c cs IH]; [done|].
      simpl. by f_equal.
    + cbn [passed missing_values_result]. rewrite Hall, length_map, Nat.eqb_eq.
      apply length_zero_iff_nil.
Qed.

Lemma check_missing_values_extremes_witness :
  ∃ r σ',
    check_missing_values (bound_checker four_rows) (Q2Qc 1) fresh_store
    = (Returned r, σ')
    ∧ passed r = true ∧ reported_index r = [].
Proof.
  destruct (check_missing_values_extremes (bound_checker four_rows) four_rows
              (Q2Qc 1) fresh_store eq_refl) as (r & σ' & Hrun & Hge & _).
  { repeat constructor. }
  exists r, σ'. split; [exact Hrun|]. apply Hge.
  unfold Qcle. vm_compute. discriminate.
Defined.

Lemma to_dict_lookup {A} (l : list (string * A)) name (v : A) :
  NoDup l.*1 → to_dict l !! name = Some v ↔ (name, v) ∈ l.
Proof.
  unfold to_dict.
  assert (∀ m : gmap string A,
            NoDup l.*1 → (∀ k, k ∈ l.*1 → m !! k = None) →
            foldl (λ m kv, <[kv.1 := kv.2]> m) m l !! name = Some v
            ↔ m !! name = Some v ∨ (name, v) ∈ l) as H.
  { induction l as [|[k0 v0] l IH]; intros m Hnd Hfresh.
    - simpl. rewrite elem_of_nil. tauto.
    - simpl in Hnd. apply NoDup_cons in Hnd as [Hk0 Hnd]. simpl.
      rewrite IH; [|done|].
      + rewrite elem_of_cons. destruct (decide (name = k0)) as [->|Hne].
        * rewrite lookup_insert_eq, (Hfresh k0) by (simpl; left). split.
          -- intros [[= ->]|Hin]; [by right; left|by right; right].
          -- intros [?|[[= ->]|Hin]]; [done|by left|].
             destruct Hk0. apply list_elem_of_fmap. by exists (k0, v).
        * rewrite lookup_insert_ne by done. split.
          -- intros [?|?]; [by left|by right; right].
          -- intros [?|[[= ? ?]|?]]; [by left|done|by right].
      + intros k Hk. rewrite lookup_insert_ne.
        * apply Hfresh. simpl. by right.
        * intros <-. done. }
  intros Hnd. rewrite (H ∅ Hnd) by (intros; apply lookup_empty).
  rewrite lookup_empty. split; [by intros [?|?]|by right].
Qed.

Lemma problematic_columns_NoDup df t :
  NoDup (columns df).*1 → NoDup (problematic_columns df t).*1.
Proof.
  intros Hnd. refine (sublist_NoDup _ _ Hnd _). clear Hnd.
  unfold problematic_columns.
  induction (columns df) as [|c cs IH]; [done|]. simpl.
  destruct (decide (float_gt
              (missing_fraction (null_count c.2) (index_len df)) t = true)).
  - rewrite filter_cons_True by done. simpl. by apply sublist_skip.
  - rewrite filter_cons_False by done. by apply sublist_cons.
Qed.

(** X7.  On a frame whose labels are distinct, the [columns_with_issues]
    of [check_missing_values] maps exactly the reported columns, each to
    its missing fraction, the float64 quotient of the number of its
    missing cells by the number of rows, which is a number greater than
    the threshold. *)
Theorem check_missing_values_fractions self df (t : Qc) σ :
  data self = Some df →
  NoDup (columns df).*1 →
  ∃ r σ',
    check_missing_values self t σ = (Returned r, σ')
    ∧ (∀ name f,
         reported_columns r !! name = Some f
         ↔ ∃ s, (name, s) ∈ columns df
                ∧ f = missing_fraction (null_count s) (index_len df)
                ∧ exceeds df s t)
    ∧ (∀ name f, reported_columns r !! name = Some f →
                 ∃ q, f = Some q ∧ (t < q)%Qc)
    ∧ dom (reported_columns r) = list_to_set (reported_index r).
Proof.
  intros Hd Hnd. rewrite (check_missing_values_bound self df) by done.
  eexists _, _. split; [apply (report_check_logs self _ σ)|].
  cbn [reported_columns reported_index extra message missing_values_result].
  assert (∀ name f,
            to_dict (problematic_columns df t) !! name = Some f
            ↔ ∃ s, (name, s) ∈ columns df
                   ∧ f = missing_fraction (null_count s) (index_len df)
                   ∧ exceeds df s t) as Hspec.
  { intros name f.
    rewrite (to_dict_lookup _ _ _ (problematic_columns_NoDup df t Hnd)).
    unfold problematic_columns. rewrite list_elem_of_filter, list_elem_of_fmap.
    simpl. split.
    - intros (Hgt & [name' s] & [= -> ->] & Hin). exists s.
      split; [done|]. split; [done|]. by apply float_gt_exceeds.
    - intros (s & Hin & -> & Hex). split; [by apply float_gt_exceeds|].
      by exists (name, s). }
  split; [exact Hspec|]. split.
  - intros name f (s & _ & -> & q & Hq & Hlt)%Hspec. by exists q.
  - apply set_eq. intros name.
    rewrite elem_of_dom, elem_of_list_to_set. apply to_dict_is_Some.
Qed.

Lemma check_missing_values_fractions_witness :
  ∃ r σ',
    check_missing_values (bound_checker four_rows) default_threshold fresh_store
    = (Returned r, σ')
    ∧ reported_columns r !! "price" = Some (missing_fraction 3 4).
Proof.
  destruct (check_missing_values_fractions (bound_checker four_rows) four_rows
              default_threshold fresh_store eq_refl)
    as (r & σ' & Hrun & Hspec & _ & _).
  { apply (bool_decide_unpack _). vm_compute. exact I. }
  exists r, σ'. split; [exact Hrun|].
  apply Hspec. eexists. split; [right; left|]. split; [reflexivity|].
  eexists. split; [reflexivity|]. unfold Qclt. vm_compute. reflexivity.
Defined.

(** ** Runs on no rows and on no frame *)

Lemma problematic_columns_no_rows df t :
  index_len df = 0%nat → problematic_columns df t = [].
Proof.
  intros Hrows. unfold problematic_columns. rewrite Hrows.
  induction (columns df) as [|c cs IH]; [done|]. simpl.
  by rewrite filter_cons_False.
Qed.

(** X8.  On a frame without rows [run_all_checks] fails: the
    empty-dataset check fails with row count 0 and logs "Dataset is
    empty"; the missing-value check (every fraction is [0 / 0]) and the
    duplicate check pass.  Without expected types the run returns and
    logs that one message; with expected types it fails whenever it
    returns. *)
Theorem run_all_checks_no_rows self df expected_types (t : Qc) σ :
  data self = Some df →
  index_len df = 0%nat →
  (∃ report,
     run_all_checks self None t σ
     = (Returned report,
        <[issues self := (σ !!! issues self ++ [DatasetIsEmpty])%list]> σ)
     ∧ validation_passed report = false
     ∧ detailed_results report !! "empty_dataset"
       = Some {| passed := false; message := DatasetIsEmpty;
                 extra := RowCount 0 |}
     ∧ detailed_results report !! "missing_values"
       = Some {| passed := true;
                 message := MissingValuesMessage (float_mul t (Q2Qc 100)) [];
                 extra := ColumnsWithIssues ∅ |}
     ∧ detailed_results report !! "duplicates"
       = Some {| passed := true; message := DuplicateRowsMessage 0;
                 extra := DuplicateRows 0 |})
  ∧ (∀ report σ',
       run_all_checks self expected_types t σ = (Returned report, σ') →
       validation_passed report = false).
Proof.
  intros Hd Hrows.
  assert (∀ σ, check_empty_dataset self σ
               = (Returned {| passed := false; message := DatasetIsEmpty;
                              extra := RowCount 0 |},
                  <[issues self := (σ !!! issues self ++ [DatasetIsEmpty])%list]> σ))
    as Hempty.
  { intros σ0. unfold check_empty_dataset. by rewrite Hd, Hrows. }
  assert (∀ σ, check_missing_values self t σ
               = (Returned {| passed := true;
                              message := MissingValuesMessage (float_mul t (Q2Qc 100)) [];
                              extra := ColumnsWithIssues ∅ |}, σ)) as Hmissing.
  { intros σ0. rewrite (check_missing_values_bound self df) by done.
    unfold missing_values_result.
    by rewrite (problematic_columns_no_rows df t Hrows). }
  assert (∀ σ, check_duplicates self σ
               = (Returned {| passed := true; message := DuplicateRowsMessage 0;
                              extra := DuplicateRows 0 |}, σ)) as Hdup.
  { intros σ0. unfold check_duplicates, bind, lift, duplicated_sum, df_empty.
    by rewrite Hd, Hrows. }
  split.
  - eexists. unfold run_all_checks. cbn [supplied].
    unfold bind at 1. rewrite Hempty. unfold bind at 1. rewrite Hmissing.
    unfold bind at 1. rewrite Hdup. unfold bind at 1. unfold ret.
    split; [reflexivity|]. cbn [validation_passed detailed_results].
    split; [|by simplify_map_eq].
    change (all_passed (assemble
              {| passed := false; message := DatasetIsEmpty; extra := RowCount 0 |}
              {| passed := true;
                 message := MissingValuesMessage (float_mul t (Q2Qc 100)) [];
                 extra := ColumnsWithIssues ∅ |}
              {| passed := true; message := DuplicateRowsMessage 0;
                 extra := DuplicateRows 0 |} None) = false).
    by rewrite all_passed_assemble.
  - intros report σ' Hrun.
    destruct (run_all_checks_inv _ _ _ _ _ _ Hrun)
      as (r1 & r2 & r3 & r4 & H1 & _ & _ & _ & -> & _).
    pose proof (H1 σ) as E. rewrite Hempty in E. injection E as <- _.
    cbn [validation_passed]. by rewrite all_passed_assemble.
Qed.

Lemma run_all_checks_no_rows_witness :
  ∃ report,
    run_all_checks (bound_checker no_rows) None default_threshold fresh_store
    = (Returned report,
       <[issues (bound_checker no_rows) :=
           (fresh_store !!! issues (bound_checker no_rows)
            ++ [DatasetIsEmpty])%list]> fresh_store)
    ∧ validation_passed report = false.
Proof.
  destruct (proj1 (run_all_checks_no_rows (bound_checker no_rows) no_rows None
                     default_threshold fresh_store eq_refl eq_refl))
    as (report & Hrun & Hfailed & _).
  exists report. split; [exact Hrun|exact Hfailed].
Defined.

(** X9.  On a checker that is bound to no frame, [run_all_checks] returns
    a failed report in which every check that ran has failed with "No data
    provided", and it leaves the store as it was: nothing is logged. *)
Theorem run_all_checks_unbound self expected_types (t : Qc) σ :
  data self = None →
  run_all_checks self expected_types t σ
  = (Returned (unbound_report self expected_types), σ)
  ∧ ∀ name r,
      detailed_results (unbound_report self expected_types) !! name = Some r →
      passed r = false ∧ message r = NoDataProvided.
Proof.
  intros Hd. split.
  - unfold run_all_checks, check_empty_dataset, check_missing_values,
      check_duplicates, check_data_types, unbound_report. rewrite Hd.
    destruct (supplied expected_types); unfold bind, ret.
    + change (<["data_types":=no_data NoExtra]> _)
        with (assemble (no_data (RowCount 0)) (no_data NoExtra)
                (no_data NoExtra) (Some (no_data NoExtra))).
      by rewrite all_passed_assemble.
    + change (<["duplicates":=no_data NoExtra]> _)
        with (assemble (no_data (RowCount 0)) (no_data NoExtra)
                (no_data NoExtra) None).
      by rewrite all_passed_assemble.
  - intros name r. unfold unbound_report, assemble. cbn [detailed_results].
    destruct (supplied expected_types);
      repeat (rewrite lookup_insert_Some; intros [[_ <-]|[_ Hr]]; [done|];
              revert Hr); by rewrite lookup_empty.
Qed.

Lemma run_all_checks_unbound_witness :
  run_all_checks unbound_checker None default_threshold fresh_store
  = (Returned (unbound_report unbound_checker None), fresh_store).
Proof.
  exact (proj1 (run_all_checks_unbound unbound_checker None default_threshold
                  fresh_store eq_refl)).
Defined.

(** * Further properties of the validator *)

(** ** Records *)

Lemma field_errors_of_other_field (d d' : gmap string Scalar) items
    (errors0 : gmap string FieldError) :
  (∀ field, field ∈ items.*1 → d' !! field = d !! field) →
  field_errors_of (ODict d') items errors0
  = field_errors_of (ODict d) items errors0.
Proof.
  revert errors0. induction items as [|[field0 expected0] items IH];
    intros errors0 Hsame; [done|].
  assert (d' !! field0 = d !! field0) as H0 by (apply Hsame; left).
  assert (∀ errors1,
            field_errors_of (ODict d') items errors1
            = field_errors_of (ODict d) items errors1) as Hrest.
  { intros errors1. apply IH. intros field Hin. apply Hsame. by right. }
  cbn [field_errors_of contains subscript outcome_bind]. rewrite H0.
  destruct (d !! field0) as [value|]; simpl.
  - destruct expected0; destruct (negb _); apply Hrest.
  - apply Hrest.
Qed.

(** X10.  [validate_dict] looks only at the fields that the schema names:
    adding, replacing or removing a field of the record that the schema
    does not name changes nothing of what it returns.  For
    [validate_weather_data] the same holds of a record that is not
    empty. *)
Theorem validate_dict_ignores_other_fields (d : gmap string Scalar) schema
    field value self :
  field ∉ schema.*1 →
  validate_dict (ODict (<[field := value]> d)) schema
  = validate_dict (ODict d) schema
  ∧ validate_dict (ODict (delete field d)) schema
    = validate_dict (ODict d) schema
  ∧ (field ∉ weather_schema.*1 → d ≠ ∅ →
     validate_weather_data self (VObj (ODict (<[field := value]> d)))
     = validate_weather_data self (VObj (ODict d))).
Proof.
  intros Hnotin.
  assert (∀ schema, field ∉ schema.*1 →
            validate_dict (ODict (<[field := value]> d)) schema
            = validate_dict (ODict d) schema) as Hins.
  { intros schema0 Hn. unfold validate_dict.
    rewrite (field_errors_of_other_field d (<[field := value]> d)); [done|].
    intros f Hf. apply lookup_insert_ne. by intros <-. }
  split; [by apply Hins|]. split.
  - unfold validate_dict.
    rewrite (field_errors_of_other_field d (delete field d)); [done|].
    intros f Hf. apply lookup_delete_ne. by intros <-.
  - intros Hw Hne. unfold validate_weather_data, validate_weather_data_with.
    rewrite (Hins weather_schema Hw). cbn [truthy].
    rewrite !bool_decide_eq_false_2; [done|done|].
    apply insert_non_empty.
Qed.

Lemma validate_dict_ignores_other_fields_witness :
  validate_weather_data new_validator (VObj (ODict fetched_weather))
  = validate_weather_data new_validator
      (VObj (ODict (<["wind_speed" := SFloat (Q2Qc (41 # 10))]> valid_weather))).
Proof.
  refine (proj2 (proj2 (validate_dict_ignores_other_fields
            (<["wind_speed" := SFloat (Q2Qc (41 # 10))]> valid_weather)
            weather_schema "description" (SStr "light rain") new_validator _))
            _ _).
  - apply (bool_decide_unpack _). vm_compute. exact I.
  - apply (bool_decide_unpack _). vm_compute. exact I.
  - apply insert_non_empty.
Defined.

Lemma weather_schema_NoDup : NoDup weather_schema.*1.
Proof. apply (bool_decide_unpack _). vm_compute. exact I. Qed.

(** X11.  [validate_weather_data] on a dictionary accepts it exactly when
    the dictionary has every field of the weather schema ([city],
    [temperature], [humidity], [pressure], [timestamp], [source]) with a
    value that is an instance of the class or classes expected of it; it
    then reports no errors and six fields passed out of six. *)
Theorem validate_weather_data_accepts self (d : gmap string Scalar) :
  ∃ is_valid details self',
    validate_weather_data self (VObj (ODict d))
    = (Returned (is_valid, details), self')
    ∧ (is_valid = true
       ↔ ∀ field expected_type,
           (field, expected_type) ∈ weather_schema →
           ∃ value, d !! field = Some value
                    ∧ isinstance value expected_type = true)
    ∧ (is_valid = true →
       details = WeatherChecked {| errors := None; fields_validated := 6;
                                   fields_passed := 6 |}).
Proof.
  unfold validate_weather_data, validate_weather_data_with. cbn [truthy].
  case_bool_decide as Hempty; cbn [negb].
  - eexists _, _, _. split; [done|]. split; [|done]. split; [done|].
    intros Hall. destruct (Hall "city" (Cls cls_str)) as (v & Hv & _); [left|].
    subst d. by rewrite lookup_empty in Hv.
  - destruct (field_errors_of_dict d weather_schema weather_schema_NoDup ∅)
      as (E & HE & Hlook).
    unfold validate_dict. rewrite HE. cbn [outcome_bind].
    eexists _, _, _. split; [done|].
    assert (E = ∅
            ↔ ∀ field expected_type,
                (field, expected_type) ∈ weather_schema →
                ∃ value, d !! field = Some value
                         ∧ isinstance value expected_type = true) as Hiff.
    { split.
      - intros -> field e Hin. pose proof (Hlook field) as Hf.
        rewrite !lookup_empty,
          (elem_of_list_to_map_1 _ _ _ weather_schema_NoDup Hin) in Hf.
        unfold field_error_spec in Hf.
        destruct (d !! field) as [v|]; [|done]. exists v. split; [done|].
        by destruct (isinstance v e).
      - intros Hall. apply map_eq. intros field. rewrite Hlook, !lookup_empty.
        destruct (list_to_map weather_schema !! field) as [e|] eqn:He; [|done].
        apply elem_of_list_to_map_2 in He.
        destruct (Hall field e He) as (v & Hv & Hi).
        unfold field_error_spec. by rewrite Hv, Hi. }
    split.
    + rewrite <- Hiff, Nat.eqb_eq. apply map_size_empty_iff.
    + intros Hvalid%Nat.eqb_eq%map_size_empty_iff. subst E.
      rewrite bool_decide_eq_true_2 by done. by rewrite map_size_empty.
Qed.

(** ** What the entry points store *)

Lemma validate_weather_data_stores self weather_data is_valid details self' :
  validate_weather_data self weather_data
  = (Returned (is_valid, details), self') →
  match details with
  | WeatherChecked d =>
      results self' = <["weather_data" := StoredDetails d]> (results self)
  | WeatherError _ => self' = self ∧ is_valid = false
  end.
Proof.
  unfold validate_weather_data, validate_weather_data_with.
  destruct weather_data as [o|df|x y others]; [|discriminate..].
  destruct (negb (truthy o)); [by intros [= <- <- <-]|].
  destruct (validate_dict o weather_schema) as [[v d]|e];
    by intros [= <- <- <-].
Qed.

Lemma validate_frame_stores key expected_types self frame result self' :
  validate_frame key expected_types self frame = (Returned result, self') →
  match result with
  | CheckedResult _ _ _ _ =>
      results self' = <[key := StoredResultDict result]> (results self)
  | ErrorResult validation_passed _ records_validated =>
      self' = self ∧ validation_passed = false ∧ records_validated = 0%nat
  end.
Proof.
  unfold validate_frame, validate_frame_with.
  destruct frame as [[[]|]|df|x y others]; try discriminate.
  - by intros [= <- <-].
  - destruct (df_empty df); [by intros [= <- <-]|].
    destruct (run_quality_checker df expected_types) as [[report|e] σ];
      by intros [= <- <-].
Qed.

(** X12.  What an entry point returns is what it stores.  A frame entry
    point that returns the result of a run of the checker has stored that
    result under its own key ([cryptocurrencies_data], [posts_data]),
    replacing what was there and leaving the other keys alone, and the
    summary then reads its verdict from it; one that returns the result of
    a failure (no batch, or a caught exception) has stored nothing.
    [validate_weather_data] stores the details of a record it has
    checked, valid or not, under [weather_data]. *)
Theorem entry_points_store_what_they_return self frame weather_data :
  (∀ result self',
     validate_cryptocurrencies_data self frame = (Returned result, self') →
     match result with
     | CheckedResult _ _ _ _ =>
         results self' !! "cryptocurrencies_data" = Some (StoredResultDict result)
         ∧ stored_passed (StoredResultDict result) = tabular_passed result
         ∧ ∀ key, key ≠ "cryptocurrencies_data" →
                  results self' !! key = results self !! key
     | ErrorResult _ _ _ => self' = self
     end)
  ∧ (∀ result self',
       validate_posts_data self frame = (Returned result, self') →
       match result with
       | CheckedResult _ _ _ _ =>
           results self' !! "posts_data" = Some (StoredResultDict result)
           ∧ stored_passed (StoredResultDict result) = tabular_passed result
           ∧ ∀ key, key ≠ "posts_data" →
                    results self' !! key = results self !! key
       | ErrorResult _ _ _ => self' = self
       end)
  ∧ (∀ is_valid details self',
       validate_weather_data self weather_data
       = (Returned (is_valid, details), self') →
       match details with
       | WeatherChecked d =>
           results self' !! "weather_data" = Some (StoredDetails d)
           ∧ ∀ key, key ≠ "weather_data" →
                    results self' !! key = results self !! key
       | WeatherError _ => self' = self
       end).
Proof.
  split; [|split].
  - intros result self' Hrun. apply validate_frame_stores in Hrun.
    destruct result; [by destruct Hrun|]. rewrite Hrun.
    split; [apply lookup_insert_eq|]. split; [done|].
    intros key Hne. by apply lookup_insert_ne.
  - intros result self' Hrun. apply validate_frame_stores in Hrun.
    destruct result; [by destruct Hrun|]. rewrite Hrun.
    split; [apply lookup_insert_eq|]. split; [done|].
    intros key Hne. by apply lookup_insert_ne.
  - intros is_valid details self' Hrun.
    apply validate_weather_data_stores in Hrun.
    destruct details; [by destruct Hrun|]. rewrite Hrun.
    split; [apply lookup_insert_eq|]. intros key Hne. by apply lookup_insert_ne.
Qed.

Lemma entry_points_store_what_they_return_witness :
  ∃ result self',
    validate_posts_data new_validator (VFrame valid_posts)
    = (Returned result, self')
    ∧ results self' !! "posts_data" = Some (StoredResultDict result).
Proof.
  eexists _, _. split; [vm_compute; reflexivity|].
  match goal with
  | |- results ?s !! _ = Some (StoredResultDict ?r) =>
      assert (validate_posts_data new_validator (VFrame valid_posts)
              = (Returned r, s)) as Hrun by (vm_compute; reflexivity);
      exact (proj1 (proj1 (proj2 (entry_points_store_what_they_return
               new_validator (VFrame valid_posts) PyNone)) r s Hrun))
  end.
Defined.

(** ** The summary *)

(** X13.  [get_validation_summary] counts every stored result once: the
    passed and the failed add up to [total_validations], which is the
    number of keys of [self.results]; the passed are the stored results
    whose [validation_passed] is true; [details] is [self.results]
    itself.  After [clear_results] all three counts are 0. *)
Theorem summary_partitions self :
  (passed_count (get_validation_summary self)
   + failed_count (get_validation_summary self)
   = total_validations (get_validation_summary self))%nat
  ∧ total_validations (get_validation_summary self) = size (results self)
  ∧ passed_count (get_validation_summary self)
    = size (filter (λ kv, stored_passed kv.2 = true) (results self))
  ∧ summary_details (get_validation_summary self) = results self
  ∧ get_validation_summary (clear_results self)
    = {| total_validations := 0; passed_count := 0; failed_count := 0;
         summary_details := ∅ |}.
Proof.
  destruct (summary_counts self) as (Hp & _ & Ht & Hd).
  split; [|split; [done|split; [done|split; [done|]]]].
  - rewrite Ht. unfold get_validation_summary.
    cbn [passed_count failed_count].
    apply (map_fold_weak_ind (λ (acc : nat * nat) (m : gmap string StoredResult),
             (acc.1 + acc.2 = size m)%nat)).
    + by rewrite map_size_empty.
    + intros key result m [p f] Hnone Hsum. simpl in Hsum.
      rewrite map_size_insert_None by done.
      destruct (stored_passed result); simpl; lia.
  - unfold get_validation_summary, clear_results. cbn [results].
    by rewrite map_fold_empty, map_size_empty.
Qed.

(** ** All sources at once *)

Lemma validate_source_spec {R} name
    (validate : APIValidator → PyVal → Outcome R * APIValidator)
    entry verdict source acc self r self' :
  is_None source = false →
  validate self source = (Returned r, self') →
  validate_source name validate entry verdict source acc self
  = (Returned {| timestamp := timestamp acc;
                 validations := <[name := entry r]> (validations acc);
                 overall_passed := overall_passed acc && verdict r |}, self').
Proof. intros Hn Hv. unfold validate_source. by rewrite Hn, Hv. Qed.

Lemma validate_source_None {R} name
    (validate : APIValidator → PyVal → Outcome R * APIValidator)
    entry verdict source acc self :
  is_None source = true →
  validate_source name validate entry verdict source acc self
  = (Returned acc, self).
Proof. intros Hn. unfold validate_source. by rewrite Hn. Qed.

Lemma validate_weather_data_None self :
  validate_weather_data self PyNone
  = (Returned (false, WeatherError "Empty or None weather data"), self).
Proof. done. Qed.

Lemma validate_weather_data_None_state self r self' :
  validate_weather_data self PyNone = (Returned r, self') → self' = self.
Proof. rewrite validate_weather_data_None. by intros [= _ <-]. Qed.

Lemma validate_frame_None key expected_types self :
  validate_frame key expected_types self PyNone
  = (Returned (ErrorResult false "Empty or None DataFrame provided" 0), self).
Proof. done. Qed.

Lemma validate_frame_None_state key expected_types self r self' :
  validate_frame key expected_types self PyNone = (Returned r, self') →
  self' = self.
Proof. rewrite validate_frame_None. by intros [= _ <-]. Qed.

(** X14.  [validate_all], given as the weather record an object whose
    truth test returns ([None], a number, a string, a datetime, a list of
    integers, or a dictionary that maps strings to such objects) and as
    each batch a frame or [None], returns; it calls
    the entry points of the sources that are not [None], in the order
    weather, cryptocurrencies, posts, each on the validator that the
    previous one left; [validations] has an entry exactly for those
    sources, holding what the entry point returned; and [overall_passed]
    is true exactly when every entry passed.  So it is true when no source
    is given, and false as soon as one batch is a frame without rows. *)
Theorem validate_all_conjunction self now (weather : PyObj)
    (crypto posts : option DataFrame) :
  let w := validate_weather_data self (VObj weather) in
  let c := validate_cryptocurrencies_data w.2 (frame_arg crypto) in
  let p := validate_posts_data c.2 (frame_arg posts) in
  ∃ all_results,
    validate_all self now (VObj weather) (frame_arg crypto) (frame_arg posts)
    = (Returned all_results, p.2)
    ∧ timestamp all_results = now
    ∧ validations all_results !! "weather"
      = (if is_None (VObj weather) then None
         else (λ r, WeatherValidation r.1 r.2) <$> returned w.1)
    ∧ validations all_results !! "cryptocurrencies"
      = (if is_None (frame_arg crypto) then None
         else TabularValidation <$> returned c.1)
    ∧ validations all_results !! "posts"
      = (if is_None (frame_arg posts) then None
         else TabularValidation <$> returned p.1)
    ∧ (∀ name, is_Some (validations all_results !! name) →
               name = "weather" ∨ name = "cryptocurrencies" ∨ name = "posts")
    ∧ (overall_passed all_results = true
       ↔ ∀ name v, validations all_results !! name = Some v →
                   validation_verdict v = true)
    ∧ (is_None (VObj weather) = true → crypto = None → posts = None →
       overall_passed all_results = true ∧ validations all_results = ∅
       ∧ p.2 = self)
    ∧ (∀ df, index_len df = 0%nat → crypto = Some df ∨ posts = Some df →
             overall_passed all_results = false).
Proof.
  intros w c p.
  destruct (validate_weather_data_returns self weather)
    as (wv & wd & self1 & Hw).
  destruct (validate_frame_returns "cryptocurrencies_data" crypto_expected_types
              self1 crypto) as (cr & self2 & Hc).
  destruct (validate_frame_returns "posts_data" posts_expected_types
              self2 posts) as (pr & self3 & Hp).
  assert (w = (Returned (wv, wd), self1)) as Ew by exact Hw.
  assert (c = (Returned cr, self2)) as Ec
    by (unfold c; rewrite Ew; exact Hc).
  assert (p = (Returned pr, self3)) as Ep
    by (unfold p; rewrite Ec; exact Hp).
  rewrite Ew, Ec, Ep. cbn [fst snd returned fmap option_fmap option_map].
  set (acc0 := {| timestamp := now; validations := ∅; overall_passed := true |}).
  (* the state and the accumulator after each source *)
  assert (∃ acc1,
            validate_source "weather" validate_weather_data
              (λ r, WeatherValidation r.1 r.2) fst (VObj weather) acc0 self
            = (Returned acc1, self1)
            ∧ acc1 = (if is_None (VObj weather) then acc0
                      else {| timestamp := now;
                              validations := <["weather" := WeatherValidation wv wd]> ∅;
                              overall_passed := true && wv |})) as (acc1 & H1 & E1).
  { destruct (is_None (VObj weather)) eqn:Hn.
    - exists acc0. split; [|done]. rewrite validate_source_None by done.
      destruct weather as [[]|]; try discriminate.
      by rewrite (validate_weather_data_None_state _ _ _ Hw).
    - eexists. split; [|done].
      by rewrite (validate_source_spec _ _ _ _ _ _ _ (wv, wd) self1 Hn Hw). }
  assert (∃ acc2,
            validate_source "cryptocurrencies" validate_cryptocurrencies_data
              TabularValidation tabular_passed (frame_arg crypto) acc1 self1
            = (Returned acc2, self2)
            ∧ acc2 = (if is_None (frame_arg crypto) then acc1
                      else {| timestamp := timestamp acc1;
                              validations := <["cryptocurrencies" := TabularValidation cr]>
                                               (validations acc1);
                              overall_passed := overall_passed acc1
                                                && tabular_passed cr |}))
    as (acc2 & H2 & E2).
  { destruct (is_None (frame_arg crypto)) eqn:Hn.
    - exists acc1. split; [|done]. rewrite validate_source_None by done.
      destruct crypto; [discriminate|].
      by rewrite (validate_frame_None_state _ _ _ _ _ Hc).
    - eexists. split; [|done].
      by rewrite (validate_source_spec _ _ _ _ _ _ _ cr self2 Hn Hc). }
  assert (∃ acc3,
            validate_source "posts" validate_posts_data
              TabularValidation tabular_passed (frame_arg posts) acc2 self2
            = (Returned acc3, self3)
            ∧ acc3 = (if is_None (frame_arg posts) then acc2
                      else {| timestamp := timestamp acc2;
                              validations := <["posts" := TabularValidation pr]>
                                               (validations acc2);
                              overall_passed := overall_passed acc2
                                                && tabular_passed pr |}))
    as (acc3 & H3 & E3).
  { destruct (is_None (frame_arg posts)) eqn:Hn.
    - exists acc2. split; [|done]. rewrite validate_source_None by done.
      destruct posts; [discriminate|].
      by rewrite (validate_frame_None_state _ _ _ _ _ Hp).
    - eexists. split; [|done].
      by rewrite (validate_source_spec _ _ _ _ _ _ _ pr self3 Hn Hp). }
  exists acc3. unfold validate_all. fold acc0. rewrite H1, H2. split; [exact H3|].
  (* an empty frame fails *)
  assert (∀ df (frame : option DataFrame) key et s r s',
            index_len df = 0%nat → frame = Some df →
            validate_frame key et s (frame_arg frame) = (Returned r, s') →
            tabular_passed r = false) as Hempty.
  { intros df frame key et s r s' Hrows -> Hrun. simpl in Hrun.
    unfold validate_frame, validate_frame_with, df_empty in Hrun.
    rewrite Hrows in Hrun. simpl in Hrun. by injection Hrun as <- _. }
  clear H1 H2 H3 Ew Ec Ep. subst acc3 acc2 acc1 acc0.
  destruct (is_None (VObj weather)) eqn:Hnw,
    (is_None (frame_arg crypto)) eqn:Hnc, (is_None (frame_arg posts)) eqn:Hnp;
    cbn [timestamp validations overall_passed];
    (split; [done|]); (split; [by simplify_map_eq|]);
    (split; [by simplify_map_eq|]); (split; [by simplify_map_eq|]);
    (split; [intros name [v Hv];
             repeat (apply lookup_insert_Some in Hv as [[<- _]|[_ Hv]];
                     [tauto|]); by rewrite lookup_empty in Hv|]);
    (split; [split;
       [intros Hall name v Hv;
        repeat (apply lookup_insert_Some in Hv as [[_ <-]|[_ Hv]];
                [simpl; revert Hall; rewrite ?andb_true_iff; tauto|]);
        by rewrite lookup_empty in Hv
       |intros Hall; rewrite ?andb_true_iff; repeat split;
        try reflexivity;
        first [ apply (Hall "weather" (WeatherValidation wv wd));
                by simplify_map_eq
              | apply (Hall "cryptocurrencies" (TabularValidation cr));
                by simplify_map_eq
              | apply (Hall "posts" (TabularValidation pr));
                by simplify_map_eq ]]|]);
    (split;
       [intros Hw0 Hcn Hpn; try discriminate; subst crypto posts;
        try discriminate; repeat split; try done;
        rewrite (validate_frame_None_state _ _ _ _ _ Hp),
          (validate_frame_None_state _ _ _ _ _ Hc);
        destruct weather as [[]|]; try discriminate;
        by apply validate_weather_data_None_state in Hw
       |intros df Hrows [Hdf|Hdf]; subst; try discriminate;
        rewrite ?(Hempty _ _ _ _ _ _ _ Hrows eq_refl Hc),
          ?(Hempty _ _ _ _ _ _ _ Hrows eq_refl Hp), ?andb_false_r; done]).
Qed.

(** ** The state of the validator *)

#[local] Set Warnings "-clear-no-such-hyp".

Lemma validate_weather_data_dom self weather_data :
  dom (results (validate_weather_data self weather_data).2)
  ⊆ dom (results self) ∪ {["weather_data"]}.
Proof.
  unfold validate_weather_data, validate_weather_data_with.
  destruct weather_data as [o|df|x y others]; [|set_solver..].
  destruct (negb (truthy o)); [set_solver|].
  destruct (validate_dict o weather_schema) as [[v d]|e]; [|set_solver].
  cbn [snd results]. rewrite dom_insert. set_solver.
Qed.

Lemma validate_frame_dom key expected_types self frame :
  dom (results (validate_frame key expected_types self frame).2)
  ⊆ dom (results self) ∪ {[key]}.
Proof.
  unfold validate_frame, validate_frame_with.
  destruct frame as [[[]|]|df|x y others]; try set_solver.
  destruct (df_empty df); [set_solver|].
  destruct (run_quality_checker df expected_types) as [[report|e] σ];
    [|set_solver].
  cbn [snd results]. rewrite dom_insert. set_solver.
Qed.

Lemma validate_source_dom {R} name
    (validate : APIValidator → PyVal → Outcome R * APIValidator)
    entry verdict source acc self (keys : gset string) :
  (∀ self, dom (results (validate self source).2) ⊆ dom (results self) ∪ keys) →
  dom (results (validate_source name validate entry verdict source acc self).2)
  ⊆ dom (results self) ∪ keys.
Proof.
  intros Hv. unfold validate_source. destruct (is_None source); [set_solver|].
  specialize (Hv self). by destruct (validate self source) as [[r|e] self'].
Qed.

Lemma after_call_dom self call :
  dom (results (after_call self call)) ⊆ dom (results self) ∪ result_keys.
Proof.
  unfold result_keys. destruct call as [w|c|p|now w c p|]; cbn [after_call].
  - pose proof (validate_weather_data_dom self w). set_solver.
  - pose proof (validate_frame_dom "cryptocurrencies_data"
                  crypto_expected_types self c) as Hsub.
    unfold validate_cryptocurrencies_data. set_solver.
  - pose proof (validate_frame_dom "posts_data" posts_expected_types self p)
      as Hsub.
    unfold validate_posts_data. set_solver.
  - unfold validate_all.
    pose proof (validate_source_dom "weather" validate_weather_data
                  (λ r, WeatherValidation r.1 r.2) fst w
                  {| timestamp := now; validations := ∅; overall_passed := true |}
                  self {["weather_data"]}
                  (λ s, validate_weather_data_dom s w)) as Hsub1.
    destruct (validate_source "weather" _ _ _ _ _ _) as [[acc1|e] self1];
      [|cbn [snd] in *; set_solver].
    pose proof (validate_source_dom "cryptocurrencies"
                  validate_cryptocurrencies_data TabularValidation tabular_passed
                  c acc1 self1 {["cryptocurrencies_data"]}
                  (λ s, validate_frame_dom _ _ s c)) as Hsub2.
    destruct (validate_source "cryptocurrencies" _ _ _ _ _ _)
      as [[acc2|e] self2]; [|cbn [snd] in *; set_solver].
    pose proof (validate_source_dom "posts" validate_posts_data
                  TabularValidation tabular_passed p acc2 self2 {["posts_data"]}
                  (λ s, validate_frame_dom _ _ s p)) as Hsub3.
    cbn [snd] in *. set_solver.
  - unfold clear_results. cbn [results]. set_solver.
Qed.

(** X15.  Whatever methods are called on a new validator, in whatever
    order and with whatever arguments, and whether they return or raise,
    [self.results] never has a key other than [weather_data],
    [cryptocurrencies_data] and [posts_data]; so the summary never counts
    more than three validations. *)
Theorem results_keys_invariant (calls : list Call) :
  dom (results (after_calls calls)) ⊆ result_keys
  ∧ (total_validations (get_validation_summary (after_calls calls)) ≤ 3)%nat
  ∧ (passed_count (get_validation_summary (after_calls calls))
     + failed_count (get_validation_summary (after_calls calls)) ≤ 3)%nat.
Proof.
  assert (dom (results (after_calls calls)) ⊆ result_keys) as Hdom.
  { unfold after_calls.
    assert (∀ self, dom (results self) ⊆ result_keys →
                    dom (results (foldl after_call self calls)) ⊆ result_keys)
      as H.
    { induction calls as [|call calls IH]; intros self Hself; [done|].
      simpl. apply IH. pose proof (after_call_dom self call). set_solver. }
    apply H. unfold new_validator. cbn [results]. set_solver. }
  assert (total_validations (get_validation_summary (after_calls calls)) ≤ 3)%nat
    as Htotal.
  { destruct (summary_counts (after_calls calls)) as (_ & _ & -> & _).
    rewrite <- size_dom. apply subseteq_size in Hdom.
    assert (size result_keys = 3%nat) as Hsize by (vm_compute; reflexivity).
    lia. }
  split; [done|]. split; [done|].
  destruct (summary_counts (after_calls calls)) as (Hp & Hf & Ht & _).
  rewrite Hp, Hf. rewrite Ht in Htotal.
  enough (size (filter (λ kv : string * StoredResult, stored_passed kv.2 = true)
                  (results (after_calls calls)))
          + size (filter (λ kv : string * StoredResult, stored_passed kv.2 = false)
                    (results (after_calls calls)))
          = size (results (after_calls calls)))%nat by lia.
  generalize (results (after_calls calls)). intros m.
  induction m as [|key result m Hnone IH] using map_ind.
  - by rewrite !map_filter_empty, map_size_empty.
  - rewrite map_size_insert_None by done.
    destruct (stored_passed result) eqn:Hs.
    + rewrite map_filter_insert_True by done.
      rewrite map_filter_insert_False by (simpl; congruence).
      rewrite map_size_insert_None by (apply map_lookup_filter_None; by left).
      rewrite delete_id by done. lia.
    + rewrite map_filter_insert_False by (simpl; congruence).
      rewrite map_filter_insert_True by done.
      rewrite map_size_insert_None by (apply map_lookup_filter_None; by left).
      rewrite delete_id by done. lia.
Qed.

(** ** The results of the frame entry points *)

Lemma failed_messages_nil r1 r2 r3 r4 :
  failed_messages (assemble r1 r2 r3 r4) = []
  ↔ all_passed (assemble r1 r2 r3 r4) = true.
Proof.
  rewrite failed_messages_assemble, all_passed_assemble.
  destruct r4 as [r4|]; simpl;
    destruct (passed r1), (passed r2), (passed r3); try destruct (passed r4);
    simpl; split; congruence.
Qed.

(** X16.  The result of a frame entry point is consistent.  A result that
    comes from a run of the checker is for a frame that is not empty; its
    [records_validated] is the number of rows of the frame, which is not
    0; its [validation_passed] is the conjunction of its detailed results;
    its [issues_found] are the messages of the checks that failed, in the
    order in which they ran; so it passed exactly when it lists no issue.
    A result that comes from a failure has [validation_passed = False]
    and [records_validated = 0]. *)
Theorem validate_frame_result key expected_types self frame result self' :
  validate_frame key expected_types self frame = (Returned result, self') →
  match result with
  | CheckedResult validation_passed issues_found detailed_results
      records_validated =>
      ∃ df, frame = VFrame df
            ∧ df_empty df = false
            ∧ records_validated = index_len df
            ∧ records_validated ≠ 0%nat
            ∧ validation_passed = all_passed detailed_results
            ∧ issues_found = failed_messages detailed_results
            ∧ (validation_passed = true ↔ issues_found = [])
  | ErrorResult validation_passed _ records_validated =>
      validation_passed = false ∧ records_validated = 0%nat
  end.
Proof.
  unfold validate_frame, validate_frame_with.
  destruct frame as [[[]|]|df|x y others]; try discriminate.
  - by intros [= <- <-].
  - destruct (df_empty df) eqn:Hne; [by intros [= <- <-]|].
    unfold run_quality_checker. cbn [new_checker].
    set (checker := {| data := Some df; issues := fresh (dom (∅ : Store)) |}).
    set (σ0 := (<[fresh (dom (∅ : Store)) := []]> ∅ : Store)).
    destruct (run_all_checks checker (Some expected_types) default_threshold σ0)
      as [[report|e] σ] eqn:Hrun; [|by intros [= <- <-]].
    intros [= <- <-].
    destruct (run_all_checks_inv _ _ _ _ _ _ Hrun)
      as (r1 & r2 & r3 & r4 & _ & _ & _ & _ & Hrep & _).
    destruct (run_all_checks_logs _ _ _ _ _ _ Hrun) as [Hloc Hlogs].
    pose proof (Hlogs σ0) as E. rewrite Hrun in E. injection E as ->.
    exists df. split; [done|]. split; [done|]. split; [done|].
    split.
    { unfold df_empty in Hne. apply orb_false_iff in Hne as [Hn _].
      by apply Nat.eqb_neq in Hn. }
    assert (appends (issues checker) (issues_added checker report) σ0
              !!! issues_found report
            = failed_messages (detailed_results report)) as Hissues.
    { rewrite Hloc, appends_lookup_total. unfold σ0, checker. cbn [issues].
      by rewrite lookup_total_insert_eq. }
    change (issues checker) with (fresh (dom (∅ : Store))) in Hissues at 1.
    rewrite Hissues. subst report. cbn [validation_passed detailed_results].
    split; [done|]. split; [done|]. by rewrite failed_messages_nil.
Qed.

Lemma validate_frame_result_witness :
  ∃ result self',
    validate_posts_data new_validator (VFrame valid_posts)
    = (Returned result, self')
    ∧ tabular_records result = 2%nat.
Proof.
  destruct (validate_frame_returns "posts_data" posts_expected_types
              new_validator (Some valid_posts)) as (result & self' & Hrun).
  exists result, self'. split; [exact Hrun|].
  pose proof (validate_frame_result _ _ _ _ _ _ Hrun) as Hres.
  destruct result as [vp d n|vp found detailed n]; simpl.
  - exfalso. vm_compute in Hrun. discriminate.
  - destruct Hres as (df & [= <-] & _ & -> & _). reflexivity.
Defined.

(** ** The verdict on a frame *)

Lemma check_empty_dataset_bound self df :
  data self = Some df →
  check_empty_dataset self
  = report_check self
      {| passed := negb (Nat.eqb (index_len df) 0);
         extra := RowCount (index_len df);
         message := if Nat.eqb (index_len df) 0 then DatasetIsEmpty
                    else DatasetIsNotEmpty |}.
Proof. intros Hd. unfold check_empty_dataset. by rewrite Hd. Qed.

Lemma check_data_types_bound self df expected_types M σ :
  data self = Some df →
  type_mismatches_of df expected_types ∅ = Returned M →
  check_data_types self expected_types σ
  = report_check self
      {| passed := Nat.eqb (size M) 0;
         extra := TypeMismatches M;
         message := TypeMismatchesMessage (size M) |} σ.
Proof.
  intros Hd HM. unfold check_data_types, bind, lift. by rewrite Hd, HM.
Qed.

Lemma type_mismatches_none df expected_types (M : gmap string TypeIssue) :
  NoDup expected_types.*1 →
  (∀ col, col ∈ expected_types.*1 → (length (getitem df col) ≤ 1)%nat) →
  type_mismatches_of df expected_types ∅ = Returned M →
  M = ∅
  ↔ ∀ col expected_type,
      (col, expected_type) ∈ expected_types →
      ∃ s, getitem df col = [s] ∧ accepts expected_type (dtype s) = true.
Proof.
  intros Hnd Hlen HM.
  destruct (type_mismatches_of_spec df expected_types Hnd Hlen ∅)
    as (M' & HM' & Hlook).
  rewrite HM in HM'. injection HM' as <-. split.
  - intros -> col e Hin. pose proof (Hlook col) as Hcol.
    rewrite !lookup_empty, (elem_of_list_to_map_1 _ _ _ Hnd Hin) in Hcol.
    unfold type_issue_spec in Hcol.
    assert (length (getitem df col) ≤ 1)%nat as Hl.
    { apply Hlen. apply list_elem_of_fmap. by exists (col, e). }
    destruct (getitem df col) as [|s [|s' l]]; [done| |simpl in Hl; lia].
    exists s. split; [done|]. by destruct (accepts e (dtype s)).
  - intros Hall. apply map_eq. intros col. rewrite Hlook, !lookup_empty.
    destruct (list_to_map expected_types !! col) as [e|] eqn:He; [|done].
    apply elem_of_list_to_map_2 in He. destruct (Hall col e He) as (s & Hs & Ha).
    unfold type_issue_spec. by rewrite Hs, Ha.
Qed.

(** X17.  The frame entry points, on a frame that is not empty, whose
    cells can be hashed and which holds every expected label at most once,
    run the checker to the end: they return and store a result with as
    many records validated as the frame has rows, and that result passes
    exactly when no column misses more than half of its values, no two
    rows are equal, and every expected column is in the frame with an
    accepted dtype. *)
Theorem validate_frame_verdict key expected_types self df :
  checkable df expected_types →
  NoDup expected_types.*1 →
  ∃ result,
    validate_frame key expected_types self (VFrame df)
    = (Returned result,
       {| results := <[key := StoredResultDict result]> (results self) |})
    ∧ tabular_records result = index_len df
    ∧ (tabular_passed result = true
       ↔ (∀ name s, (name, s) ∈ columns df → ¬ exceeds df s default_threshold)
         ∧ NoDup (frame_rows df)
         ∧ ∀ col expected_type,
             (col, expected_type) ∈ expected_types →
             ∃ s, getitem df col = [s]
                  ∧ accepts expected_type (dtype s) = true).
Proof.
  intros (Hne & Hh & Hlen) Hnd.
  destruct (type_mismatches_of_spec df expected_types Hnd Hlen ∅)
    as (M & HM & _).
  pose proof (type_mismatches_none df expected_types M Hnd Hlen HM) as Htypes.
  unfold validate_frame, validate_frame_with, run_quality_checker.
  rewrite Hne. cbn [new_checker].
  set (checker := {| data := Some df; issues := fresh (dom (∅ : Store)) |}).
  set (σ0 := (<[fresh (dom (∅ : Store)) := []]> ∅ : Store)).
  set (R1 := {| passed := negb (Nat.eqb (index_len df) 0);
                extra := RowCount (index_len df);
                message := if Nat.eqb (index_len df) 0 then DatasetIsEmpty
                           else DatasetIsNotEmpty |}).
  set (R2 := missing_values_result df default_threshold).
  set (R3 := {| passed := Nat.eqb (count_repeated [] (frame_rows df)) 0;
                extra := DuplicateRows (count_repeated [] (frame_rows df));
                message := DuplicateRowsMessage
                             (count_repeated [] (frame_rows df)) |}).
  set (R4 := {| passed := Nat.eqb (size M) 0;
                extra := TypeMismatches M;
                message := TypeMismatchesMessage (size M) |}).
  assert (∃ σ', run_all_checks checker (Some expected_types) default_threshold σ0
                = (Returned
                     {| validation_passed :=
                          all_passed (assemble R1 R2 R3
                            (if supplied (Some expected_types) then Some R4
                             else None));
                        issues_found := issues checker;
                        detailed_results :=
                          assemble R1 R2 R3
                            (if supplied (Some expected_types) then Some R4
                             else None) |}, σ')) as [σ' Hrun].
  { unfold run_all_checks.
    rewrite (check_empty_dataset_bound checker df eq_refl).
    rewrite (check_missing_values_bound checker df _ eq_refl).
    unfold bind at 1. rewrite (report_check_logs checker _ σ0).
    unfold bind at 1. rewrite (report_check_logs checker _ _).
    unfold bind at 1.
    rewrite (check_duplicates_bound checker df _ eq_refl Hne Hh).
    rewrite (report_check_logs checker _ _).
    destruct (supplied (Some expected_types)).
    - unfold bind at 1. unfold bind at 1.
      change (default [] (Some expected_types)) with expected_types.
      rewrite (check_data_types_bound checker df expected_types M _ eq_refl HM).
      rewrite (report_check_logs checker _ _). unfold ret. by eexists.
    - unfold bind at 1. unfold ret. by eexists. }
  rewrite Hrun. eexists. split; [reflexivity|]. split; [reflexivity|].
  cbn [tabular_passed validation_passed]. rewrite all_passed_assemble.
  assert (passed R1 = true) as ->.
  { unfold R1. cbn [passed]. unfold df_empty in Hne.
    apply orb_false_iff in Hne as [-> _]. done. }
  assert (passed R3 = true ↔ NoDup (frame_rows df)) as H3.
  { unfold R3. cbn [passed]. rewrite Nat.eqb_eq, count_repeated_zero.
    split; [by intros [? _]|]. intros Hrows. split; [done|].
    intros r _ Hr. by apply elem_of_nil in Hr. }
  assert (from_option passed true
            (if supplied (Some expected_types) then Some R4 else None) = true
          ↔ ∀ col expected_type,
              (col, expected_type) ∈ expected_types →
              ∃ s, getitem df col = [s]
                   ∧ accepts expected_type (dtype s) = true) as H4.
  { rewrite <- Htypes. destruct expected_types as [|item items].
    - simpl. split; [|done]. intros _. simpl in HM. by injection HM as <-.
    - simpl. by rewrite Nat.eqb_eq, map_size_empty_iff. }
  rewrite !andb_true_iff, H3, H4. unfold R2.
  rewrite missing_values_passed. tauto.
Qed.

Lemma validate_frame_verdict_witness :
  checkable valid_posts posts_expected_types
  ∧ ∃ result,
      validate_posts_data new_validator (VFrame valid_posts)
      = (Returned result,
         {| results := <["posts_data" := StoredResultDict result]> ∅ |})
      ∧ tabular_records result = 2%nat.
Proof.
  assert (checkable valid_posts posts_expected_types) as Hc.
  { split; [reflexivity|]. split; [repeat constructor|].
    intros col Hcol. vm_compute in Hcol.
    repeat (apply elem_of_cons in Hcol as [->|Hcol]; [vm_compute; lia|]).
    by apply elem_of_nil in Hcol. }
  split; [exact Hc|].
  destruct (validate_frame_verdict "posts_data" posts_expected_types
              new_validator valid_posts Hc) as (result & Hrun & Hrec & _).
  { apply (bool_decide_unpack _). vm_compute. exact I. }
  exists result. split; [exact Hrun|exact Hrec].
Defined.
